(** * The e-commerce cart calculator of the ADK course, verified

    A shallow embedding of [Class 3 - Mastering Tools/Ecommerce/agent.py]:
    the data classes [Product], [CartItem] and [Cart], the catalog
    [PRODUCTS_DB], the helper [find_product_fuzzy] (with the part of
    Python's [difflib] it calls) and the nine tool functions; and of the
    dispatcher [call_mcp_tool] of
    [Class 4 - MCP/MCP_Ecommerce/ecommerce_mcp_server.py], which serves
    the same cart; followed by the properties of the cart calculator.

    Conventions of the embedding.
    - A Python [str] is a [string] holding one code point below 256 per
      character; [strip] and [lower] are Python's on that range.
    - A Python [int] is a [Z]; a Python [float] is a primitive binary64
      [float], so that every product, difference and comparison is the
      IEEE operation CPython performs.
    - The arguments of the tools have the types that the annotations
      declare; a quantity that [add_to_cart] tests with [isinstance] is any
      value, and the module [Unchecked] gives [remove_from_cart], which
      tests nothing, on a quantity that is a float.
    - The module globals ([PRODUCTS_DB], [cart], [search_history]) form the
      [state]; a tool is a function from a state to an outcome and a state.
    - An uncaught exception is the outcome [Raise].
    - Calls to [logger.info] write to the log stream only and are left out;
      the pictographs that open some message texts are left out too. *)

From Stdlib Require Import ZArith Floats String Ascii List Bool Lia Permutation Sorted.
From Stdlib Require Import DecimalString.
Import ListNotations.
Open Scope string_scope.
Open Scope list_scope.
Open Scope Z_scope.

(** ** Python strings *)

Module PyStr.

Definition code (c : ascii) : N := N_of_ascii c.

(** [str.isspace] on the code points below 256. *)
Definition is_space (c : ascii) : bool :=
  let n := code c in
  ((9 <=? n) && (n <=? 13) || (28 <=? n) && (n <=? 32)
   || (n =? 133) || (n =? 160))%N.

Definition lower_char (c : ascii) : ascii :=
  let n := code c in
  if ((65 <=? n) && (n <=? 90)
      || (192 <=? n) && (n <=? 222) && negb (n =? 215))%N
  then ascii_of_N (n + 32) else c.

(** [str.upper] maps a character to a string: U+00DF becomes "SS".  The
    upper-case forms of U+00B5 and U+00FF lie above 255; the model leaves
    these two characters in place. *)
Definition upper_char (c : ascii) : string :=
  let n := code c in
  if ((97 <=? n) && (n <=? 122)
      || (224 <=? n) && (n <=? 254) && negb (n =? 247))%N
  then String (ascii_of_N (n - 32)) ""
  else if (n =? 223)%N then "SS"
  else String c "".

Fixpoint lower (s : string) : string :=
  match s with
  | EmptyString => EmptyString
  | String c r => String (lower_char c) (lower r)
  end.

Fixpoint upper (s : string) : string :=
  match s with
  | EmptyString => EmptyString
  | String c r => (upper_char c ++ upper r)%string
  end.

Fixpoint lstrip (s : string) : string :=
  match s with
  | EmptyString => EmptyString
  | String c r => if is_space c then lstrip r else s
  end.

Fixpoint rstrip (s : string) : string :=
  match s with
  | EmptyString => EmptyString
  | String c r =>
      match rstrip r with
      | EmptyString => if is_space c then EmptyString else String c EmptyString
      | r' => String c r'
      end
  end.

Definition strip (s : string) : string := rstrip (lstrip s).

(** Truth value of a string: the empty string is false. *)
Definition truthy (s : string) : bool := negb (s =? "")%string.

End PyStr.

(** ** Python numbers *)

Inductive exn : Type :=
| OverflowError
| ValueError
| KeyError.

Inductive outcome (A : Type) : Type :=
| Ok (a : A)
| Raise (e : exn).
Arguments Ok {A} a.
Arguments Raise {A} e.

Definition obind {A B} (x : outcome A) (k : A -> outcome B) : outcome B :=
  match x with
  | Ok a => k a
  | Raise e => Raise e
  end.

Module PyNum.

(** The binary64 value nearest to an integer (ties to even). *)
Definition Z2float (z : Z) : float :=
  SF2Prim (binary_normalize prec emax z 0 false).

(** The integers whose nearest binary64 value is finite. *)
Definition float_range : Z := 2 ^ 1024 - 2 ^ 970.

(** Conversion of an [int] operand in mixed arithmetic
    ([PyLong_AsDouble]): "int too large to convert to float" when the
    rounded value would not be finite. *)
Definition float_of_int (z : Z) : outcome float :=
  if Z.abs z <? float_range then Ok (Z2float z) else Raise OverflowError.

(** [int(x)] for a float [x]: truncation towards zero. *)
Definition int_of_float (f : float) : outcome Z :=
  match Prim2SF f with
  | S754_zero _ => Ok 0
  | S754_infinity _ => Raise OverflowError
  | S754_nan => Raise ValueError
  | S754_finite s m e =>
      let v := if 0 <=? e then Z.pos m * 2 ^ e else Z.pos m / 2 ^ (- e) in
      Ok (if s then - v else v)
  end.

(** A number that is an [int] or a [float] at run time. *)
Inductive num : Type :=
| NInt (z : Z)
| NFloat (f : float).

Definition to_float (n : num) : outcome float :=
  match n with
  | NInt z => float_of_int z
  | NFloat f => Ok f
  end.

(** [n == 0]. *)
Definition is_zero (n : num) : bool :=
  match n with
  | NInt z => z =? 0
  | NFloat f => (f =? 0)%float
  end.

End PyNum.
Export PyNum.

(** ** Python values

    The tools return dictionaries.  [VFmt] is an f-string, given by its
    pieces in order; [VPrice n] is the string [format_price(n)] and
    [VExn e] the string [str(e)] of an exception. *)

Set Warnings "-register-all,-inexact-float".

Inductive value : Type :=
| VNone
| VBool (b : bool)
| VInt (z : Z)
| VFloat (f : float)
| VStr (s : string)
| VPrice (n : num)
| VExn (e : exn)
| VFmt (parts : list value)
| VList (l : list value)
| VDict (d : list (string * value)).

Fixpoint dict_get (k : string) (d : list (string * value)) : option value :=
  match d with
  | [] => None
  | (k', v) :: r => if (k =? k')%string then Some v else dict_get k r
  end.

(** [d[k]] of a returned dictionary, when it has the key. *)
Definition field (k : string) (v : value) : option value :=
  match v with
  | VDict d => dict_get k d
  | _ => None
  end.

Definition has_field (k : string) (v : value) : bool :=
  match field k v with
  | Some _ => true
  | None => false
  end.

(** [isinstance(v, int)]: [bool] is a subclass of [int]. *)
Definition isinstance_int (v : value) : option Z :=
  match v with
  | VInt z => Some z
  | VBool b => Some (Z.b2z b)
  | _ => None
  end.

(** ** The part of [difflib] behind [get_close_matches]

    [SequenceMatcher] with its defaults: no junk predicate, [autojunk] on.
    Sequences are lists of characters; [a] is the first sequence
    ([set_seq1]) and [b] the second ([set_seq2]). *)

Module Difflib.

Definition block : Type := (nat * nat * nat)%type.

Section SequenceMatcher.

Variables a b : list ascii.

Definition elt (l : list ascii) (i : nat) : ascii := nth i l Ascii.zero.

(** [__chain_b]: the positions of each element in [b], in increasing
    order, without the elements that are "popular" in a long [b]. *)
Fixpoint indices_from (j : nat) (c : ascii) (l : list ascii) : list nat :=
  match l with
  | [] => []
  | x :: r =>
      if Ascii.eqb x c then j :: indices_from (S j) c r
      else indices_from (S j) c r
  end.

Definition popular (c : ascii) : bool :=
  let n := length b in
  ((200 <=? n) && (n / 100 + 1 <? length (indices_from 0 c b)))%nat.

Definition b2j (c : ascii) : list nat :=
  if popular c then [] else indices_from 0 c b.

(** [j2len.get(j, 0)] on a dictionary kept as an association list. *)
Fixpoint j2len_get (m : list (nat * nat)) (j : nat) : nat :=
  match m with
  | [] => O
  | (j', k) :: r => if (j' =? j)%nat then k else j2len_get r j
  end.

(** The loop [for j in b2j.get(a[i], nothing)] of [find_longest_match].
    [i-k+1] is written [S i - k] since [k <= i + 1]. *)
Fixpoint scan_row (i blo bhi : nat) (j2len : list (nat * nat))
         (js : list nat) (newj2len : list (nat * nat)) (best : block)
  : list (nat * nat) * block :=
  match js with
  | [] => (newj2len, best)
  | j :: js' =>
      if (j <? blo)%nat then scan_row i blo bhi j2len js' newj2len best
      else if (bhi <=? j)%nat then (newj2len, best)
      else
        let k := S (match j with
                    | O => O
                    | S j' => j2len_get j2len j'
                    end) in
        let best' :=
          let '(_, _, bestsize) := best in
          if (bestsize <? k)%nat then (S i - k, S j - k, k)%nat else best in
        scan_row i blo bhi j2len js' ((j, k) :: newj2len) best'
  end.

(** The loop [for i in range(alo, ahi)]. *)
Fixpoint scan_rows (rows : list nat) (blo bhi : nat)
         (j2len : list (nat * nat)) (best : block) : block :=
  match rows with
  | [] => best
  | i :: rows' =>
      let '(newj2len, best') :=
        scan_row i blo bhi j2len (b2j (elt a i)) [] best in
      scan_rows rows' blo bhi newj2len best'
  end.

(** First [while]: grow the block to the left. *)
Fixpoint extend_left (alo blo besti bestj bestsize : nat) : block :=
  match besti, bestj with
  | S i', S j' =>
      if ((alo <? besti) && (blo <? bestj))%nat
         && Ascii.eqb (elt a i') (elt b j')
      then extend_left alo blo i' j' (S bestsize)
      else (besti, bestj, bestsize)
  | _, _ => (besti, bestj, bestsize)
  end.

(** Second [while]: grow the block to the right; [gap] is
    [ahi - (besti + bestsize)], the number of turns left. *)
Fixpoint extend_right (gap ahi bhi besti bestj bestsize : nat) : nat :=
  match gap with
  | O => bestsize
  | S gap' =>
      if ((besti + bestsize <? ahi) && (bestj + bestsize <? bhi))%nat
         && Ascii.eqb (elt a (besti + bestsize)) (elt b (bestj + bestsize))
      then extend_right gap' ahi bhi besti bestj (S bestsize)
      else bestsize
  end.

(** [find_longest_match(alo, ahi, blo, bhi)].  The two last loops of
    the source only run over junk elements, and there are none. *)
Definition find_longest_match (alo ahi blo bhi : nat) : block :=
  let '(i0, j0, k0) :=
    scan_rows (seq alo (ahi - alo)) blo bhi [] (alo, blo, O) in
  let '(besti, bestj, bestsize) := extend_left alo blo i0 j0 k0 in
  (besti, bestj,
   extend_right (ahi - (besti + bestsize)) ahi bhi besti bestj bestsize).

(** [get_matching_blocks]: the blocks found in [a[alo:ahi]] and
    [b[blo:bhi]], in increasing order.  The source keeps the ranges
    still to split in a queue; each range is split on its own, so the
    blocks are those of this recursion.  [fuel] bounds its depth. *)
Fixpoint blocks (fuel alo ahi blo bhi : nat) : list block :=
  match fuel with
  | O => []
  | S fuel' =>
      let '(i, j, k) := find_longest_match alo ahi blo bhi in
      if (k =? 0)%nat then []
      else
        (if ((alo <? i) && (blo <? j))%nat
         then blocks fuel' alo i blo j else [])
          ++ (i, j, k)
          :: (if ((i + k <? ahi) && (j + k <? bhi))%nat
              then blocks fuel' (i + k) ahi (j + k) bhi else [])
  end.

Definition get_matching_blocks : list block :=
  blocks (S (length a)) 0 (length a) 0 (length b).

Definition _calculate_ratio (matches length : nat) : float :=
  if (length =? 0)%nat then 1%float
  else (2 * Z2float (Z.of_nat matches) / Z2float (Z.of_nat length))%float.

Definition matches : nat :=
  fold_right (fun '(_, _, k) n => (k + n)%nat) O get_matching_blocks.

Definition ratio : float := _calculate_ratio matches (length a + length b).

(** [quick_ratio]: the size of the intersection of [a] and [b] as
    multisets.  [avail] is the dictionary of the source. *)
Fixpoint avail_get (avail : list (ascii * Z)) (c : ascii) : option Z :=
  match avail with
  | [] => None
  | (c', n) :: r => if Ascii.eqb c' c then Some n else avail_get r c
  end.

Fixpoint quick_matches (xs : list ascii) (avail : list (ascii * Z))
         (n : nat) : nat :=
  match xs with
  | [] => n
  | x :: r =>
      let numb :=
        match avail_get avail x with
        | Some m => m
        | None => Z.of_nat (count_occ ascii_dec b x)
        end in
      quick_matches r ((x, numb - 1) :: avail)
                    (if 0 <? numb then S n else n)
  end.

Definition quick_ratio : float :=
  _calculate_ratio (quick_matches a [] O) (length a + length b).

Definition real_quick_ratio : float :=
  _calculate_ratio (Nat.min (length a) (length b)) (length a + length b).

End SequenceMatcher.

(** The test of [get_close_matches] on one candidate [x]. *)
Definition is_close (cutoff : float) (word x : string) : bool :=
  let a := list_ascii_of_string x in
  let b := list_ascii_of_string word in
  (cutoff <=? real_quick_ratio a b)%float
  && (cutoff <=? quick_ratio a b)%float
  && (cutoff <=? ratio a b)%float.

Definition score (word x : string) : float :=
  ratio (list_ascii_of_string x) (list_ascii_of_string word).

(** [t1 > t2] on (score, string) pairs, as tuples compare: the first
    components decide unless they are equal. *)
Definition pair_gt (t1 t2 : float * string) : bool :=
  if (fst t1 =? fst t2)%float then String.ltb (snd t2) (snd t1)
  else (fst t2 <? fst t1)%float.

(** [max(result)]: the first of the greatest elements. *)
Fixpoint max_from (best : float * string) (l : list (float * string))
  : float * string :=
  match l with
  | [] => best
  | t :: r => max_from (if pair_gt t best then t else best) r
  end.

(** [get_close_matches(word, possibilities, n=1, cutoff)]; with [n = 1]
    [heapq.nlargest] is [max]. *)
Definition get_close_matches (word : string) (possibilities : list string)
           (cutoff : float) : list string :=
  let result :=
    map (fun x => (score word x, x))
        (filter (is_close cutoff word) possibilities) in
  match result with
  | [] => []
  | t :: r => [snd (max_from t r)]
  end.

End Difflib.

(** ** Configuration *)

Definition TAX_RATE : float := 0.08%float.
Definition SHIPPING_THRESHOLD : Z := 100.
Definition SHIPPING_COST : Z := 10.
Definition DISCOUNT_CODES : list (string * float) :=
  [("WELCOME10", 0.10%float); ("SAVE20", 0.20%float); ("VIP30", 0.30%float)].

(** Lookup in a dictionary whose keys are strings. *)
Fixpoint lookup {A : Type} (k : string) (d : list (string * A)) : option A :=
  match d with
  | [] => None
  | (k', v) :: r => if (k =? k')%string then Some v else lookup k r
  end.

Definition dict_keys {A : Type} (d : list (string * A)) : list string :=
  map fst d.

Definition dict_values {A : Type} (d : list (string * A)) : list A :=
  map snd d.

(** [k in d]. *)
Definition contains {A : Type} (k : string) (d : list (string * A)) : bool :=
  existsb (String.eqb k) (dict_keys d).

(** ** Data models *)

Module Product.
Record t : Type := mk {
  id : string;
  name : string;
  price : Z;
  stock : Z;
  features : list string;
  category : string;
  description : string;
  rating : float;
  reviews : Z
}.
End Product.

Module CartItem.
Record t : Type := mk {
  product_id : string;
  name : string;
  unit_price : Z;
  quantity : Z;
  subtotal : Z
}.

(** The constructor with [__post_init__]. *)
Definition new (product_id name : string) (unit_price quantity : Z) : t :=
  mk product_id name unit_price quantity (unit_price * quantity).

(** [==] of the data class: all fields. *)
Definition eqb (x y : t) : bool :=
  (product_id x =? product_id y)%string && (name x =? name y)%string
  && (unit_price x =? unit_price y) && (quantity x =? quantity y)
  && (subtotal x =? subtotal y).
End CartItem.

Module Cart.
Record t : Type := mk {
  items : list CartItem.t;
  discount_code : option string
}.

(** [sum(...)] adds from the left, starting at 0. *)
Definition py_sum (l : list Z) : Z := fold_left Z.add l 0.

Definition get_subtotal (self : t) : Z :=
  py_sum (map CartItem.subtotal (items self)).

Definition get_discount_amount (self : t) : outcome float :=
  match discount_code self with
  | Some code =>
      if PyStr.truthy code then
        match lookup code DISCOUNT_CODES with
        | Some rate =>
            obind (float_of_int (get_subtotal self)) (fun s =>
            Ok (s * rate)%float)
        | None => Ok 0%float
        end
      else Ok 0%float
  | None => Ok 0%float
  end.

Definition get_tax (self : t) : outcome float :=
  obind (get_discount_amount self) (fun discount =>
  obind (float_of_int (get_subtotal self)) (fun s =>
  let subtotal_after_discount := (s - discount)%float in
  Ok (subtotal_after_discount * TAX_RATE)%float)).

Definition get_shipping (self : t) : num :=
  if SHIPPING_THRESHOLD <=? get_subtotal self then NFloat 0%float
  else NInt SHIPPING_COST.

Definition get_total (self : t) : outcome float :=
  let subtotal := get_subtotal self in
  obind (get_discount_amount self) (fun discount =>
  obind (get_tax self) (fun tax =>
  let shipping := get_shipping self in
  obind (float_of_int subtotal) (fun s =>
  obind (to_float shipping) (fun sh =>
  Ok (s - discount + tax + sh)%float)))).
End Cart.

(** ** The catalog *)

Definition PRODUCTS_DB : list (string * Product.t) :=
  [ ("gaming laptop pro",
     Product.mk "LPG001" "Gaming Laptop Pro" 1500 10
       ["RTX 4070"; "32GB RAM"; "1TB SSD"; "144Hz Display"]
       "Computers" "High-end gaming laptop for the most demanding games"
       4.8%float 127);
    ("mechanical rgb keyboard",
     Product.mk "TEC005" "Mechanical RGB Keyboard" 120 25
       ["Cherry MX Switches"; "Customizable RGB"; "TKL"; "USB-C"]
       "Peripherals" "Premium mechanical keyboard with full RGB lighting"
       4.6%float 89);
    ("4k hdr monitor",
     Product.mk "MON003" "4K HDR Monitor" 400 5
       ["27 inches"; "144Hz"; "HDR10"; "G-Sync Compatible"]
       "Monitors"
       "4K gaming monitor with HDR for an immersive visual experience"
       4.9%float 203);
    ("gaming mouse pro",
     Product.mk "MOU002" "Gaming Mouse Pro" 80 15
       ["16000 DPI"; "RGB"; "8 programmable buttons"; "Wireless"]
       "Peripherals" "Professional gaming mouse with high-precision sensor"
       4.7%float 156);
    ("7.1 headphones",
     Product.mk "AUR004" "Gaming Headphones 7.1" 150 8
       ["7.1 Surround Sound"; "Retractable microphone"; "RGB";
        "Noise cancellation"]
       "Audio" "Gaming headphones with surround sound for maximum immersion"
       4.5%float 94) ].

(** ** The state: the module globals *)

Record state : Type := mkState {
  products_db : list (string * Product.t);
  cart : Cart.t;
  search_history : list string
}.

Definition initial_state : state :=
  mkState PRODUCTS_DB (Cart.mk [] None) [].

(** A computation reads and writes the globals and returns or raises. *)
Definition M (A : Type) : Type := state -> outcome A * state.

Definition ret {A} (a : A) : M A := fun st => (Ok a, st).

Definition bind {A B} (c : M A) (k : A -> M B) : M B :=
  fun st =>
    match c st with
    | (Ok a, st') => k a st'
    | (Raise e, st') => (Raise e, st')
    end.

Definition lift {A} (x : outcome A) : M A := fun st => (x, st).

Definition gets {A} (f : state -> A) : M A := fun st => (Ok (f st), st).

Definition set_cart (c : Cart.t) : M unit :=
  fun st => (Ok tt, mkState (products_db st) c (search_history st)).

Definition set_search_history (h : list string) : M unit :=
  fun st => (Ok tt, mkState (products_db st) (cart st) h).

Declare Scope tool_scope.
Delimit Scope tool_scope with tool.
Notation "x <- c ;; k" := (bind c (fun x => k))
  (at level 61, c at next level, right associativity) : tool_scope.
Notation "' p <- c ;; k" := (bind c (fun p => k))
  (at level 61, p pattern, c at next level, right associativity) : tool_scope.
Notation "c ;;; k" := (bind c (fun _ => k))
  (at level 61, right associativity) : tool_scope.
Open Scope tool_scope.

(** [for x in l], collecting what the body returns. *)
Fixpoint for_each {A B} (f : A -> outcome B) (l : list A) : outcome (list B) :=
  match l with
  | [] => Ok []
  | x :: r =>
      obind (f x) (fun y => obind (for_each f r) (fun ys => Ok (y :: ys)))
  end.

(** ** Helper functions *)

Definition find_product_fuzzy (db : list (string * Product.t)) (name : string)
  : outcome (option (string * Product.t)) :=
  let name_lower := PyStr.lower (PyStr.strip name) in
  if contains name_lower db then
    match lookup name_lower db with
    | Some p => Ok (Some (name_lower, p))
    | None => Raise KeyError
    end
  else
    let product_names := dict_keys db in
    let matches :=
      Difflib.get_close_matches name_lower product_names 0.6%float in
    match matches with
    | match_ :: _ =>
        match lookup match_ db with
        | Some p => Ok (Some (match_, p))
        | None => Raise KeyError
        end
    | [] => Ok None
    end.

(** [format_price(amount)]: the format [,.2f] turns an [int] into a
    [float] first. *)
Definition format_price (amount : num) : outcome value :=
  obind (to_float amount) (fun _ => Ok (VPrice amount)).

(** ** The text of a price

    [format_price] returns [f"${amount:,.2f}"]: the amount as a float,
    rounded to two decimals (the decimal nearest to the binary value,
    ties to even), with commas between the groups of three digits of
    the integer part. *)

Module PyFormat.

(** The decimal digits of a natural number. *)
Definition decimal (n : Z) : string :=
  NilZero.string_of_uint (N.to_uint (Z.to_N n)).

(** The digits in groups of three, from the right, with commas. *)
Fixpoint group_rev (l : list ascii) (k : nat) : list ascii :=
  match l with
  | [] => []
  | c :: r =>
      match k with
      | 3%nat => ","%char :: c :: group_rev r 1
      | _ => c :: group_rev r (S k)
      end
  end.

Definition group (digits : string) : string :=
  string_of_list_ascii
    (rev (group_rev (rev (list_ascii_of_string digits)) 0)).

(** Two digits, for the hundredths. *)
Definition two (n : Z) : string :=
  if n <? 10 then ("0" ++ decimal n)%string else decimal n.

(** [n / 2 ^ k] rounded to the nearest integer, ties to even, for
    [0 < k]. *)
Definition round_half_even (n k : Z) : Z :=
  let q := Z.shiftr n k in
  let r := n - Z.shiftl q k in
  let half := Z.shiftl 1 (k - 1) in
  if r <? half then q
  else if half <? r then q + 1
  else if Z.even q then q else q + 1.

(** The hundredths nearest to [m * 2 ^ e]. *)
Definition hundredths (m : positive) (e : Z) : Z :=
  if 0 <=? e then Z.shiftl (Z.pos m * 100) e
  else round_half_even (Z.pos m * 100) (- e).

(** A number of hundredths, with its sign, in the format [,.2f]. *)
Definition render (negative : bool) (hundredths : Z) : string :=
  ((if negative then "-" else "")
   ++ group (decimal (hundredths / 100)) ++ "."
   ++ two (hundredths mod 100))%string.

(** [format(x, ",.2f")] for a float [x]. *)
Definition format_2f (x : float) : string :=
  match Prim2SF x with
  | S754_zero s => render s 0
  | S754_infinity s => ((if s then "-" else "") ++ "inf")%string
  | S754_nan => "nan"
  | S754_finite s m e => render s (hundredths m e)
  end.

End PyFormat.

(** The text that [format_price(amount)] returns, which the results hold
    as [VPrice amount]. *)
Definition price_text (amount : num) : outcome string :=
  obind (to_float amount) (fun x => Ok ("$" ++ PyFormat.format_2f x)%string).

(** [get_cart_item_by_product]: the first item with this product id.  The
    result is a reference into [cart.items]: the position of the item,
    with the item as it is now. *)
Fixpoint find_item (product_id : string) (pos : nat) (items : list CartItem.t)
  : option (nat * CartItem.t) :=
  match items with
  | [] => None
  | item :: r =>
      if (CartItem.product_id item =? product_id)%string then Some (pos, item)
      else find_item product_id (S pos) r
  end.

Definition get_cart_item_by_product (product_id : string)
  : M (option (nat * CartItem.t)) :=
  gets (fun st => find_item product_id 0 (Cart.items (cart st))).

(** Assignment to the fields of the item at a position of [cart.items]. *)
Fixpoint set_nth (pos : nat) (item : CartItem.t) (items : list CartItem.t)
  : list CartItem.t :=
  match items, pos with
  | [], _ => []
  | _ :: r, O => item :: r
  | x :: r, S pos' => x :: set_nth pos' item r
  end.

(** [list.remove(item)]: drops the first element equal to [item];
    [ValueError] when there is none. *)
Fixpoint list_remove (item : CartItem.t) (items : list CartItem.t)
  : outcome (list CartItem.t) :=
  match items with
  | [] => Raise ValueError
  | x :: r =>
      if CartItem.eqb x item then Ok r
      else obind (list_remove item r) (fun r' => Ok (x :: r'))
  end.

Definition set_items (items : list CartItem.t) : M unit :=
  c <- gets cart;;
  set_cart (Cart.mk items (Cart.discount_code c)).

Definition set_discount_code (code : option string) : M unit :=
  c <- gets cart;;
  set_cart (Cart.mk (Cart.items c) code).

Definition error_ (message : value) (more : list (string * value)) : value :=
  VDict (("status", VStr "error") :: ("message", message) :: more).

(** [sum(item.quantity for item in cart.items)]. *)
Definition total_units (items : list CartItem.t) : Z :=
  Cart.py_sum (map CartItem.quantity items).

(** [sep.join(l)], as the pieces of the joined string. *)
Fixpoint join (sep : string) (l : list value) : list value :=
  match l with
  | [] => []
  | [x] => [x]
  | x :: r => x :: VStr sep :: join sep r
  end.

(** ** The tools *)

(** A line of the suggestions of [search_product_by_name], for an entry
    of the catalog. *)
Definition suggestion (entry : string * Product.t) : outcome value :=
  let '(name, p) := entry in
  obind (format_price (NInt (Product.price p))) (fun fp =>
  Ok (VFmt [VStr (Product.name p); VStr " ("; fp; VStr ")"])).

Definition search_product_by_name (product_name : string) : M value :=
  h <- gets search_history;;
  set_search_history (h ++ [product_name]);;;
  db <- gets products_db;;
  result <- lift (find_product_fuzzy db product_name);;
  match result with
  | Some (key, product) =>
      formatted_price <- lift (format_price (NInt (Product.price product)));;
      ret (VDict
        [("status", VStr "success");
         ("product", VDict
            [("id", VStr (Product.id product));
             ("name", VStr (Product.name product));
             ("price", VInt (Product.price product));
             ("formatted_price", formatted_price);
             ("stock", VInt (Product.stock product));
             ("features", VList (map VStr (Product.features product)));
             ("category", VStr (Product.category product));
             ("description", VStr (Product.description product));
             ("rating", VFmt [VFloat (Product.rating product); VStr "/5.0 (";
                              VInt (Product.reviews product);
                              VStr " reviews)"]);
             ("available", VBool (0 <? Product.stock product))]);
         ("message", VFmt [VStr "Product '"; VStr (Product.name product);
                           VStr "' found."])])
  | None =>
      suggestions <- lift (for_each suggestion (firstn 3 db));;
      ret (VDict
        [("status", VStr "not_found");
         ("message", VFmt [VStr "Couldn't find '"; VStr product_name;
                           VStr "'."]);
         ("suggestions", VList suggestions);
         ("suggestions_text",
          VFmt (VStr "Available products:\n" :: join "\n" suggestions))])
  end.

Definition add_to_cart (product : string) (quantity : value) : M value :=
  match isinstance_int quantity with
  | None => ret (error_ (VStr "Quantity must be a positive integer.") [])
  | Some q =>
      if q <=? 0
      then ret (error_ (VStr "Quantity must be a positive integer.") [])
      else
        db <- gets products_db;;
        result <- lift (find_product_fuzzy db product);;
        match result with
        | None =>
            ret (error_
              (VFmt [VStr "Couldn't find product '"; VStr product;
                     VStr "'. Use 'search_product' to see options."]) [])
        | Some (key, product_info) =>
            existing_item <- get_cart_item_by_product (Product.id product_info);;
            let current_quantity :=
              match existing_item with
              | Some (_, item) => CartItem.quantity item
              | None => 0
              end in
            if Product.stock product_info <? current_quantity + q then
              let available := Product.stock product_info - current_quantity in
              ret (error_
                (VFmt [VStr "Insufficient stock. Only "; VInt available;
                       VStr " units available for '";
                       VStr (Product.name product_info); VStr "'."])
                [("current_stock", VInt (Product.stock product_info));
                 ("in_cart", VInt current_quantity);
                 ("available", VInt available)])
            else
              c <- gets cart;;
              match existing_item with
              | Some (pos, item) =>
                  let quantity' := CartItem.quantity item + q in
                  set_items (set_nth pos
                    (CartItem.mk (CartItem.product_id item) (CartItem.name item)
                       (CartItem.unit_price item) quantity'
                       (CartItem.unit_price item * quantity'))
                    (Cart.items c))
              | None =>
                  set_items (Cart.items c ++
                    [CartItem.new (Product.id product_info)
                       (Product.name product_info)
                       (Product.price product_info) q])
              end;;;
              c <- gets cart;;
              let total_items := total_units (Cart.items c) in
              let subtotal := Cart.get_subtotal c in
              unit_price <- lift (format_price (NInt (Product.price product_info)));;
              added <- lift (format_price (NInt (Product.price product_info * q)));;
              formatted <- lift (format_price (NInt subtotal));;
              ret (VDict
                [("status", VStr "success");
                 ("message", VFmt [VStr "Added "; quantity; VStr "x '";
                                   VStr (Product.name product_info);
                                   VStr "' to cart."]);
                 ("added_product", VDict
                    [("name", VStr (Product.name product_info));
                     ("quantity", quantity);
                     ("unit_price", unit_price);
                     ("subtotal", added)]);
                 ("cart_summary", VDict
                    [("total_items", VInt total_items);
                     ("subtotal", formatted);
                     ("free_shipping",
                      VBool (SHIPPING_THRESHOLD <=? subtotal))])])
        end
  end.

(** The dictionary built for each line of the cart by [view_cart]. *)
Definition item_detail (item : CartItem.t) : outcome value :=
  obind (format_price (NInt (CartItem.unit_price item))) (fun unit_price =>
  obind (format_price (NInt (CartItem.subtotal item))) (fun subtotal =>
  Ok (VDict [("name", VStr (CartItem.name item));
             ("quantity", VInt (CartItem.quantity item));
             ("unit_price", unit_price);
             ("subtotal", subtotal)]))).

Definition view_cart : M value :=
  c <- gets cart;;
  match Cart.items c with
  | [] =>
      ret (VDict
        [("status", VStr "empty");
         ("message", VStr "Cart is empty.");
         ("suggestion", VStr "You can search for available products or ask for recommendations.")])
  | _ =>
      items_detail <- lift (for_each item_detail (Cart.items c));;
      let subtotal := Cart.get_subtotal c in
      discount <- lift (Cart.get_discount_amount c);;
      tax <- lift (Cart.get_tax c);;
      let shipping := Cart.get_shipping c in
      total <- lift (Cart.get_total c);;
      f_subtotal <- lift (format_price (NInt subtotal));;
      f_discount <- (if (0 <? discount)%float
                     then lift (format_price (NFloat discount))
                     else ret VNone);;
      f_tax <- lift (format_price (NFloat tax));;
      f_shipping <- lift (format_price shipping);;
      f_total <- lift (format_price (NFloat total));;
      let summary :=
        [("status", VStr "success");
         ("items", VList items_detail);
         ("total_products", VInt (Z.of_nat (length (Cart.items c))));
         ("total_units", VInt (total_units (Cart.items c)));
         ("calculations", VDict
            [("subtotal", f_subtotal);
             ("discount", f_discount);
             ("discount_code",
              match Cart.discount_code c with
              | Some code => VStr code
              | None => VNone
              end);
             ("taxes", f_tax);
             ("shipping", f_shipping);
             ("free_shipping", VBool (is_zero shipping));
             ("total", f_total)])] in
      summary <- (if (0 <? discount)%float then
                    saving <- lift (format_price (NFloat discount));;
                    ret (summary ++
                         [("savings_message",
                           VFmt [VStr "You're saving "; saving; VStr "!"])])
                  else ret summary);;
      let summary :=
        if is_zero shipping && (SHIPPING_THRESHOLD <=? subtotal)
        then summary ++ [("shipping_message", VStr "Free shipping included!")]
        else summary in
      ret (VDict summary)
  end.

Definition apply_discount (code : string) : M value :=
  c <- gets cart;;
  match Cart.items c with
  | [] =>
      ret (error_
        (VStr "Cart is empty. Add products before applying discounts.") [])
  | _ =>
      let code_upper := PyStr.upper (PyStr.strip code) in
      match lookup code_upper DISCOUNT_CODES with
      | None =>
          ret (error_
            (VFmt [VStr "Code '"; VStr code; VStr "' is not valid."])
            [("available_codes", VList (map VStr (dict_keys DISCOUNT_CODES)))])
      | Some discount_pct =>
          set_discount_code (Some code_upper);;;
          c <- gets cart;;
          discount_amt <- lift (Cart.get_discount_amount c);;
          hundred <- lift (float_of_int 100);;
          pct <- lift (int_of_float (discount_pct * hundred)%float);;
          amount <- lift (format_price (NFloat discount_amt));;
          original <- lift (format_price (NInt (Cart.get_subtotal c)));;
          total <- lift (Cart.get_total c);;
          with_discount <- lift (format_price (NFloat total));;
          ret (VDict
            [("status", VStr "success");
             ("message", VFmt [VStr "Code '"; VStr code_upper;
                               VStr "' applied: "; VInt pct;
                               VStr "% discount"]);
             ("discount", VDict
                [("percentage", VFmt [VInt pct; VStr "%"]);
                 ("amount", amount);
                 ("original_subtotal", original);
                 ("total_with_discount", with_discount)])])
      end
  end.

(** [quantity] is of the declared type, [Optional[int]]; the function
    tests no type, and [Unchecked.remove_from_cart] below is the same
    function on a quantity of any number type. *)
Definition remove_from_cart (product : string) (quantity : option Z) : M value :=
  db <- gets products_db;;
  result <- lift (find_product_fuzzy db product);;
  match result with
  | None =>
      ret (error_
        (VFmt [VStr "Product '"; VStr product; VStr "' not found in cart."]) [])
  | Some (key, product_info) =>
      found <- get_cart_item_by_product (Product.id product_info);;
      match found with
      | None =>
          ret (error_
            (VFmt [VStr "'"; VStr (Product.name product_info);
                   VStr "' is not in the cart."]) [])
      | Some (pos, item) =>
          let remove_completely :=
            c <- gets cart;;
            items' <- lift (list_remove item (Cart.items c));;
            set_items items';;;
            ret (VDict
              [("status", VStr "success");
               ("message", VFmt [VStr "Completely removed '";
                                 VStr (Product.name product_info);
                                 VStr "' from cart."]);
               ("removed_product", VStr (Product.name product_info));
               ("removed_quantity", VInt (CartItem.quantity item))]) in
          match quantity with
          | None => remove_completely
          | Some n =>
              if CartItem.quantity item <=? n then remove_completely
              else if 0 <? n then
                c <- gets cart;;
                let quantity' := CartItem.quantity item - n in
                set_items (set_nth pos
                  (CartItem.mk (CartItem.product_id item) (CartItem.name item)
                     (CartItem.unit_price item) quantity'
                     (CartItem.unit_price item * quantity'))
                  (Cart.items c));;;
                ret (VDict
                  [("status", VStr "success");
                   ("message", VFmt [VStr "Removed "; VInt n;
                                     VStr " units of '";
                                     VStr (Product.name product_info);
                                     VStr "'."]);
                   ("removed_quantity", VInt n);
                   ("remaining_quantity", VInt quantity')])
              else
                ret (error_ (VStr "Quantity must be greater than zero.") [])
          end
      end
  end.

Definition clear_cart : M value :=
  c <- gets cart;;
  let items_count := Z.of_nat (length (Cart.items c)) in
  let units_count := total_units (Cart.items c) in
  set_items [];;;
  set_discount_code None;;;
  ret (VDict
    [("status", VStr "success");
     ("message", VStr "Cart cleared successfully.");
     ("removed_products", VInt items_count);
     ("removed_units", VInt units_count)]).

(** The dictionary built for each line of the cart by [calculate_total]. *)
Definition product_summary (item : CartItem.t) : outcome value :=
  obind (format_price (NInt (CartItem.unit_price item))) (fun unit_price =>
  obind (format_price (NInt (CartItem.subtotal item))) (fun subtotal =>
  Ok (VDict [("product", VStr (CartItem.name item));
             ("quantity", VInt (CartItem.quantity item));
             ("unit_price", unit_price);
             ("subtotal", subtotal)]))).

Definition calculate_total : M value :=
  c <- gets cart;;
  match Cart.items c with
  | [] =>
      zero <- lift (format_price (NInt 0));;
      ret (VDict
        [("status", VStr "empty");
         ("message", VStr "Cart is empty.");
         ("total", zero)])
  | _ =>
      let subtotal := Cart.get_subtotal c in
      discount <- lift (Cart.get_discount_amount c);;
      tax <- lift (Cart.get_tax c);;
      let shipping := Cart.get_shipping c in
      total <- lift (Cart.get_total c);;
      f_subtotal <- lift (format_price (NInt subtotal));;
      d_discount <- (if (0 <? discount)%float then
                       amount <- lift (format_price (NFloat discount));;
                       ret (VDict
                         [("code",
                           match Cart.discount_code c with
                           | Some code => VStr code
                           | None => VNone
                           end);
                          ("amount", amount)])
                     else ret VNone);;
      hundred <- lift (float_of_int 100);;
      rate <- lift (int_of_float (TAX_RATE * hundred)%float);;
      f_tax <- lift (format_price (NFloat tax));;
      f_shipping <- lift (format_price shipping);;
      f_threshold <- lift (format_price (NInt SHIPPING_THRESHOLD));;
      f_total <- lift (format_price (NFloat total));;
      f_total' <- lift (format_price (NFloat total));;
      lines <- lift (for_each product_summary (Cart.items c));;
      let breakdown :=
        [("status", VStr "success");
         ("product_summary", VList lines);
         ("subtotal", f_subtotal);
         ("discount", d_discount);
         ("taxes", VDict [("rate", VFmt [VInt rate; VStr "%"]);
                          ("amount", f_tax)]);
         ("shipping", VDict [("cost", f_shipping);
                             ("free", VBool (is_zero shipping));
                             ("free_threshold", f_threshold)]);
         ("total", f_total);
         ("message", VFmt [VStr "Total to pay: "; f_total'])] in
      savings1 <- (if (0 <? discount)%float then
                     d <- lift (format_price (NFloat discount));;
                     ret [VFmt [VStr "Discount: "; d]]
                   else ret []);;
      savings2 <- (if is_zero shipping && (SHIPPING_THRESHOLD <=? subtotal) then
                     s <- lift (format_price (NInt SHIPPING_COST));;
                     ret [VFmt [VStr "Free shipping: "; s]]
                   else ret []);;
      let savings := savings1 ++ savings2 in
      match savings with
      | [] => ret (VDict breakdown)
      | _ =>
          extra <- lift (float_of_int
                           (if is_zero shipping then SHIPPING_COST else 0));;
          saved <- lift (format_price (NFloat (discount + extra)%float));;
          ret (VDict (breakdown ++
            [("total_savings", VDict [("items", VList savings);
                                      ("total", saved)])]))
      end
  end.

(** [(p.rating, p.reviews) < (q.rating, q.reviews)], as tuples compare. *)
Definition key_lt (p q : Product.t) : bool :=
  if (Product.rating p =? Product.rating q)%float
  then Product.reviews p <? Product.reviews q
  else (Product.rating p <? Product.rating q)%float.

(** A stable sort by increasing key: [x] goes after every element that is
    not greater than it. *)
Fixpoint insert_sorted (x : Product.t) (l : list Product.t) : list Product.t :=
  match l with
  | [] => [x]
  | y :: r => if key_lt x y then x :: l else y :: insert_sorted x r
  end.

Definition sort_asc (l : list Product.t) : list Product.t :=
  fold_left (fun sorted x => insert_sorted x sorted) l [].

(** [list.sort(key=..., reverse=True)]: the list is reversed, sorted by
    increasing key and reversed again, which keeps equal keys in their
    original order. *)
Definition sort_reverse (l : list Product.t) : list Product.t :=
  rev (sort_asc (rev l)).

(** [list(set(...))]: the distinct elements.  Python fixes no order for
    them; the model lists them by first occurrence. *)
Definition distinct (l : list string) : list string :=
  rev (nodup string_dec (rev l)).

Definition recommendation (p : Product.t) : outcome value :=
  obind (format_price (NInt (Product.price p))) (fun price =>
  Ok (VDict [("name", VStr (Product.name p));
             ("price", price);
             ("rating", VFmt [VFloat (Product.rating p); VStr "/5.0"]);
             ("category", VStr (Product.category p));
             ("description", VStr (Product.description p));
             ("available", VBool (0 <? Product.stock p))])).

Definition recommend_products (category : option string) : M value :=
  db <- gets products_db;;
  let products := dict_values db in
  let given :=
    match category with
    | Some c => PyStr.truthy c
    | None => false
    end in
  let wanted := match category with Some c => c | None => "" end in
  let products :=
    if given
    then filter (fun p => (PyStr.lower (Product.category p)
                           =? PyStr.lower wanted)%string) products
    else products in
  match given, products with
  | true, [] =>
      ret (VDict
        [("status", VStr "error");
         ("message", VFmt [VStr "No products in category '"; VStr wanted;
                           VStr "'."]);
         ("available_categories",
          VList (map VStr (distinct (map Product.category (dict_values db)))))])
  | _, _ =>
      let products := sort_reverse products in
      recommendations <- lift (for_each recommendation (firstn 3 products));;
      ret (VDict
        [("status", VStr "success");
         ("category", VStr (if given then wanted else "All"));
         ("recommendations", VList recommendations);
         ("message", VFmt [VStr "Top ";
                           VInt (Z.of_nat (length recommendations));
                           VStr " recommended products"])])
  end.

Definition show_search_history : M value :=
  h <- gets search_history;;
  match h with
  | [] =>
      ret (VDict [("status", VStr "empty");
                  ("message", VStr "No recent searches.")])
  | _ =>
      ret (VDict
        [("status", VStr "success");
         ("history", VList (map VStr (skipn (length h - 5) h)));
         ("total_searches", VInt (Z.of_nat (length h)))])
  end.

(** ** Tool calls *)

Inductive call : Type :=
| SearchProductByName (product_name : string)
| AddToCart (product : string) (quantity : value)
| ViewCart
| ApplyDiscount (code : string)
| RemoveFromCart (product : string) (quantity : option Z)
| ClearCart
| CalculateTotal
| RecommendProducts (category : option string)
| ShowSearchHistory.

Definition run (c : call) : M value :=
  match c with
  | SearchProductByName product_name => search_product_by_name product_name
  | AddToCart product quantity => add_to_cart product quantity
  | ViewCart => view_cart
  | ApplyDiscount code => apply_discount code
  | RemoveFromCart product quantity => remove_from_cart product quantity
  | ClearCart => clear_cart
  | CalculateTotal => calculate_total
  | RecommendProducts category => recommend_products category
  | ShowSearchHistory => show_search_history
  end.

(** The states the process can be in: the initial one and those a tool
    call leaves behind. *)
Inductive reachable : state -> Prop :=
| reachable_init : reachable initial_state
| reachable_step st c : reachable st -> reachable (snd (run c st)).

Definition exec (calls : list call) : state :=
  fold_left (fun st c => snd (run c st)) calls initial_state.

(** ** The MCP server

    [Class 4 - MCP/MCP_Ecommerce/ecommerce_mcp_server.py]: the same data
    classes and helpers, a catalog with other keys, and one dispatcher,
    [call_mcp_tool], for all the tools.  A call gives the name of a tool
    and its arguments, typed as the [inputSchema] of [list_mcp_tools]
    declares them.  The calls to [print] write to the standard output
    only and are left out. *)

Module Mcp.

Definition PRODUCTS_DB : list (string * Product.t) :=
  [ ("gaming laptop pro",
     Product.mk "LPG001" "Gaming Laptop Pro" 1500 10
       ["RTX 4070"; "32GB RAM"; "1TB SSD"; "144Hz Display"]
       "Computers" "High-end gaming laptop for the most demanding games"
       4.8%float 127);
    ("mechanical keyboard rgb",
     Product.mk "TEC005" "Mechanical Keyboard RGB" 120 25
       ["Cherry MX Switches"; "Customizable RGB"; "TKL"; "USB-C"]
       "Peripherals" "Premium mechanical keyboard with full RGB lighting"
       4.6%float 89);
    ("4k hdr monitor",
     Product.mk "MON003" "4K HDR Monitor" 400 5
       ["27 inches"; "144Hz"; "HDR10"; "G-Sync Compatible"]
       "Monitors"
       "4K gaming monitor with HDR for immersive visual experience"
       4.9%float 203);
    ("gaming mouse pro",
     Product.mk "MOU002" "Gaming Mouse Pro" 80 15
       ["16000 DPI"; "RGB"; "8 programmable buttons"; "Wireless"]
       "Peripherals" "Professional gaming mouse with high-precision sensor"
       4.7%float 156);
    ("gaming headset 7.1",
     Product.mk "AUR004" "Gaming Headset 7.1" 150 8
       ["7.1 Surround Sound"; "Retractable Microphone"; "RGB";
        "Noise Cancellation"]
       "Audio" "Gaming headset with surround sound for maximum immersion"
       4.5%float 94) ].

(** [shopping_cart] and [search_history] at the start. *)
Definition initial_state : state :=
  mkState PRODUCTS_DB (Cart.mk [] None) [].

Definition serialize_product (product : Product.t) : value :=
  VDict [("id", VStr (Product.id product));
         ("name", VStr (Product.name product));
         ("price", VInt (Product.price product));
         ("stock", VInt (Product.stock product));
         ("features", VList (map VStr (Product.features product)));
         ("category", VStr (Product.category product));
         ("description", VStr (Product.description product));
         ("rating", VFloat (Product.rating product));
         ("reviews", VInt (Product.reviews product))].

(** The [arguments] of a call: the properties that the input schemas
    declare, each one given or left out. *)
Record arguments : Type := mkArguments {
  product_name : option string;
  product : option string;
  quantity : option Z;
  code : option string;
  category : option string
}.

(** [d.get(key, default)]. *)
Definition get {A : Type} (x : option A) (default : A) : A :=
  match x with
  | Some v => v
  | None => default
  end.

(** [mcp_types.Tool]: a name, a description and the JSON schema of the
    arguments. *)
Module Tool.
Record t : Type := mk {
  name : string;
  description : string;
  inputSchema : value
}.
End Tool.

(** [list_mcp_tools]: the tools that the server advertises. *)
Definition list_mcp_tools : list Tool.t :=
  [ Tool.mk "search_product"
      "Search for a product by name with fuzzy search"
      (VDict
         [("type", VStr "object");
          ("properties", VDict
             [("product_name", VDict
                 [("type", VStr "string");
                  ("description",
                   VStr "Name of the product to search for")])]);
          ("required", VList [VStr "product_name"])]);
    Tool.mk "add_to_cart"
      "Add products to cart with stock validation"
      (VDict
         [("type", VStr "object");
          ("properties", VDict
             [("product", VDict
                 [("type", VStr "string");
                  ("description", VStr "Product name")]);
              ("quantity", VDict
                 [("type", VStr "integer");
                  ("description", VStr "Quantity to add");
                  ("default", VInt 1)])]);
          ("required", VList [VStr "product"])]);
    Tool.mk "view_cart"
      "Show detailed cart with calculations"
      (VDict [("type", VStr "object"); ("properties", VDict [])]);
    Tool.mk "apply_discount"
      "Apply a discount code to the cart"
      (VDict
         [("type", VStr "object");
          ("properties", VDict
             [("code", VDict
                 [("type", VStr "string");
                  ("description", VStr "Discount code")])]);
          ("required", VList [VStr "code"])]);
    Tool.mk "remove_from_cart"
      "Remove products from cart"
      (VDict
         [("type", VStr "object");
          ("properties", VDict
             [("product", VDict
                 [("type", VStr "string");
                  ("description", VStr "Product name")]);
              ("quantity", VDict
                 [("type", VStr "integer");
                  ("description", VStr "Quantity to remove (null = all)");
                  ("nullable", VBool true)])]);
          ("required", VList [VStr "product"])]);
    Tool.mk "clear_cart"
      "Clear the entire cart"
      (VDict [("type", VStr "object"); ("properties", VDict [])]);
    Tool.mk "calculate_total"
      "Calculate detailed cart total"
      (VDict [("type", VStr "object"); ("properties", VDict [])]);
    Tool.mk "recommend_products"
      "Recommend products by category or popularity"
      (VDict
         [("type", VStr "object");
          ("properties", VDict
             [("category", VDict
                 [("type", VStr "string");
                  ("description", VStr "Specific category (optional)");
                  ("nullable", VBool true)])])]);
    Tool.mk "show_history"
      "Show recent search history"
      (VDict [("type", VStr "object"); ("properties", VDict [])]) ].

Definition item_detail (item : CartItem.t) : outcome value :=
  obind (format_price (NInt (CartItem.unit_price item))) (fun unit_price =>
  obind (format_price (NInt (CartItem.subtotal item))) (fun subtotal =>
  Ok (VDict [("name", VStr (CartItem.name item));
             ("quantity", VInt (CartItem.quantity item));
             ("unit_price", unit_price);
             ("subtotal", subtotal)]))).

Definition recommendation (p : Product.t) : outcome value :=
  obind (format_price (NInt (Product.price p))) (fun price =>
  Ok (VDict [("name", VStr (Product.name p));
             ("price", price);
             ("rating", VFmt [VFloat (Product.rating p); VStr "/5.0"]);
             ("category", VStr (Product.category p))])).

(** The branches of [call_mcp_tool], one for each tool name. *)

Definition search_product (arguments : arguments) : M value :=
  let product_name := get (product_name arguments) "" in
  h <- gets search_history;;
  set_search_history (h ++ [product_name]);;;
  db <- gets products_db;;
  product_result <- lift (find_product_fuzzy db product_name);;
  match product_result with
  | Some (key, product) =>
      formatted_price <- lift (format_price (NInt (Product.price product)));;
      ret (VDict
        [("status", VStr "success");
         ("product", serialize_product product);
         ("formatted_price", formatted_price);
         ("available", VBool (0 <? Product.stock product));
         ("message", VFmt [VStr "Product '"; VStr (Product.name product);
                           VStr "' found."])])
  | None =>
      suggestions <- lift (for_each suggestion (firstn 3 db));;
      ret (VDict
        [("status", VStr "not_found");
         ("message", VFmt [VStr "Couldn't find '"; VStr product_name;
                           VStr "'."]);
         ("suggestions", VList suggestions)])
  end.

Definition add_to_cart (arguments : arguments) : M value :=
  let product := get (product arguments) "" in
  let quantity := get (quantity arguments) 1 in
  (* [quantity] is an [int]: [isinstance(quantity, int)] holds *)
  if quantity <=? 0
  then ret (error_ (VStr "Quantity must be a positive integer.") [])
  else
    db <- gets products_db;;
    product_result <- lift (find_product_fuzzy db product);;
    match product_result with
    | None =>
        ret (error_ (VFmt [VStr "Couldn't find product '";
                           VStr product; VStr "'."]) [])
    | Some (key, product_info) =>
        existing_item <-
          get_cart_item_by_product (Product.id product_info);;
        let current_quantity :=
          match existing_item with
          | Some (_, item) => CartItem.quantity item
          | None => 0
          end in
        if Product.stock product_info <? current_quantity + quantity then
          let available :=
            Product.stock product_info - current_quantity in
          ret (error_
            (VFmt [VStr "Insufficient stock. Only "; VInt available;
                   VStr " units available."]) [])
        else
          c <- gets cart;;
          match existing_item with
          | Some (pos, item) =>
              let quantity' := CartItem.quantity item + quantity in
              set_items (set_nth pos
                (CartItem.mk (CartItem.product_id item)
                   (CartItem.name item) (CartItem.unit_price item)
                   quantity' (CartItem.unit_price item * quantity'))
                (Cart.items c))
          | None =>
              set_items (Cart.items c ++
                [CartItem.new (Product.id product_info)
                   (Product.name product_info)
                   (Product.price product_info) quantity])
          end;;;
          c <- gets cart;;
          let total_items := total_units (Cart.items c) in
          let subtotal := Cart.get_subtotal c in
          formatted <- lift (format_price (NInt subtotal));;
          ret (VDict
            [("status", VStr "success");
             ("message", VFmt [VStr "Added "; VInt quantity; VStr "x '";
                               VStr (Product.name product_info);
                               VStr "' to cart."]);
             ("cart_summary", VDict
                [("total_items", VInt total_items);
                 ("subtotal", formatted);
                 ("free_shipping",
                  VBool (SHIPPING_THRESHOLD <=? subtotal))])])
    end.

Definition view_cart : M value :=
 c <- gets cart;;
  match Cart.items c with
  | [] =>
      ret (VDict [("status", VStr "empty");
                  ("message", VStr "Cart is empty.")])
  | _ =>
      items_detail <- lift (for_each item_detail (Cart.items c));;
      let subtotal := Cart.get_subtotal c in
      discount <- lift (Cart.get_discount_amount c);;
      tax <- lift (Cart.get_tax c);;
      let shipping := Cart.get_shipping c in
      total <- lift (Cart.get_total c);;
      f_subtotal <- lift (format_price (NInt subtotal));;
      f_discount <- (if (0 <? discount)%float
                     then lift (format_price (NFloat discount))
                     else ret VNone);;
      f_tax <- lift (format_price (NFloat tax));;
      f_shipping <- lift (format_price shipping);;
      f_total <- lift (format_price (NFloat total));;
      ret (VDict
        [("status", VStr "success");
         ("items", VList items_detail);
         ("calculations", VDict
            [("subtotal", f_subtotal);
             ("discount", f_discount);
             ("discount_code",
              match Cart.discount_code c with
              | Some code => VStr code
              | None => VNone
              end);
             ("tax", f_tax);
             ("shipping", f_shipping);
             ("total", f_total)])])
  end.

Definition apply_discount (arguments : arguments) : M value :=
  let code := PyStr.upper (PyStr.strip (get (code arguments) "")) in
  c <- gets cart;;
  match Cart.items c with
  | [] => ret (error_ (VStr "Cart is empty.") [])
  | _ =>
      match lookup code DISCOUNT_CODES with
      | None =>
          ret (error_
            (VFmt [VStr "Code '"; VStr code; VStr "' is not valid."])
            [("available_codes",
              VList (map VStr (dict_keys DISCOUNT_CODES)))])
      | Some discount_pct =>
          set_discount_code (Some code);;;
          c <- gets cart;;
          discount_amt <- lift (Cart.get_discount_amount c);;
          hundred <- lift (float_of_int 100);;
          pct <- lift (int_of_float (discount_pct * hundred)%float);;
          amount <- lift (format_price (NFloat discount_amt));;
          total <- lift (Cart.get_total c);;
          with_discount <- lift (format_price (NFloat total));;
          ret (VDict
            [("status", VStr "success");
             ("message", VFmt [VStr "Code '"; VStr code;
                               VStr "' applied: "; VInt pct;
                               VStr "% discount"]);
             ("discount", VDict
                [("percentage", VFmt [VInt pct; VStr "%"]);
                 ("amount", amount);
                 ("total_with_discount", with_discount)])])
      end
  end.

Definition remove_from_cart (arguments : arguments) : M value :=
  let product := get (product arguments) "" in
  let quantity := quantity arguments in
  db <- gets products_db;;
  product_result <- lift (find_product_fuzzy db product);;
  match product_result with
  | None =>
      ret (error_ (VFmt [VStr "Product '"; VStr product;
                         VStr "' not found."]) [])
  | Some (key, product_info) =>
      found <- get_cart_item_by_product (Product.id product_info);;
      match found with
      | None =>
          ret (error_ (VFmt [VStr "'"; VStr (Product.name product_info);
                             VStr "' is not in cart."]) [])
      | Some (pos, item) =>
          let remove_completely :=
            c <- gets cart;;
            items' <- lift (list_remove item (Cart.items c));;
            set_items items';;;
            ret (VDict
              [("status", VStr "success");
               ("message", VFmt [VStr "Removed '";
                                 VStr (Product.name product_info);
                                 VStr "' from cart."])]) in
          match quantity with
          | None => remove_completely
          | Some n =>
              if CartItem.quantity item <=? n then remove_completely
              else if 0 <? n then
                c <- gets cart;;
                let quantity' := CartItem.quantity item - n in
                set_items (set_nth pos
                  (CartItem.mk (CartItem.product_id item)
                     (CartItem.name item) (CartItem.unit_price item)
                     quantity' (CartItem.unit_price item * quantity'))
                  (Cart.items c));;;
                ret (VDict
                  [("status", VStr "success");
                   ("message", VFmt [VStr "Removed "; VInt n;
                                     VStr " units of '";
                                     VStr (Product.name product_info);
                                     VStr "'."])])
              else
                ret (error_
                       (VStr "Quantity must be greater than zero.") [])
          end
      end
  end.

Definition clear_cart : M value :=
  c <- gets cart;;
  let items_count := Z.of_nat (length (Cart.items c)) in
  set_items [];;;
  set_discount_code None;;;
  ret (VDict [("status", VStr "success");
              ("message", VStr "Cart cleared successfully.");
              ("products_removed", VInt items_count)]).

Definition calculate_total : M value :=
  c <- gets cart;;
  match Cart.items c with
  | [] =>
      zero <- lift (format_price (NInt 0));;
      ret (VDict [("status", VStr "empty");
                  ("message", VStr "Cart is empty.");
                  ("total", zero)])
  | _ =>
      f_subtotal <- lift (format_price (NInt (Cart.get_subtotal c)));;
      discount <- lift (Cart.get_discount_amount c);;
      f_discount <- lift (format_price (NFloat discount));;
      tax <- lift (Cart.get_tax c);;
      f_tax <- lift (format_price (NFloat tax));;
      f_shipping <- lift (format_price (Cart.get_shipping c));;
      total <- lift (Cart.get_total c);;
      f_total <- lift (format_price (NFloat total));;
      total' <- lift (Cart.get_total c);;
      f_total' <- lift (format_price (NFloat total'));;
      ret (VDict
        [("status", VStr "success");
         ("subtotal", f_subtotal);
         ("discount", f_discount);
         ("tax", f_tax);
         ("shipping", f_shipping);
         ("total", f_total);
         ("message", VFmt [VStr "Total to pay: "; f_total'])])
  end.

Definition recommend_products (arguments : arguments) : M value :=
  let category := category arguments in
  db <- gets products_db;;
  let products := dict_values db in
  match category with
  | Some c =>
      if PyStr.truthy c then
        let products :=
          filter (fun p => (PyStr.lower (Product.category p)
                            =? PyStr.lower c)%string) products in
        match products with
        | [] =>
            ret (VDict
              [("status", VStr "error");
               ("message", VFmt [VStr "No products in category '";
                                 VStr c; VStr "'."]);
               ("available_categories",
                VList (map VStr (distinct (map Product.category
                                               (dict_values db)))))])
        | _ =>
            let products := sort_reverse products in
            recommendations <-
              lift (for_each recommendation (firstn 3 products));;
            ret (VDict
              [("status", VStr "success");
               ("category", VStr c);
               ("recommendations", VList recommendations)])
        end
      else
        let products := sort_reverse products in
        recommendations <-
          lift (for_each recommendation (firstn 3 products));;
        ret (VDict
          [("status", VStr "success");
           ("recommendations", VList recommendations)])
  | None =>
      let products := sort_reverse products in
      recommendations <-
        lift (for_each recommendation (firstn 3 products));;
      ret (VDict
        [("status", VStr "success");
         ("recommendations", VList recommendations)])
  end.

Definition show_history : M value :=
  h <- gets search_history;;
  match h with
  | [] =>
      ret (VDict [("status", VStr "empty");
                  ("message", VStr "No recent searches.")])
  | _ =>
      ret (VDict
        [("status", VStr "success");
         ("history", VList (map VStr (skipn (length h - 5) h)));
         ("total_searches", VInt (Z.of_nat (length h)))])
  end.

Definition not_implemented (name : string) : M value :=
  ret (error_ (VFmt [VStr "Tool '"; VStr name;
                     VStr "' not implemented."]) []).

(** The body of the [try] of [call_mcp_tool]: the [result]. *)
Definition dispatch (name : string) (arguments : arguments) : M value :=
  if (name =? "search_product")%string then search_product arguments
  else if (name =? "add_to_cart")%string then add_to_cart arguments
  else if (name =? "view_cart")%string then view_cart
  else if (name =? "apply_discount")%string then apply_discount arguments
  else if (name =? "remove_from_cart")%string then remove_from_cart arguments
  else if (name =? "clear_cart")%string then clear_cart
  else if (name =? "calculate_total")%string then calculate_total
  else if (name =? "recommend_products")%string
       then recommend_products arguments
  else if (name =? "show_history")%string then show_history
  else not_implemented name.

(** [call_mcp_tool]: the result, or the payload of the [except] branch,
    as the dictionary whose JSON text is returned. *)
Definition call_mcp_tool (name : string) (arguments : arguments) : M value :=
  fun st =>
    match dispatch name arguments st with
    | (Ok result, st') => (Ok result, st')
    | (Raise e, st') =>
        (Ok (VDict [("error", VFmt [VStr "Failed to execute tool '";
                                    VStr name; VStr "': "; VExn e])]), st')
    end.

Inductive reachable : state -> Prop :=
| reachable_init : reachable initial_state
| reachable_step st name arguments :
    reachable st -> reachable (snd (call_mcp_tool name arguments st)).

Definition exec (calls : list (string * arguments)) : state :=
  fold_left (fun st c => snd (call_mcp_tool (fst c) (snd c) st)) calls
    initial_state.

End Mcp.

(** ** Quantities that are not integers

    The annotations give the quantity of a line and the [quantity] of
    [remove_from_cart] as [int].  [add_to_cart] tests it with
    [isinstance]; [remove_from_cart] tests nothing and computes with a
    [float] as it does with an [int].  In this module the quantity and the
    subtotal of a line are numbers of either type, and [remove_from_cart]
    takes [None] or any number. *)

Module Unchecked.

(** An [int] against a [float], by their exact values, as the comparison
    of CPython does: [None] when the float is not a number. *)
Definition compare_int_float (z : Z) (f : float) : option comparison :=
  match Prim2SF f with
  | S754_nan => None
  | S754_infinity s => Some (if s then Gt else Lt)
  | S754_zero _ => Some (z ?= 0)
  | S754_finite s m e =>
      let v := if s then Z.neg m else Z.pos m in
      Some (if 0 <=? e then z ?= v * 2 ^ e else z * 2 ^ (- e) ?= v)
  end.

Definition compare (a b : num) : option comparison :=
  match a, b with
  | NInt x, NInt y => Some (x ?= y)
  | NInt x, NFloat g => compare_int_float x g
  | NFloat f, NInt y => option_map CompOpp (compare_int_float y f)
  | NFloat f, NFloat g => SFcompare (Prim2SF f) (Prim2SF g)
  end.

(** [a >= b], [a > b] and [a == b]. *)
Definition ge (a b : num) : bool :=
  match compare a b with
  | Some Gt | Some Eq => true
  | _ => false
  end.

Definition gt (a b : num) : bool :=
  match compare a b with
  | Some Gt => true
  | _ => false
  end.

Definition eqb (a b : num) : bool :=
  match compare a b with
  | Some Eq => true
  | _ => false
  end.

(** [a - b] and [a * b]: on two [int]s an [int], otherwise the operation
    of the floats, an [int] operand converted first. *)
Definition sub (a b : num) : outcome num :=
  match a, b with
  | NInt x, NInt y => Ok (NInt (x - y))
  | _, _ =>
      obind (to_float a) (fun x =>
      obind (to_float b) (fun y => Ok (NFloat (x - y)%float)))
  end.

Definition mul (a b : num) : outcome num :=
  match a, b with
  | NInt x, NInt y => Ok (NInt (x * y))
  | _, _ =>
      obind (to_float a) (fun x =>
      obind (to_float b) (fun y => Ok (NFloat (x * y)%float)))
  end.

Definition of_num (n : num) : value :=
  match n with
  | NInt z => VInt z
  | NFloat f => VFloat f
  end.

Module CartItem.
Record t : Type := mk {
  product_id : string;
  name : string;
  unit_price : Z;
  quantity : num;
  subtotal : num
}.

(** [==] of the data class: all fields. *)
Definition eqb (x y : t) : bool :=
  (product_id x =? product_id y)%string && (name x =? name y)%string
  && (unit_price x =? unit_price y) && Unchecked.eqb (quantity x) (quantity y)
  && Unchecked.eqb (subtotal x) (subtotal y).
End CartItem.

Module Cart.
Record t : Type := mk {
  items : list CartItem.t;
  discount_code : option string
}.
End Cart.

Record state : Type := mkState {
  products_db : list (string * Product.t);
  cart : Cart.t;
  search_history : list string
}.

(** [get_cart_item_by_product]: the first item with this product id, and
    its position in [cart.items]. *)
Fixpoint find_item (product_id : string) (pos : nat) (items : list CartItem.t)
  : option (nat * CartItem.t) :=
  match items with
  | [] => None
  | item :: r =>
      if (CartItem.product_id item =? product_id)%string then Some (pos, item)
      else find_item product_id (S pos) r
  end.

Fixpoint set_nth (pos : nat) (item : CartItem.t) (items : list CartItem.t)
  : list CartItem.t :=
  match items, pos with
  | [], _ => []
  | _ :: r, O => item :: r
  | x :: r, S pos' => x :: set_nth pos' item r
  end.

(** [list.remove(item)] for the item at [pos]: the first element that is
    this item, or is equal to it, goes; [i] is the position of the head
    of [items]. *)
Fixpoint list_remove (pos : nat) (item : CartItem.t) (i : nat)
         (items : list CartItem.t) : outcome (list CartItem.t) :=
  match items with
  | [] => Raise ValueError
  | x :: r =>
      if (i =? pos)%nat || CartItem.eqb x item then Ok r
      else obind (list_remove pos item (S i) r) (fun r' => Ok (x :: r'))
  end.

Definition with_items (items : list CartItem.t) (st : state) : state :=
  mkState (products_db st)
          (Cart.mk items (Cart.discount_code (cart st))) (search_history st).

Definition remove_from_cart (product : string) (quantity : option num)
           (st : state) : outcome value * state :=
  match find_product_fuzzy (products_db st) product with
  | Raise e => (Raise e, st)
  | Ok None =>
      (Ok (error_
         (VFmt [VStr "Product '"; VStr product; VStr "' not found in cart."])
         []), st)
  | Ok (Some (key, product_info)) =>
      let items := Cart.items (cart st) in
      match find_item (Product.id product_info) 0 items with
      | None =>
          (Ok (error_
             (VFmt [VStr "'"; VStr (Product.name product_info);
                    VStr "' is not in the cart."]) []), st)
      | Some (pos, item) =>
          let remove_completely :=
            match list_remove pos item 0 items with
            | Raise e => (Raise e, st)
            | Ok items' =>
                (Ok (VDict
                   [("status", VStr "success");
                    ("message", VFmt [VStr "Completely removed '";
                                      VStr (Product.name product_info);
                                      VStr "' from cart."]);
                    ("removed_product", VStr (Product.name product_info));
                    ("removed_quantity", of_num (CartItem.quantity item))]),
                 with_items items' st)
            end in
          match quantity with
          | None => remove_completely
          | Some n =>
              if ge n (CartItem.quantity item) then remove_completely
              else if gt n (NInt 0) then
                match sub (CartItem.quantity item) n with
                | Raise e => (Raise e, st)
                | Ok quantity' =>
                    let requantified subtotal :=
                      with_items
                        (set_nth pos
                           (CartItem.mk (CartItem.product_id item)
                              (CartItem.name item) (CartItem.unit_price item)
                              quantity' subtotal) items) st in
                    match mul (NInt (CartItem.unit_price item)) quantity' with
                    | Raise e => (Raise e, requantified (CartItem.subtotal item))
                    | Ok subtotal' =>
                        (Ok (VDict
                           [("status", VStr "success");
                            ("message", VFmt [VStr "Removed "; of_num n;
                                              VStr " units of '";
                                              VStr (Product.name product_info);
                                              VStr "'."]);
                            ("removed_quantity", of_num n);
                            ("remaining_quantity", of_num quantity')]),
                         requantified subtotal')
                    end
                end
              else
                (Ok (error_ (VStr "Quantity must be greater than zero.") []),
                 st)
          end
      end
  end.

End Unchecked.

(** A state whose quantities are integers, among the states of
    [Unchecked]. *)
Definition unchecked_item (x : CartItem.t) : Unchecked.CartItem.t :=
  Unchecked.CartItem.mk (CartItem.product_id x) (CartItem.name x)
    (CartItem.unit_price x) (NInt (CartItem.quantity x))
    (NInt (CartItem.subtotal x)).

Definition unchecked (st : state) : Unchecked.state :=
  Unchecked.mkState (products_db st)
    (Unchecked.Cart.mk (map unchecked_item (Cart.items (cart st)))
       (Cart.discount_code (cart st)))
    (search_history st).

(** * Notions of the properties *)

(** ** The invariant of the state *)

(** The product of a catalog with a given identifier. *)
Definition product_by_id (db : list (string * Product.t)) (pid : string)
  : option Product.t :=
  find (fun p => (Product.id p =? pid)%string) (dict_values db).

(** A catalog as the cart needs it: no two products with the same
    identifier, and prices, stocks and a number of products that keep the
    amounts far below 2^53. *)
Definition catalog_ok (db : list (string * Product.t)) : Prop :=
  NoDup (map Product.id (dict_values db))
  /\ Forall (fun p => 0 < Product.price p <= 1000000
                      /\ 0 < Product.stock p <= 1000) (dict_values db)
  /\ (length db <= 1000)%nat.

(** A line of the cart: a positive quantity and the subtotal that goes
    with it. *)
Definition line_ok (item : CartItem.t) : Prop :=
  0 < CartItem.quantity item
  /\ CartItem.subtotal item = CartItem.unit_price item * CartItem.quantity item.

(** A line of the cart copies a product of the catalog and stays within
    its stock. *)
Definition line_of_catalog (db : list (string * Product.t))
           (item : CartItem.t) : Prop :=
  exists p,
    product_by_id db (CartItem.product_id item) = Some p
    /\ CartItem.name item = Product.name p
    /\ CartItem.unit_price item = Product.price p
    /\ CartItem.quantity item <= Product.stock p.

Definition code_ok (code : option string) : Prop :=
  match code with
  | Some k => exists rate, lookup k DISCOUNT_CODES = Some rate
  | None => True
  end.

Record invariant (st : state) : Prop := {
  inv_catalog : catalog_ok (products_db st);
  inv_lines : Forall line_ok (Cart.items (cart st));
  inv_of_catalog :
    Forall (line_of_catalog (products_db st)) (Cart.items (cart st));
  inv_nodup : NoDup (map CartItem.product_id (Cart.items (cart st)));
  inv_code : code_ok (Cart.discount_code (cart st))
}.

(** ** The effect of a tool on the state *)

Definition readonly {A} (m : M A) : Prop := forall st, snd (m st) = st.

Definition with_items (items : list CartItem.t) (st : state) : state :=
  mkState (products_db st)
          (Cart.mk items (Cart.discount_code (cart st))) (search_history st).

Definition with_code (code : option string) (st : state) : state :=
  mkState (products_db st) (Cart.mk (Cart.items (cart st)) code)
          (search_history st).

(** The quantity of a product that is in the cart. *)
Definition in_cart (pid : string) (items : list CartItem.t) : Z :=
  match find_item pid 0 items with
  | Some (_, item) => CartItem.quantity item
  | None => 0
  end.

(** The line of a product with a new quantity. *)
Definition requantify (item : CartItem.t) (quantity : Z) : CartItem.t :=
  CartItem.mk (CartItem.product_id item) (CartItem.name item)
    (CartItem.unit_price item) quantity (CartItem.unit_price item * quantity).

(** The items after [q] units of [p] went into the cart. *)
Definition add_line (p : Product.t) (q : Z) (items : list CartItem.t)
  : list CartItem.t :=
  match find_item (Product.id p) 0 items with
  | Some (pos, item) =>
      set_nth pos (requantify item (CartItem.quantity item + q)) items
  | None =>
      items ++ [CartItem.new (Product.id p) (Product.name p) (Product.price p) q]
  end.

(** The items after a removal of the line [item] at [pos]. *)
Definition remove_line (pos : nat) (item : CartItem.t) (quantity : option Z)
           (items : list CartItem.t) : list CartItem.t :=
  let completely :=
    match list_remove item items with
    | Ok items' => items'
    | Raise _ => items
    end in
  match quantity with
  | None => completely
  | Some n =>
      if CartItem.quantity item <=? n then completely
      else if 0 <? n
           then set_nth pos (requantify item (CartItem.quantity item - n)) items
           else items
  end.

(** The lines of the other products. *)
Definition without (pid : string) (items : list CartItem.t) : list CartItem.t :=
  filter (fun x => negb (CartItem.product_id x =? pid)%string) items.

(** The state after each of the tools that write it. *)
Definition search_effect (product_name : string) (st : state) : state :=
  mkState (products_db st) (cart st) (search_history st ++ [product_name]).

Definition add_to_cart_effect (product : string) (quantity : value)
           (st : state) : state :=
  match isinstance_int quantity with
  | Some q =>
      if q <=? 0 then st
      else match find_product_fuzzy (products_db st) product with
           | Ok (Some (_, p)) =>
               if Product.stock p
                  <? in_cart (Product.id p) (Cart.items (cart st)) + q
               then st
               else with_items (add_line p q (Cart.items (cart st))) st
           | _ => st
           end
  | None => st
  end.

Definition apply_discount_effect (code : string) (st : state) : state :=
  match Cart.items (cart st) with
  | [] => st
  | _ =>
      match lookup (PyStr.upper (PyStr.strip code)) DISCOUNT_CODES with
      | Some _ => with_code (Some (PyStr.upper (PyStr.strip code))) st
      | None => st
      end
  end.

Definition remove_from_cart_effect (product : string) (quantity : option Z)
           (st : state) : state :=
  match find_product_fuzzy (products_db st) product with
  | Ok (Some (_, p)) =>
      match find_item (Product.id p) 0 (Cart.items (cart st)) with
      | Some (pos, item) =>
          with_items (remove_line pos item quantity (Cart.items (cart st))) st
      | None => st
      end
  | _ => st
  end.

Definition clear_cart_effect (st : state) : state :=
  mkState (products_db st) (Cart.mk [] None) (search_history st).

(** The state after a call of the MCP server. *)
Definition mcp_effect (name : string) (arguments : Mcp.arguments)
           (st : state) : state :=
  if (name =? "search_product")%string
  then search_effect (Mcp.get (Mcp.product_name arguments) "") st
  else if (name =? "add_to_cart")%string
  then add_to_cart_effect (Mcp.get (Mcp.product arguments) "")
         (VInt (Mcp.get (Mcp.quantity arguments) 1)) st
  else if (name =? "apply_discount")%string
  then apply_discount_effect (Mcp.get (Mcp.code arguments) "") st
  else if (name =? "remove_from_cart")%string
  then remove_from_cart_effect (Mcp.get (Mcp.product arguments) "")
         (Mcp.quantity arguments) st
  else if (name =? "clear_cart")%string then clear_cart_effect st
  else st.

(** ** The amounts of a cart *)

Definition discount_rate (code : option string) : option float :=
  match code with
  | Some k => if PyStr.truthy k then lookup k DISCOUNT_CODES else None
  | None => None
  end.

Definition discount_value (c : Cart.t) : float :=
  match discount_rate (Cart.discount_code c) with
  | Some rate => (Z2float (Cart.get_subtotal c) * rate)%float
  | None => 0%float
  end.

Definition tax_value (c : Cart.t) : float :=
  ((Z2float (Cart.get_subtotal c) - discount_value c) * TAX_RATE)%float.

Definition shipping_value (c : Cart.t) : float :=
  if SHIPPING_THRESHOLD <=? Cart.get_subtotal c then 0%float
  else Z2float SHIPPING_COST.

Definition total_value (c : Cart.t) : float :=
  (Z2float (Cart.get_subtotal c) - discount_value c + tax_value c
   + shipping_value c)%float.

(** ** Results *)

(** The status of what a tool returned, and a field of it. *)
Definition status_of (r : outcome value) : option string :=
  match r with
  | Ok v =>
      match field "status" v with
      | Some (VStr s) => Some s
      | _ => None
      end
  | Raise _ => None
  end.

Definition result_field (k : string) (r : outcome value) : option value :=
  match r with
  | Ok v => field k v
  | Raise _ => None
  end.

(** A returned dictionary with one of the four statuses. *)
Definition tagged (status : string) (v : value) : Prop :=
  field "status" v = Some (VStr status).

(** Whether [recommend_products] filters, and the products it keeps. *)
Definition category_given (category : option string) : bool :=
  match category with
  | Some c => PyStr.truthy c
  | None => false
  end.

Definition in_category (c : string) (products : list Product.t)
  : list Product.t :=
  filter (fun p => (PyStr.lower (Product.category p) =? PyStr.lower c)%string)
         products.

Definition remaining_products (db : list (string * Product.t))
           (category : option string) : list Product.t :=
  match category with
  | Some c =>
      if PyStr.truthy c then in_category c (dict_values db)
      else dict_values db
  | None => dict_values db
  end.

Definition statuses : list string := ["success"; "error"; "empty"; "not_found"].

(** A result with a given status, with or without a message. *)
Definition answers (r : outcome value) (status : string) (message : bool)
  : Prop :=
  exists v, r = Ok v /\ tagged status v /\ has_field "message" v = message.

Definition mcp_tools : list string :=
  ["search_product"; "add_to_cart"; "view_cart"; "apply_discount";
   "remove_from_cart"; "clear_cart"; "calculate_total";
   "recommend_products"; "show_history"].

(** ** Orders *)

(** The comparison of two floats: [None] when one is not a number. *)
Definition fcmp (x y : float) : option comparison :=
  SFcompare (Prim2SF x) (Prim2SF y).

(** Increasing: no element is less than one before it. *)
Definition increasing : list Product.t -> Prop :=
  StronglySorted (fun a b => key_lt b a = false).

(** Decreasing: no element is less than one after it. *)
Definition decreasing : list Product.t -> Prop :=
  StronglySorted (fun a b => key_lt a b = false).

(** What a successful recommendation returns: the first three of the
    products kept, sorted by decreasing (rating, reviews). *)
Definition recommended (r : outcome value) (products : list Product.t) : Prop :=
  exists sorted recs,
    Permutation sorted products
    /\ decreasing sorted
    /\ for_each recommendation (firstn 3 sorted) = Ok recs
    /\ status_of r = Some "success"
    /\ result_field "recommendations" r = Some (VList recs).

(** ** Matching blocks *)

(** A block that lies between [alo] and [ahi]. *)
Definition in_range (alo ahi : nat) (x : Difflib.block) : Prop :=
  let '(i, _, k) := x in (alo <= i /\ i + k <= ahi)%nat.

Definition lengths_below (m : list (nat * nat)) (n : nat) : Prop :=
  forall j, (Difflib.j2len_get m j <= n)%nat.

(** ** Further notions *)

(** The queries of the searches among some calls, in order. *)
Definition searched (calls : list call) : list string :=
  flat_map (fun c => match c with
                     | SearchProductByName product_name => [product_name]
                     | _ => []
                     end) calls.

(** The results of some calls made one after the other, and the state
    they leave. *)
Fixpoint run_all (calls : list call) (st : state)
  : list (outcome value) * state :=
  match calls with
  | [] => ([], st)
  | t :: r =>
      let '(results, st') := run_all r (snd (run t st)) in
      (fst (run t st) :: results, st')
  end.

(** The value at a path of keys in a returned dictionary. *)
Fixpoint at_path (keys : list string) (v : value) : option value :=
  match keys with
  | [] => Some v
  | k :: r =>
      match field k v with
      | Some v' => at_path r v'
      | None => None
      end
  end.

(** The function of [agent.py] that each tool of the MCP server stands
    for, with the arguments it gets. *)
Definition counterparts (arguments : Mcp.arguments) : list (string * M value) :=
  [("search_product",
    search_product_by_name (Mcp.get (Mcp.product_name arguments) ""));
   ("add_to_cart",
    add_to_cart (Mcp.get (Mcp.product arguments) "")
                (VInt (Mcp.get (Mcp.quantity arguments) 1)));
   ("view_cart", view_cart);
   ("apply_discount", apply_discount (Mcp.get (Mcp.code arguments) ""));
   ("remove_from_cart",
    remove_from_cart (Mcp.get (Mcp.product arguments) "")
                     (Mcp.quantity arguments));
   ("clear_cart", clear_cart);
   ("calculate_total", calculate_total);
   ("recommend_products", recommend_products (Mcp.category arguments));
   ("show_history", show_search_history)].

(** The answer of [call_mcp_tool] to a name that is no tool. *)
Definition not_implemented_message (name : string) : value :=
  VFmt [VStr "Tool '"; VStr name; VStr "' not implemented."].

(** The properties that a schema declares, and those it requires. *)
Definition declared (schema : value) : list string :=
  match field "properties" schema with
  | Some (VDict d) => dict_keys d
  | _ => []
  end.

Definition required (schema : value) : list value :=
  match field "required" schema with
  | Some (VList l) => l
  | _ => []
  end.

(** A string of white space, and a string of ASCII characters. *)
Fixpoint blank (s : string) : bool :=
  match s with
  | EmptyString => true
  | String c r => PyStr.is_space c && blank r
  end.

Fixpoint is_ascii (s : string) : bool :=
  match s with
  | EmptyString => true
  | String c r => (PyStr.code c <? 128)%N && is_ascii r
  end.

(** No white space at the front. *)
Definition trimmed_left (s : string) : Prop :=
  match s with
  | EmptyString => True
  | String c _ => PyStr.is_space c = false
  end.

(** The value and the size of the whole stock of a catalog. *)
Definition inventory_value (db : list (string * Product.t)) : Z :=
  fold_right Z.add 0
    (map (fun p => Product.price p * Product.stock p) (dict_values db)).

Definition inventory_units (db : list (string * Product.t)) : Z :=
  fold_right Z.add 0 (map Product.stock (dict_values db)).

(** The discount and the total of a cart whose subtotal is the float [s],
    with free shipping or not, for a discount rate. *)
Definition discount_at (s : float) (rate : option float) : float :=
  match rate with
  | Some r => (s * r)%float
  | None => 0%float
  end.

Definition total_at (s : float) (free : bool) (rate : option float) : float :=
  let discount := discount_at s rate in
  let shipping := if free then 0%float else Z2float SHIPPING_COST in
  (s - discount + (s - discount) * TAX_RATE + shipping)%float.


(** The integers from [from], [n] of them. *)
Fixpoint range (n : nat) (from : Z) : list Z :=
  match n with
  | O => []
  | S k => from :: range k (from + 1)
  end.

(** The hundredths that the text of a float that is not negative shows. *)
Definition shown (x : float) : option Z :=
  match Prim2SF x with
  | S754_zero false => Some 0
  | S754_finite false m e => Some (PyFormat.hundredths m e)
  | _ => None
  end.

(** The rates of the discount codes as percentages, and the rate and the
    percentage of the code of a cart. *)
Definition percentages : list (string * Z) :=
  [("WELCOME10", 10); ("SAVE20", 20); ("VIP30", 30)].

Definition percent (code : option string) : Z :=
  match code with
  | Some k =>
      match lookup k percentages with
      | Some p => p
      | None => 0
      end
  | None => 0
  end.

(** The exact amounts of a cart, in ten-thousandths, for a subtotal and
    a percentage of discount. *)
Definition exact_discount (subtotal pct : Z) : Z := subtotal * pct * 100.

Definition exact_tax (subtotal pct : Z) : Z := subtotal * (100 - pct) * 8.

Definition exact_total (subtotal pct : Z) : Z :=
  subtotal * (100 - pct) * 108
  + (if SHIPPING_THRESHOLD <=? subtotal then 0 else SHIPPING_COST) * 10000.

(** A float is shown within half a hundredth of an exact amount. *)
Definition shown_near (x : float) (exact : Z) : bool :=
  match shown x with
  | Some h => Z.abs (100 * h - exact) <=? 50
  | None => false
  end.

(** What is checked of the texts for one subtotal. *)
Definition texts_accurate (subtotal : Z) : bool :=
  let s := Z2float subtotal in
  let free := SHIPPING_THRESHOLD <=? subtotal in
  match shown s with
  | Some h => h =? 100 * subtotal
  | None => false
  end
  && forallb (fun e : option float * Z =>
                let (rate, pct) := e in
                let d := discount_at s rate in
                shown_near d (exact_discount subtotal pct)
                && shown_near ((s - d) * TAX_RATE)%float
                              (exact_tax subtotal pct)
                && shown_near (total_at s free rate)
                              (exact_total subtotal pct))
             [(None, 0); (Some 0.10%float, 10); (Some 0.20%float, 20);
              (Some 0.30%float, 30)].

(** What the data model asks of the lines of a cart: a positive integer
    quantity, the subtotal unit price times quantity, one line per
    product at most. *)
Definition integer_line (x : Unchecked.CartItem.t) : Prop :=
  exists q,
    Unchecked.CartItem.quantity x = NInt q /\ 0 < q
    /\ Unchecked.CartItem.subtotal x = NInt (Unchecked.CartItem.unit_price x * q).

Definition lines_consistent (st : Unchecked.state) : Prop :=
  Forall integer_line (Unchecked.Cart.items (Unchecked.cart st))
  /\ NoDup (map Unchecked.CartItem.product_id
                (Unchecked.Cart.items (Unchecked.cart st))).

(** Two lines of the same product: all fields but the display name. *)
Definition same_line (x y : CartItem.t) : Prop :=
  CartItem.product_id x = CartItem.product_id y
  /\ CartItem.unit_price x = CartItem.unit_price y
  /\ CartItem.quantity x = CartItem.quantity y
  /\ CartItem.subtotal x = CartItem.subtotal y.

(** A state of [agent.py] and a state of the MCP server that hold the
    same cart, up to the display names, and the same search history. *)
Definition corresponds (a m : state) : Prop :=
  Forall2 same_line (Cart.items (cart a)) (Cart.items (cart m))
  /\ Cart.discount_code (cart a) = Cart.discount_code (cart m)
  /\ search_history a = search_history m.

(** The identifier of the product that a name resolves to in a catalog. *)
Definition resolved (db : list (string * Product.t)) (name : string)
  : option string :=
  match find_product_fuzzy db name with
  | Ok (Some (_, p)) => Some (Product.id p)
  | _ => None
  end.

(** The product names that a call of the MCP server resolves. *)
Definition names_of (name : string) (arguments : Mcp.arguments) : list string :=
  if (name =? "search_product")%string
  then [Mcp.get (Mcp.product_name arguments) ""]
  else if ((name =? "add_to_cart") || (name =? "remove_from_cart"))%string
  then [Mcp.get (Mcp.product arguments) ""]
  else [].

(** A name resolves to the same product, or to none, in the catalog of
    [agent.py] and in that of the MCP server. *)
Definition resolves_alike (n : string) : Prop :=
  resolved PRODUCTS_DB n = resolved Mcp.PRODUCTS_DB n.

(** * Properties *)

(** ** Sums, dictionaries and numbers *)

Lemma fold_left_add (l : list Z) (a : Z) :
  fold_left Z.add l a = a + fold_right Z.add 0 l.
Proof.
  revert a; induction l as [|x l IH]; intros a; simpl.
  - lia.
  - rewrite IH. lia.
Qed.

Lemma py_sum_fold_right (l : list Z) : Cart.py_sum l = fold_right Z.add 0 l.
Proof. unfold Cart.py_sum. rewrite fold_left_add. lia. Qed.

Lemma py_sum_cons (x : Z) (l : list Z) : Cart.py_sum (x :: l) = x + Cart.py_sum l.
Proof. rewrite !py_sum_fold_right. reflexivity. Qed.

Lemma py_sum_app (l1 l2 : list Z) :
  Cart.py_sum (l1 ++ l2) = Cart.py_sum l1 + Cart.py_sum l2.
Proof.
  induction l1 as [|x l1 IH]; simpl.
  - reflexivity.
  - rewrite !py_sum_cons, IH. lia.
Qed.

Lemma lookup_In {A} (k : string) (d : list (string * A)) (v : A) :
  lookup k d = Some v -> In (k, v) d.
Proof.
  induction d as [|[k' v'] d IH]; simpl; [discriminate|].
  destruct (String.eqb_spec k k') as [->|_].
  - intros [= ->]. now left.
  - intros H. right. auto.
Qed.

Lemma In_keys_lookup {A} (k : string) (d : list (string * A)) :
  In k (dict_keys d) -> exists v, lookup k d = Some v.
Proof.
  induction d as [|[k' v'] d IH]; simpl; [tauto|].
  intros H. destruct (String.eqb_spec k k') as [->|Hne].
  - eauto.
  - destruct H as [H|H]; [congruence | auto].
Qed.

Lemma contains_In {A} (k : string) (d : list (string * A)) :
  contains k d = true -> In k (dict_keys d).
Proof.
  unfold contains. rewrite existsb_exists. intros (x & Hx & E).
  apply String.eqb_eq in E. now subst.
Qed.

Lemma float_range_large : 2 ^ 53 < float_range.
Proof. vm_compute. reflexivity. Qed.

Lemma float_of_int_small (z : Z) :
  Z.abs z <= 2 ^ 53 -> float_of_int z = Ok (Z2float z).
Proof.
  intros H. unfold float_of_int.
  pose proof float_range_large as L.
  destruct (Z.ltb_spec (Z.abs z) float_range) as [_|G]; [reflexivity | lia].
Qed.

Lemma format_price_int (z : Z) :
  Z.abs z <= 2 ^ 53 -> format_price (NInt z) = Ok (VPrice (NInt z)).
Proof.
  intros H. unfold format_price, to_float. now rewrite float_of_int_small.
Qed.

Lemma format_price_float (f : float) :
  format_price (NFloat f) = Ok (VPrice (NFloat f)).
Proof. reflexivity. Qed.

Lemma for_each_total {A B} (f : A -> outcome B) (g : A -> B) (l : list A) :
  Forall (fun x => f x = Ok (g x)) l -> for_each f l = Ok (map g l).
Proof.
  induction 1 as [|x l Hx _ IH]; simpl.
  - reflexivity.
  - now rewrite Hx, IH.
Qed.

(** ** Close matches come from the candidates *)

Lemma max_from_In (t : float * string) (l : list (float * string)) :
  In (Difflib.max_from t l) (t :: l).
Proof.
  revert t; induction l as [|u l IH]; intros t; simpl.
  - now left.
  - destruct (IH (if Difflib.pair_gt u t then u else t)) as [E|H].
    + rewrite <- E. destruct (Difflib.pair_gt u t); auto.
    + auto.
Qed.

Lemma get_close_matches_In (word : string) (ps : list string) (cutoff : float)
      (m : string) :
  In m (Difflib.get_close_matches word ps cutoff) ->
  In m ps /\ Difflib.is_close cutoff word m = true.
Proof.
  unfold Difflib.get_close_matches.
  destruct (map _ (filter _ ps)) as [|t r] eqn:E; simpl; [tauto|].
  intros [<-|[]].
  pose proof (max_from_In t r) as H. rewrite <- E in H.
  apply in_map_iff in H. destruct H as (x & <- & Hx).
  apply filter_In in Hx. exact Hx.
Qed.

Lemma find_product_fuzzy_returns (db : list (string * Product.t)) (name : string) :
  exists r, find_product_fuzzy db name = Ok r.
Proof.
  unfold find_product_fuzzy.
  destruct (contains _ db) eqn:C.
  - apply contains_In, In_keys_lookup in C. destruct C as (p & ->). eauto.
  - destruct (Difflib.get_close_matches _ _ _) as [|m r] eqn:G; [eauto|].
    assert (In m (Difflib.get_close_matches
                    (PyStr.lower (PyStr.strip name)) (dict_keys db) 0.6%float))
      as H by (rewrite G; now left).
    apply get_close_matches_In in H. destruct H as [H _].
    apply In_keys_lookup in H. destruct H as (p & ->). eauto.
Qed.

Lemma find_product_fuzzy_In (db : list (string * Product.t)) (name key : string)
      (p : Product.t) :
  find_product_fuzzy db name = Ok (Some (key, p)) -> In (key, p) db.
Proof.
  unfold find_product_fuzzy.
  destruct (contains _ db).
  - destruct (lookup _ db) eqn:L; [|discriminate].
    intros [= <- <-]. now apply lookup_In.
  - destruct (Difflib.get_close_matches _ _ _) as [|m r]; [discriminate|].
    destruct (lookup m db) eqn:L; [|discriminate].
    intros [= <- <-]. now apply lookup_In.
Qed.

(** ** Items of the cart *)

Lemma find_item_split (pid : string) (items : list CartItem.t) (pos n : nat)
      (item : CartItem.t) :
  find_item pid pos items = Some (n, item) ->
  exists l1 l2,
    items = l1 ++ item :: l2 /\ n = (pos + length l1)%nat
    /\ CartItem.product_id item = pid
    /\ Forall (fun x => CartItem.product_id x <> pid) l1.
Proof.
  revert pos; induction items as [|x r IH]; intros pos; simpl; [discriminate|].
  destruct (String.eqb_spec (CartItem.product_id x) pid) as [E|NE].
  - intros [= <- <-]. exists [], r. simpl. repeat split; auto; lia.
  - intros H. apply IH in H. destruct H as (l1 & l2 & -> & -> & Hp & Hl).
    exists (x :: l1), l2. simpl. repeat split; auto; lia.
Qed.

Lemma find_item_none (pid : string) (items : list CartItem.t) (pos : nat) :
  find_item pid pos items = None ->
  Forall (fun x => CartItem.product_id x <> pid) items.
Proof.
  revert pos; induction items as [|x r IH]; intros pos; simpl; [constructor|].
  destruct (String.eqb_spec (CartItem.product_id x) pid) as [E|NE];
    [discriminate|].
  intros H. constructor; eauto.
Qed.

Lemma set_nth_middle (l1 l2 : list CartItem.t) (x y : CartItem.t) :
  set_nth (length l1) y (l1 ++ x :: l2) = l1 ++ y :: l2.
Proof. induction l1 as [|z l1 IH]; simpl; [reflexivity | now rewrite IH]. Qed.

Lemma CartItem_eqb_refl (x : CartItem.t) : CartItem.eqb x x = true.
Proof.
  unfold CartItem.eqb. now rewrite !String.eqb_refl, !Z.eqb_refl.
Qed.

Lemma CartItem_eqb_id (x y : CartItem.t) :
  CartItem.eqb x y = true -> CartItem.product_id x = CartItem.product_id y.
Proof.
  unfold CartItem.eqb. rewrite !andb_true_iff.
  intros ((((H & _) & _) & _) & _). now apply String.eqb_eq.
Qed.

Lemma list_remove_middle (l1 l2 : list CartItem.t) (x : CartItem.t) :
  Forall (fun y => CartItem.product_id y <> CartItem.product_id x) l1 ->
  list_remove x (l1 ++ x :: l2) = Ok (l1 ++ l2).
Proof.
  induction 1 as [|y l1 Hy _ IH]; simpl.
  - now rewrite CartItem_eqb_refl.
  - destruct (CartItem.eqb y x) eqn:E.
    + apply CartItem_eqb_id in E. contradiction.
    + now rewrite IH.
Qed.

(** ** The invariant of the reachable states *)

Lemma product_by_id_catalog (db : list (string * Product.t)) (key : string)
      (p : Product.t) :
  catalog_ok db -> In (key, p) db -> product_by_id db (Product.id p) = Some p.
Proof.
  intros (Hn & _ & _) H. unfold product_by_id.
  apply (in_map snd) in H. simpl in H. fold (dict_values db) in H.
  induction (dict_values db) as [|x l IH]; simpl in *; [destruct H|].
  inversion Hn as [|? ? Hx Hl]; subst.
  destruct (String.eqb_spec (Product.id x) (Product.id p)) as [E|NE].
  - destruct H as [->|H]; [reflexivity|].
    exfalso. apply Hx. rewrite E. now apply in_map.
  - destruct H as [->|H]; [contradiction | auto].
Qed.

Lemma product_by_id_inv (db : list (string * Product.t)) (pid : string)
      (p : Product.t) :
  product_by_id db pid = Some p ->
  Product.id p = pid /\ In p (dict_values db).
Proof.
  intros H. apply find_some in H. destruct H as [H E].
  apply String.eqb_eq in E. auto.
Qed.

(** Amounts of the catalog: a price and a stock are small. *)
Lemma catalog_bounds (db : list (string * Product.t)) (p : Product.t) :
  catalog_ok db -> In p (dict_values db) ->
  0 < Product.price p <= 1000000 /\ 0 < Product.stock p <= 1000.
Proof.
  intros (_ & Hb & _) H. rewrite Forall_forall in Hb. auto.
Qed.

Lemma line_bounds (db : list (string * Product.t)) (item : CartItem.t) :
  catalog_ok db -> line_ok item -> line_of_catalog db item ->
  0 < CartItem.unit_price item <= 1000000
  /\ 0 < CartItem.quantity item <= 1000
  /\ 0 < CartItem.subtotal item <= 1000000000.
Proof.
  intros Hok [Hq Hs] (p & Hp & _ & Hu & Hst).
  apply product_by_id_inv in Hp. destruct Hp as [_ Hp].
  apply (catalog_bounds db p Hok) in Hp. rewrite Hs, Hu. nia.
Qed.

Lemma cart_length (db : list (string * Product.t)) (items : list CartItem.t) :
  Forall (line_of_catalog db) items ->
  NoDup (map CartItem.product_id items) ->
  (length items <= length db)%nat.
Proof.
  intros Hc Hn. rewrite <- (length_map CartItem.product_id).
  rewrite <- (length_map snd db), <- (length_map Product.id).
  apply NoDup_incl_length; [exact Hn|].
  intros pid Hin. apply in_map_iff in Hin. destruct Hin as (item & <- & Hin).
  rewrite Forall_forall in Hc. destruct (Hc item Hin) as (p & Hp & _).
  apply product_by_id_inv in Hp. destruct Hp as [<- Hp].
  now apply in_map.
Qed.

Lemma subtotal_bounds_aux (db : list (string * Product.t))
      (items : list CartItem.t) :
  catalog_ok db ->
  Forall line_ok items -> Forall (line_of_catalog db) items ->
  0 <= Cart.py_sum (map CartItem.subtotal items)
     <= 1000000000 * Z.of_nat (length items).
Proof.
  intros Hok. induction 1 as [|x l Hx _ IH]; intros Hc.
  - cbn. lia.
  - inversion Hc as [|? ? Hcx Hcl]; subst.
    cbn [map length]. rewrite py_sum_cons.
    pose proof (line_bounds db x Hok Hx Hcx). specialize (IH Hcl). lia.
Qed.

Lemma subtotal_bounds (st : state) :
  invariant st -> 0 <= Cart.get_subtotal (cart st) <= 1000000000000.
Proof.
  intros [Hok Hl Hc Hn _]. unfold Cart.get_subtotal.
  pose proof (subtotal_bounds_aux _ _ Hok Hl Hc).
  pose proof (cart_length _ _ Hc Hn).
  destruct Hok as (_ & _ & Hlen). lia.
Qed.

Lemma units_bounds (items : list CartItem.t) :
  Forall line_ok items -> 0 <= total_units items.
Proof.
  unfold total_units. induction 1 as [|x l [Hx _] _ IH].
  - cbn. lia.
  - cbn [map]. rewrite py_sum_cons. lia.
Qed.

(** ** Computations that only read the state *)

Lemma readonly_ret {A} (a : A) : readonly (ret a).
Proof. intros st. reflexivity. Qed.

Lemma readonly_lift {A} (x : outcome A) : readonly (lift x).
Proof. intros st. reflexivity. Qed.

Lemma readonly_gets {A} (f : state -> A) : readonly (gets f).
Proof. intros st. reflexivity. Qed.

Lemma readonly_bind {A B} (c : M A) (k : A -> M B) :
  readonly c -> (forall a, readonly (k a)) -> readonly (bind c k).
Proof.
  intros Hc Hk st. unfold bind. specialize (Hc st).
  destruct (c st) as [[a|e] st']; simpl in *; subst; [apply Hk | reflexivity].
Qed.

Lemma bind_readonly_snd {A B} (c : M A) (k : A -> M B) (st : state) :
  (forall a, readonly (k a)) -> snd (bind c k st) = snd (c st).
Proof.
  intros Hk. unfold bind.
  destruct (c st) as [[a|e] st']; simpl; [apply Hk | reflexivity].
Qed.

Ltac readonly_step :=
  match goal with
  | |- readonly (ret _) => apply readonly_ret
  | |- readonly (lift _) => apply readonly_lift
  | |- readonly (gets _) => apply readonly_gets
  | |- readonly (bind _ _) => apply readonly_bind; [|intros]
  | |- readonly (match ?x with _ => _ end) => destruct x
  | |- readonly (let _ := _ in _) => cbv zeta
  | |- readonly (get_cart_item_by_product _) => apply readonly_gets
  end.

Ltac readonly_tac := repeat readonly_step.

Lemma view_cart_readonly : readonly view_cart.
Proof. unfold view_cart. readonly_tac. Qed.

Lemma calculate_total_readonly : readonly calculate_total.
Proof. unfold calculate_total. readonly_tac. Qed.

Lemma recommend_products_readonly (category : option string) :
  readonly (recommend_products category).
Proof. unfold recommend_products. readonly_tac. Qed.

Lemma show_search_history_readonly : readonly show_search_history.
Proof. unfold show_search_history. readonly_tac. Qed.

(** ** What each tool does to the state *)

Ltac exec_cbn :=
  cbn [bind gets lift ret fst snd get_cart_item_by_product set_items set_cart
       set_discount_code set_search_history cart products_db search_history
       Cart.items Cart.discount_code].

Ltac exec_outcomes :=
  repeat (exec_cbn;
          match goal with
          | |- context [match ?x with Ok _ => _ | Raise _ => _ end] =>
              destruct x
          end).

Ltac exec_done := exec_outcomes; exec_cbn; reflexivity.

Lemma with_items_same (st : state) : with_items (Cart.items (cart st)) st = st.
Proof. now destruct st as [db [items code] h]. Qed.

Lemma search_product_by_name_state (product_name : string) (st : state) :
  snd (search_product_by_name product_name st)
  = search_effect product_name st.
Proof.
  unfold search_product_by_name, search_effect. exec_cbn.
  destruct (find_product_fuzzy (products_db st) product_name) as [[[key p]|]|e];
    exec_done.
Qed.

Lemma add_to_cart_state (product : string) (quantity : value) (st : state) :
  snd (add_to_cart product quantity st)
  = add_to_cart_effect product quantity st.
Proof.
  unfold add_to_cart, add_to_cart_effect.
  destruct (isinstance_int quantity) as [q|]; [|reflexivity].
  destruct (q <=? 0); [reflexivity|]. exec_cbn.
  destruct (find_product_fuzzy (products_db st) product) as [[[key p]|]|e];
    [|reflexivity|reflexivity].
  exec_cbn. unfold in_cart, add_line.
  destruct (find_item (Product.id p) 0 (Cart.items (cart st))) as [[pos item]|].
  - destruct (Product.stock p <? CartItem.quantity item + q);
      [reflexivity | exec_done].
  - destruct (Product.stock p <? 0 + q); [reflexivity | exec_done].
Qed.

Lemma apply_discount_state (code : string) (st : state) :
  snd (apply_discount code st) = apply_discount_effect code st.
Proof.
  unfold apply_discount, apply_discount_effect. exec_cbn.
  destruct (Cart.items (cart st)) as [|x r] eqn:E; [reflexivity|].
  destruct (lookup _ DISCOUNT_CODES); [|reflexivity].
  unfold with_code. exec_done.
Qed.

Lemma remove_from_cart_state (product : string) (quantity : option Z)
      (st : state) :
  snd (remove_from_cart product quantity st)
  = remove_from_cart_effect product quantity st.
Proof.
  unfold remove_from_cart, remove_from_cart_effect. exec_cbn.
  destruct (find_product_fuzzy (products_db st) product) as [[[key p]|]|e];
    [|reflexivity|reflexivity].
  exec_cbn.
  destruct (find_item (Product.id p) 0 (Cart.items (cart st))) as [[pos item]|];
    [|reflexivity].
  unfold remove_line. cbv zeta.
  assert (forall v : value,
    snd ((c <- gets cart;;
          items' <- lift (list_remove item (Cart.items c));;
          set_items items';;; ret v) st) =
    with_items match list_remove item (Cart.items (cart st)) with
               | Ok items' => items'
               | Raise _ => Cart.items (cart st)
               end st) as Hall.
  { intros v. exec_cbn.
    destruct (list_remove item (Cart.items (cart st)));
      [reflexivity | now rewrite with_items_same]. }
  destruct quantity as [n|]; [|apply Hall].
  destruct (CartItem.quantity item <=? n); [apply Hall|].
  destruct (0 <? n); [reflexivity | now rewrite with_items_same].
Qed.

Lemma clear_cart_state (st : state) :
  snd (clear_cart st) = clear_cart_effect st.
Proof. reflexivity. Qed.

(** ** The invariant holds in every reachable state *)

Lemma PRODUCTS_DB_ok : catalog_ok PRODUCTS_DB.
Proof.
  split; [|split].
  - simpl. repeat constructor; simpl; intuition discriminate.
  - repeat constructor; simpl; lia.
  - simpl. lia.
Qed.

Lemma invariant_empty (db : list (string * Product.t)) :
  catalog_ok db -> invariant (mkState db (Cart.mk [] None) []).
Proof. intros H. split; simpl; auto; constructor. Qed.

Lemma invariant_initial : invariant initial_state.
Proof. apply invariant_empty, PRODUCTS_DB_ok. Qed.

Lemma invariant_with_items (st : state) (items : list CartItem.t) :
  invariant st ->
  Forall line_ok items -> Forall (line_of_catalog (products_db st)) items ->
  NoDup (map CartItem.product_id items) ->
  invariant (with_items items st).
Proof. intros [Hdb _ _ _ Hcode] Hl Hc Hn. split; simpl; auto. Qed.

Lemma requantify_ok (db : list (string * Product.t)) (item : CartItem.t)
      (quantity : Z) :
  line_of_catalog db item -> 0 < quantity ->
  (forall p, product_by_id db (CartItem.product_id item) = Some p ->
             quantity <= Product.stock p) ->
  line_ok (requantify item quantity)
  /\ line_of_catalog db (requantify item quantity).
Proof.
  intros (p & Hp & Hname & Hprice & _) Hq Hstock. split.
  - split; simpl; [exact Hq | reflexivity].
  - exists p. simpl. auto.
Qed.

Lemma NoDup_snoc {A} (l : list A) (x : A) :
  NoDup l -> ~ In x l -> NoDup (l ++ [x]).
Proof.
  intros Hn Hx. apply Permutation_NoDup with (l := x :: l).
  - apply Permutation_cons_append.
  - now constructor.
Qed.

Lemma add_line_invariant (st : state) (key : string) (p : Product.t) (q : Z) :
  invariant st -> In (key, p) (products_db st) -> 0 < q ->
  in_cart (Product.id p) (Cart.items (cart st)) + q <= Product.stock p ->
  invariant (with_items (add_line p q (Cart.items (cart st))) st).
Proof.
  intros Hinv Hin Hq Hstock.
  pose proof Hinv as [Hok Hl Hc Hn _].
  pose proof (product_by_id_catalog _ key p Hok Hin) as Hp.
  unfold in_cart, add_line in *.
  destruct (find_item (Product.id p) 0 (Cart.items (cart st)))
    as [[pos item]|] eqn:F.
  - apply find_item_split in F.
    destruct F as (l1 & l2 & E & -> & Hid & _). simpl.
    rewrite E in *. rewrite set_nth_middle.
    apply Forall_app in Hl. destruct Hl as [Hl1 Hl2].
    apply Forall_app in Hc. destruct Hc as [Hc1 Hc2].
    inversion Hl2 as [|? ? [Hpos _] Hl2']; subst.
    inversion Hc2 as [|? ? Hcx Hc2']; subst.
    destruct (requantify_ok _ item (CartItem.quantity item + q) Hcx) as [R1 R2].
    + lia.
    + intros p'. rewrite Hid, Hp. intros [= <-]. lia.
    + apply invariant_with_items; auto.
      * apply Forall_app. split; auto.
      * apply Forall_app. split; auto.
      * rewrite map_app in *. exact Hn.
  - apply find_item_none in F.
    apply invariant_with_items; auto.
    + apply Forall_app. split; [exact Hl|].
      repeat constructor; simpl; lia.
    + apply Forall_app. split; [exact Hc|].
      repeat constructor. exists p. simpl. repeat split; auto; lia.
    + rewrite map_app. simpl. apply NoDup_snoc; [exact Hn|].
      intros H. apply in_map_iff in H. destruct H as (x & Hx & Hin').
      rewrite Forall_forall in F. exact (F x Hin' Hx).
Qed.

Lemma remove_line_invariant (st : state) (pid : string) (pos : nat)
      (item : CartItem.t) (quantity : option Z) :
  invariant st ->
  find_item pid 0 (Cart.items (cart st)) = Some (pos, item) ->
  invariant (with_items (remove_line pos item quantity (Cart.items (cart st))) st).
Proof.
  intros Hinv F. pose proof Hinv as [_ Hl Hc Hn _].
  apply find_item_split in F.
  destruct F as (l1 & l2 & E & -> & Hid & Hl1). simpl.
  rewrite E in *.
  apply Forall_app in Hl. destruct Hl as [Hl1' Hl2].
  apply Forall_app in Hc. destruct Hc as [Hc1 Hc2].
  inversion Hl2 as [|? ? [Hpos Hsub] Hl2']; subst.
  inversion Hc2 as [|? ? Hcx Hc2']; subst.
  assert (invariant (with_items (l1 ++ l2) st)) as Hrem.
  { apply invariant_with_items; auto.
    - apply Forall_app; auto.
    - apply Forall_app; auto.
    - rewrite map_app in *. simpl in Hn. now apply NoDup_remove_1 in Hn. }
  unfold remove_line. rewrite list_remove_middle by exact Hl1.
  destruct quantity as [n|]; [|exact Hrem].
  destruct (Z.leb_spec (CartItem.quantity item) n); [exact Hrem|].
  destruct (Z.ltb_spec 0 n).
  - rewrite set_nth_middle.
    destruct (requantify_ok _ item (CartItem.quantity item - n) Hcx) as [R1 R2].
    + lia.
    + destruct Hcx as (p & Hp & _ & _ & Hst).
      intros p'. rewrite Hp. intros [= <-]. lia.
    + apply invariant_with_items; auto.
      * apply Forall_app. split; auto.
      * apply Forall_app. split; auto.
      * rewrite map_app in *. exact Hn.
  - rewrite <- E. rewrite with_items_same. exact Hinv.
Qed.

Lemma search_effect_invariant (product_name : string) (st : state) :
  invariant st -> invariant (search_effect product_name st).
Proof. intros [Hok Hl Hc Hn Hcode]. split; simpl; auto. Qed.

Lemma add_to_cart_effect_invariant (product : string) (quantity : value)
      (st : state) :
  invariant st -> invariant (add_to_cart_effect product quantity st).
Proof.
  intros Hinv. unfold add_to_cart_effect.
  destruct (isinstance_int quantity) as [q|]; [|exact Hinv].
  destruct (Z.leb_spec q 0); [exact Hinv|].
  destruct (find_product_fuzzy (products_db st) product)
    as [[[key p]|]|e] eqn:F; try exact Hinv.
  destruct (Z.ltb_spec (Product.stock p)
              (in_cart (Product.id p) (Cart.items (cart st)) + q));
    [exact Hinv|].
  apply find_product_fuzzy_In in F.
  now apply add_line_invariant with (key := key).
Qed.

Lemma apply_discount_effect_invariant (code : string) (st : state) :
  invariant st -> invariant (apply_discount_effect code st).
Proof.
  intros Hinv. pose proof Hinv as [Hok Hl Hc Hn Hcode].
  unfold apply_discount_effect.
  assert (forall k rate, lookup k DISCOUNT_CODES = Some rate ->
                         invariant (with_code (Some k) st)) as Hk
      by (intros k rate L; split; simpl; eauto).
  destruct (Cart.items (cart st)); [exact Hinv|].
  destruct (lookup _ DISCOUNT_CODES) as [rate|] eqn:L; [|exact Hinv].
  now apply Hk with (rate := rate).
Qed.

Lemma remove_from_cart_effect_invariant (product : string)
      (quantity : option Z) (st : state) :
  invariant st -> invariant (remove_from_cart_effect product quantity st).
Proof.
  intros Hinv. unfold remove_from_cart_effect.
  destruct (find_product_fuzzy (products_db st) product)
    as [[[key p]|]|e]; try exact Hinv.
  destruct (find_item _ 0 _) as [[pos item]|] eqn:F; [|exact Hinv].
  now apply remove_line_invariant with (pid := Product.id p).
Qed.

Lemma clear_cart_effect_invariant (st : state) :
  invariant st -> invariant (clear_cart_effect st).
Proof. intros [Hok _ _ _ _]. split; simpl; auto; constructor. Qed.

Lemma run_invariant (c : call) (st : state) :
  invariant st -> invariant (snd (run c st)).
Proof.
  intros Hinv.
  destruct c as [name|product quantity| |code|product quantity| | |category|];
    simpl.
  - rewrite search_product_by_name_state.
    now apply search_effect_invariant.
  - rewrite add_to_cart_state. now apply add_to_cart_effect_invariant.
  - now rewrite (view_cart_readonly st : snd (view_cart st) = st).
  - rewrite apply_discount_state. now apply apply_discount_effect_invariant.
  - rewrite remove_from_cart_state.
    now apply remove_from_cart_effect_invariant.
  - now apply clear_cart_effect_invariant.
  - now rewrite (calculate_total_readonly st : snd (calculate_total st) = st).
  - now rewrite (recommend_products_readonly category st
                 : snd (recommend_products category st) = st).
  - now rewrite (show_search_history_readonly st
                 : snd (show_search_history st) = st).
Qed.

(** The catalog of a reachable state is the catalog of the module. *)
Lemma run_products_db (c : call) (st : state) :
  products_db (snd (run c st)) = products_db st.
Proof.
  destruct c as [name|product quantity| |code|product quantity| | |category|];
    simpl.
  - now rewrite search_product_by_name_state.
  - rewrite add_to_cart_state. unfold add_to_cart_effect.
    destruct (isinstance_int quantity) as [q|]; [|reflexivity].
    destruct (q <=? 0); [reflexivity|].
    destruct (find_product_fuzzy (products_db st) product)
      as [[[key p]|]|e]; try reflexivity.
    now destruct (Product.stock p <? _).
  - now rewrite (view_cart_readonly st : snd (view_cart st) = st).
  - rewrite apply_discount_state. unfold apply_discount_effect.
    destruct (Cart.items (cart st)); [reflexivity|].
    now destruct (lookup _ DISCOUNT_CODES).
  - rewrite remove_from_cart_state. unfold remove_from_cart_effect.
    destruct (find_product_fuzzy (products_db st) product)
      as [[[key p]|]|e]; try reflexivity.
    now destruct (find_item _ 0 _) as [[pos item]|].
  - reflexivity.
  - now rewrite (calculate_total_readonly st : snd (calculate_total st) = st).
  - now rewrite (recommend_products_readonly category st
                 : snd (recommend_products category st) = st).
  - now rewrite (show_search_history_readonly st
                 : snd (show_search_history st) = st).
Qed.

Lemma reachable_products_db (st : state) :
  reachable st -> products_db st = PRODUCTS_DB.
Proof.
  induction 1 as [|st c _ IH]; [reflexivity | now rewrite run_products_db].
Qed.

Lemma reachable_invariant (st : state) : reachable st -> invariant st.
Proof.
  induction 1 as [|st c _ IH]; [apply invariant_initial | now apply run_invariant].
Qed.

Lemma reachable_exec (calls : list call) : reachable (exec calls).
Proof.
  unfold exec.
  assert (forall st, reachable st ->
            reachable (fold_left (fun st c => snd (run c st)) calls st)) as H.
  { induction calls as [|c calls IH]; intros st Hst; simpl; [exact Hst|].
    apply IH. now constructor. }
  apply H. constructor.
Qed.

(** ** The amounts of a cart *)

Lemma cart_amounts (c : Cart.t) :
  Z.abs (Cart.get_subtotal c) <= 2 ^ 53 ->
  Cart.get_discount_amount c = Ok (discount_value c)
  /\ Cart.get_tax c = Ok (tax_value c)
  /\ Cart.get_total c = Ok (total_value c).
Proof.
  intros H. pose proof (float_of_int_small _ H) as F.
  assert (Cart.get_discount_amount c = Ok (discount_value c)) as D.
  { unfold Cart.get_discount_amount, discount_value, discount_rate.
    destruct (Cart.discount_code c) as [k|]; [|reflexivity].
    destruct (PyStr.truthy k); [|reflexivity].
    destruct (lookup k DISCOUNT_CODES); [|reflexivity].
    now rewrite F. }
  assert (Cart.get_tax c = Ok (tax_value c)) as T.
  { unfold Cart.get_tax. rewrite D. simpl. now rewrite F. }
  repeat split; auto.
  unfold Cart.get_total. rewrite D, T. simpl. rewrite F. simpl.
  unfold total_value, shipping_value, Cart.get_shipping.
  destruct (SHIPPING_THRESHOLD <=? Cart.get_subtotal c); [reflexivity|].
  unfold to_float. rewrite float_of_int_small; [reflexivity|].
  unfold SHIPPING_COST. lia.
Qed.

Lemma reachable_amounts (st : state) :
  reachable st ->
  Cart.get_discount_amount (cart st) = Ok (discount_value (cart st))
  /\ Cart.get_tax (cart st) = Ok (tax_value (cart st))
  /\ Cart.get_total (cart st) = Ok (total_value (cart st)).
Proof.
  intros H. apply cart_amounts.
  pose proof (subtotal_bounds st (reachable_invariant st H)). lia.
Qed.

(** C1: on every reachable cart the subtotal is the sum of the line
    subtotals (each the unit price times the quantity), the discount is the
    subtotal times the rate of the applied code and 0 without a code, the
    tax is (subtotal - discount) times 8%, shipping is 0 from a subtotal of
    100 on and 10 below, and the total is subtotal - discount + tax +
    shipping; a subtotal of 200 under WELCOME10 gives 20, 14.4, 0 and 194.4,
    a subtotal of 50 without a code gives tax 4, shipping 10 and total 64. *)
Theorem get_total_spec :
  (forall st, reachable st ->
     let c := cart st in
     let subtotal := Cart.get_subtotal c in
     Forall (fun item => CartItem.subtotal item
                         = CartItem.unit_price item * CartItem.quantity item)
            (Cart.items c)
     /\ subtotal = fold_right Z.add 0 (map CartItem.subtotal (Cart.items c))
     /\ exists discount tax total : float,
          Cart.get_discount_amount c = Ok discount
          /\ match Cart.discount_code c with
             | Some code =>
                 exists rate, lookup code DISCOUNT_CODES = Some rate
                              /\ discount = (Z2float subtotal * rate)%float
             | None => discount = 0%float
             end
          /\ Cart.get_tax c = Ok tax
          /\ tax = ((Z2float subtotal - discount) * TAX_RATE)%float
          /\ Cart.get_shipping c
             = (if 100 <=? subtotal then NFloat 0 else NInt 10)
          /\ Cart.get_total c = Ok total
          /\ total = (Z2float subtotal - discount + tax
                      + (if (100 <=? subtotal)%Z then 0 else 10))%float)
  /\ (forall c, Cart.get_subtotal c = 200 ->
                Cart.discount_code c = Some "WELCOME10" ->
                Cart.get_discount_amount c = Ok 20%float
                /\ Cart.get_tax c = Ok 14.4%float
                /\ Cart.get_shipping c = NFloat 0
                /\ Cart.get_total c = Ok 194.4%float)
  /\ (forall c, Cart.get_subtotal c = 50 ->
                Cart.discount_code c = None ->
                Cart.get_discount_amount c = Ok 0%float
                /\ Cart.get_tax c = Ok 4%float
                /\ Cart.get_shipping c = NInt 10
                /\ Cart.get_total c = Ok 64%float).
Proof.
  split; [|split].
  - intros st Hst c subtotal.
    pose proof (reachable_invariant st Hst) as Hinv.
    pose proof Hinv as [_ Hl _ _ Hcode].
    destruct (reachable_amounts st Hst) as (D & T & Tot).
    split; [|split].
    + eapply Forall_impl; [|exact Hl]. now intros item [_ H].
    + apply py_sum_fold_right.
    + exists (discount_value c), (tax_value c), (total_value c).
      repeat split; auto.
      unfold discount_value, discount_rate, code_ok in *.
      fold c in Hcode.
      destruct (Cart.discount_code c) as [k|]; [|reflexivity].
      destruct Hcode as (rate & L). exists rate. split; [exact L|].
      destruct (PyStr.truthy k) eqn:E.
      * now rewrite L.
      * unfold PyStr.truthy in E. apply negb_false_iff in E.
        apply String.eqb_eq in E. subst k. discriminate L.
  - intros c Hs Hc.
    unfold Cart.get_total, Cart.get_tax, Cart.get_discount_amount,
      Cart.get_shipping.
    rewrite Hs, Hc. vm_compute. auto.
  - intros c Hs Hc.
    unfold Cart.get_total, Cart.get_tax, Cart.get_discount_amount,
      Cart.get_shipping.
    rewrite Hs, Hc. vm_compute. auto.
Qed.

Lemma get_total_spec_witness :
  Cart.get_total
    (cart (exec [AddToCart "gaming mouse pro" (VInt 1);
                 AddToCart "mechanical rgb keyboard" (VInt 1);
                 ApplyDiscount "welcome10"])) = Ok 194.4%float
  /\ Cart.get_total (Cart.mk [CartItem.new "P" "p" 50 1] None) = Ok 64%float.
Proof.
  destruct get_total_spec as (_ & H200 & H50). split.
  - apply H200; vm_compute; reflexivity.
  - apply H50; vm_compute; reflexivity.
Defined.

(** X22: in every state that the tools reach when each quantity is of
    the declared type (an [int], or [None] for [remove_from_cart]), each
    line of the cart has a positive quantity and the subtotal unit price
    times quantity, and no two lines have the same product identifier. *)
Theorem cart_lines_consistent (st : state) :
  reachable st ->
  Forall (fun item =>
            0 < CartItem.quantity item
            /\ CartItem.subtotal item
               = CartItem.unit_price item * CartItem.quantity item)
         (Cart.items (cart st))
  /\ NoDup (map CartItem.product_id (Cart.items (cart st))).
Proof.
  intros H. apply reachable_invariant in H. destruct H as [_ Hl _ Hn _].
  split; [exact Hl | exact Hn].
Qed.

Lemma cart_lines_consistent_witness :
  let st := exec [AddToCart "gaming mouse pro" (VInt 2);
                  AddToCart "4k hdr monitor" (VInt 1);
                  AddToCart "gaming mouse pro" (VInt 3);
                  RemoveFromCart "gaming mouse pro" (Some 1)] in
  map CartItem.quantity (Cart.items (cart st)) = [4; 1]
  /\ Forall (fun item =>
            0 < CartItem.quantity item
            /\ CartItem.subtotal item
               = CartItem.unit_price item * CartItem.quantity item)
         (Cart.items (cart st))
  /\ NoDup (map CartItem.product_id (Cart.items (cart st))).
Proof.
  intros st. split; [vm_compute; reflexivity|].
  apply (cart_lines_consistent st). apply reachable_exec.
Defined.

(** ** A quantity that is not an integer *)

Lemma unchecked_find_item (pid : string) (items : list CartItem.t) (pos : nat) :
  Unchecked.find_item pid pos (map unchecked_item items)
  = match find_item pid pos items with
    | Some (n, x) => Some (n, unchecked_item x)
    | None => None
    end.
Proof.
  revert pos. induction items as [|x r IH]; intros pos; simpl; [reflexivity|].
  destruct (CartItem.product_id x =? pid)%string; [reflexivity | apply IH].
Qed.

Lemma unchecked_set_nth (pos : nat) (x : CartItem.t) (items : list CartItem.t) :
  Unchecked.set_nth pos (unchecked_item x) (map unchecked_item items)
  = map unchecked_item (set_nth pos x items).
Proof.
  revert pos. induction items as [|y r IH]; intros [|pos]; simpl;
    try reflexivity. now rewrite IH.
Qed.

Lemma unchecked_eqb_id (x y : Unchecked.CartItem.t) :
  Unchecked.CartItem.eqb x y = true ->
  Unchecked.CartItem.product_id x = Unchecked.CartItem.product_id y.
Proof.
  unfold Unchecked.CartItem.eqb. rewrite !andb_true_iff.
  intros ((((H & _) & _) & _) & _). now apply String.eqb_eq.
Qed.

Lemma unchecked_list_remove (l1 l2 : list CartItem.t) (x : CartItem.t)
      (i : nat) :
  Forall (fun y => CartItem.product_id y <> CartItem.product_id x) l1 ->
  Unchecked.list_remove (i + length l1) (unchecked_item x) i
    (map unchecked_item (l1 ++ x :: l2))
  = Ok (map unchecked_item (l1 ++ l2)).
Proof.
  intros H. revert i. induction H as [|y l1 Hy _ IH]; intros i; simpl.
  - replace (i + 0)%nat with i by lia. now rewrite Nat.eqb_refl.
  - destruct (Nat.eqb_spec i (i + S (length l1))) as [E|_]; [lia|].
    destruct (Unchecked.CartItem.eqb _ _) eqn:E;
      [apply unchecked_eqb_id in E; simpl in E; contradiction|].
    simpl. replace (i + S (length l1))%nat with (S i + length l1)%nat by lia.
    now rewrite IH.
Qed.

Lemma unchecked_with_items (items : list CartItem.t) (st : state) :
  Unchecked.with_items (map unchecked_item items) (unchecked st)
  = unchecked (with_items items st).
Proof. reflexivity. Qed.

(** On quantities that are integers, [Unchecked.remove_from_cart] is
    [remove_from_cart]. *)
Lemma remove_from_cart_unchecked (product : string) (quantity : option Z)
      (st : state) :
  Unchecked.remove_from_cart product (option_map NInt quantity) (unchecked st)
  = (fst (remove_from_cart product quantity st),
     unchecked (snd (remove_from_cart product quantity st))).
Proof.
  unfold Unchecked.remove_from_cart, remove_from_cart. exec_cbn.
  change (Unchecked.products_db (unchecked st)) with (products_db st).
  destruct (find_product_fuzzy (products_db st) product) as [[[key p]|]|e];
    [|reflexivity|reflexivity].
  exec_cbn. cbv zeta.
  change (Unchecked.Cart.items (Unchecked.cart (unchecked st)))
    with (map unchecked_item (Cart.items (cart st))).
  rewrite unchecked_find_item.
  destruct (find_item (Product.id p) 0 (Cart.items (cart st)))
    as [[pos item]|] eqn:F; [|reflexivity].
  destruct (find_item_split _ _ _ _ _ F) as (l1 & l2 & E & -> & Hid & Hl1).
  rewrite <- Hid in Hl1.
  assert (Unchecked.list_remove (0 + length l1) (unchecked_item item) 0
            (map unchecked_item (Cart.items (cart st)))
          = Ok (map unchecked_item (l1 ++ l2))) as R
      by (rewrite E; now apply unchecked_list_remove).
  assert (list_remove item (Cart.items (cart st)) = Ok (l1 ++ l2)) as R'
      by (rewrite E; now apply list_remove_middle).
  rewrite R.
  assert (forall v : value,
            (c <- gets cart;;
             items' <- lift (list_remove item (Cart.items c));;
             set_items items';;; ret v) st
            = (Ok v, with_items (l1 ++ l2) st)) as Hall
      by (intros v; exec_cbn; rewrite R'; reflexivity).
  destruct quantity as [n|]; cbn [option_map];
    [|rewrite Hall; reflexivity].
  unfold Unchecked.ge, Unchecked.gt.
  cbn [Unchecked.compare Unchecked.CartItem.quantity unchecked_item].
  rewrite Z.leb_compare, Z.ltb_compare.
  rewrite (Z.compare_antisym (CartItem.quantity item) n).
  destruct (CartItem.quantity item ?= n); cbn [CompOpp];
    try (rewrite Hall; reflexivity).
  rewrite (Z.compare_antisym n 0).
  destruct (n ?= 0); cbn [CompOpp]; try reflexivity.
  cbn [Unchecked.sub Unchecked.mul Unchecked.CartItem.unit_price
       Unchecked.CartItem.product_id Unchecked.CartItem.name unchecked_item].
  exec_cbn.
  change (Unchecked.CartItem.mk (CartItem.product_id item) (CartItem.name item)
            (CartItem.unit_price item) (NInt (CartItem.quantity item - n))
            (NInt (CartItem.unit_price item * (CartItem.quantity item - n))))
    with (unchecked_item
            (CartItem.mk (CartItem.product_id item) (CartItem.name item)
               (CartItem.unit_price item) (CartItem.quantity item - n)
               (CartItem.unit_price item * (CartItem.quantity item - n)))).
  rewrite unchecked_set_nth. reflexivity.
Qed.

(** C7: the claim asks for a positive integer quantity in every line,
    and the code does not keep it.  [remove_from_cart] tests only the sign
    of the quantity it is given: after three units of a product went into
    the empty cart, removing 0.5 of them succeeds and leaves a line with
    the quantity 2.5 and the subtotal 200.0, so that the lines are as the
    claim says before the call and are not after it.  [add_to_cart]
    rejects the same 0.5 as a quantity. *)
Theorem remove_from_cart_fractional_quantity :
  let st := exec [AddToCart "gaming mouse pro" (VInt 3)] in
  let r := Unchecked.remove_from_cart "gaming mouse pro"
             (Some (NFloat 0.5%float)) (unchecked st) in
  lines_consistent (unchecked st)
  /\ status_of (fst (add_to_cart "gaming mouse pro" (VFloat 0.5%float) st))
     = Some "error"
  /\ status_of (fst r) = Some "success"
  /\ Unchecked.Cart.items (Unchecked.cart (snd r))
     = [Unchecked.CartItem.mk "MOU002" "Gaming Mouse Pro" 80
          (NFloat 2.5%float) (NFloat 200%float)]
  /\ ~ lines_consistent (snd r).
Proof.
  intros st r.
  assert (Unchecked.Cart.items (Unchecked.cart (snd r))
          = [Unchecked.CartItem.mk "MOU002" "Gaming Mouse Pro" 80
               (NFloat 2.5%float) (NFloat 200%float)]) as E
      by (vm_compute; reflexivity).
  split; [|split; [|split; [|split]]].
  - split.
    + vm_compute. repeat constructor. exists 3. repeat split.
    + vm_compute. repeat constructor. intros [].
  - vm_compute. reflexivity.
  - vm_compute. reflexivity.
  - exact E.
  - intros [H _]. rewrite E in H. inversion H as [|? ? (q & Hq & _) _].
    discriminate Hq.
Qed.

(** ** What each tool returns *)

Lemma find_product_fuzzy_catalog (db : list (string * Product.t))
      (name : string) :
  find_product_fuzzy db name = Ok None
  \/ exists key p, find_product_fuzzy db name = Ok (Some (key, p))
                   /\ In (key, p) db.
Proof.
  destruct (find_product_fuzzy_returns db name) as ([[key p]|] & E).
  - right. exists key, p. split; [exact E|]. now apply find_product_fuzzy_In in E.
  - now left.
Qed.

Lemma catalog_entry_bounds (db : list (string * Product.t)) (key : string)
      (p : Product.t) :
  catalog_ok db -> In (key, p) db ->
  0 < Product.price p <= 1000000 /\ 0 < Product.stock p <= 1000.
Proof.
  intros Hok H. apply (catalog_bounds db p Hok). unfold dict_values.
  now apply (in_map snd) in H.
Qed.

Lemma in_cart_nonneg (pid : string) (items : list CartItem.t) :
  Forall line_ok items -> 0 <= in_cart pid items.
Proof.
  intros Hl. unfold in_cart.
  destruct (find_item pid 0 items) as [[pos item]|] eqn:F; [|lia].
  apply find_item_split in F. destruct F as (l1 & l2 & -> & _).
  apply Forall_app in Hl. destruct Hl as [_ Hl].
  inversion Hl as [|? ? [H _] _]; subst. lia.
Qed.

Lemma invariant_subtotal (st : state) (items : list CartItem.t) :
  invariant (with_items items st) ->
  Z.abs (Cart.get_subtotal (Cart.mk items (Cart.discount_code (cart st))))
  <= 2 ^ 53.
Proof. intros H. apply subtotal_bounds in H. simpl in H. lia. Qed.

Ltac small := apply Z.abs_le; split; nia.

Lemma add_to_cart_result (st : state) (product : string) (quantity : value) :
  invariant st ->
  let r := fst (add_to_cart product quantity st) in
  let rejected := Ok (error_ (VStr "Quantity must be a positive integer.") []) in
  match isinstance_int quantity with
  | None => r = rejected
  | Some q =>
      if q <=? 0 then r = rejected
      else
        match find_product_fuzzy (products_db st) product with
        | Ok None =>
            r = Ok (error_
                  (VFmt [VStr "Couldn't find product '"; VStr product;
                         VStr "'. Use 'search_product' to see options."]) [])
        | Ok (Some (_, p)) =>
            let current := in_cart (Product.id p) (Cart.items (cart st)) in
            if Product.stock p <? current + q then
              r = Ok (error_
                    (VFmt [VStr "Insufficient stock. Only ";
                           VInt (Product.stock p - current);
                           VStr " units available for '";
                           VStr (Product.name p); VStr "'."])
                    [("current_stock", VInt (Product.stock p));
                     ("in_cart", VInt current);
                     ("available", VInt (Product.stock p - current))])
            else
              exists message more,
                r = Ok (VDict (("status", VStr "success")
                               :: ("message", message) :: more))
        | Raise _ => False
        end
  end.
Proof.
  intros Hinv r rejected. subst r. pose proof Hinv as [Hok Hl Hc Hn Hcode].
  unfold add_to_cart.
  destruct (isinstance_int quantity) as [q|]; [|reflexivity].
  destruct (Z.leb_spec q 0) as [|Hq]; [reflexivity|]. exec_cbn.
  destruct (find_product_fuzzy_catalog (products_db st) product)
    as [E|(key & p & E & Hin)]; rewrite E; [reflexivity|].
  exec_cbn. cbv zeta.
  pose proof (catalog_entry_bounds _ key p Hok Hin) as Hb.
  pose proof (in_cart_nonneg (Product.id p) _ Hl) as Hpos.
  pose proof (add_line_invariant st key p q Hinv Hin Hq) as Hnew.
  unfold in_cart, add_line in *.
  destruct (find_item (Product.id p) 0 (Cart.items (cart st))) as [[pos item]|].
  - destruct (Z.ltb_spec (Product.stock p) (CartItem.quantity item + q))
      as [|Hs]; [reflexivity|].
    specialize (Hnew Hs). apply invariant_subtotal in Hnew.
    exec_cbn. rewrite !format_price_int by (exact Hnew || small).
    simpl. eauto.
  - destruct (Z.ltb_spec (Product.stock p) (0 + q)) as [|Hs]; [reflexivity|].
    specialize (Hnew Hs). apply invariant_subtotal in Hnew.
    exec_cbn. rewrite !format_price_int by (exact Hnew || small).
    simpl. eauto.
Qed.

Lemma find_item_middle (pid : string) (pos : nat) (l1 l2 : list CartItem.t)
      (x : CartItem.t) :
  Forall (fun y => CartItem.product_id y <> pid) l1 ->
  CartItem.product_id x = pid ->
  find_item pid pos (l1 ++ x :: l2) = Some ((pos + length l1)%nat, x).
Proof.
  intros Hl Hx. revert pos.
  induction Hl as [|y l1 Hy _ IH]; intros pos; simpl.
  - rewrite Hx, String.eqb_refl. f_equal. f_equal. lia.
  - destruct (String.eqb_spec (CartItem.product_id y) pid); [contradiction|].
    rewrite IH. f_equal. f_equal. lia.
Qed.

Lemma line_price (db : list (string * Product.t)) (item : CartItem.t)
      (key : string) (p : Product.t) :
  catalog_ok db -> line_of_catalog db item -> In (key, p) db ->
  CartItem.product_id item = Product.id p ->
  CartItem.unit_price item = Product.price p.
Proof.
  intros Hok (p' & Hp' & _ & Hu & _) Hin Hid.
  rewrite Hid, (product_by_id_catalog db key p Hok Hin) in Hp'.
  now injection Hp' as <-.
Qed.

Lemma add_line_subtotal (st : state) (key : string) (p : Product.t) (q : Z) :
  invariant st -> In (key, p) (products_db st) ->
  Cart.py_sum (map CartItem.subtotal (add_line p q (Cart.items (cart st))))
  = Cart.get_subtotal (cart st) + Product.price p * q.
Proof.
  intros [Hok Hl Hc _ _] Hin. unfold Cart.get_subtotal, add_line.
  destruct (find_item (Product.id p) 0 (Cart.items (cart st)))
    as [[pos item]|] eqn:F.
  - apply find_item_split in F.
    destruct F as (l1 & l2 & E & -> & Hid & _). simpl.
    rewrite E in *. rewrite set_nth_middle.
    apply Forall_app in Hl. destruct Hl as [_ Hl2].
    apply Forall_app in Hc. destruct Hc as [_ Hc2].
    inversion Hl2 as [|? ? [_ Hsub] _]; subst.
    inversion Hc2 as [|? ? Hcx _]; subst.
    rewrite !map_app, !py_sum_app. cbn [map]. rewrite !py_sum_cons.
    cbn [requantify CartItem.subtotal].
    rewrite Hsub, (line_price _ item key p Hok Hcx Hin Hid). lia.
  - rewrite map_app, py_sum_app. cbn. lia.
Qed.

Lemma add_line_in_cart (p : Product.t) (q : Z) (items : list CartItem.t) :
  in_cart (Product.id p) (add_line p q items)
  = in_cart (Product.id p) items + q.
Proof.
  unfold in_cart, add_line.
  destruct (find_item (Product.id p) 0 items) as [[pos item]|] eqn:F.
  - apply find_item_split in F.
    destruct F as (l1 & l2 & -> & -> & Hid & Hl1). simpl.
    rewrite set_nth_middle, (find_item_middle _ 0 l1 l2) by auto.
    reflexivity.
  - apply find_item_none in F.
    rewrite (find_item_middle _ 0 items []) by auto. simpl. lia.
Qed.

(** C2, as the code has it: [add_to_cart] rejects a quantity that is not a
    positive integer; rejects a product that [find_product_fuzzy] does not
    resolve, with a status and a message only (no suggestions are listed);
    rejects a request that brings the quantity in the cart above the stock,
    reporting the units still available; otherwise it adds the quantity to
    the line of the product, with its subtotal recomputed, or appends a new
    line, and the subtotal of the cart grows by price times quantity.  A
    rejected request leaves the state as it was. *)
Theorem add_to_cart_spec (st : state) (product : string) (quantity : value) :
  reachable st ->
  let r := fst (add_to_cart product quantity st) in
  let st' := snd (add_to_cart product quantity st) in
  let items := Cart.items (cart st) in
  ((isinstance_int quantity = None
    \/ exists q, isinstance_int quantity = Some q /\ q <= 0) ->
   status_of r = Some "error" /\ st' = st)
  /\ (forall q, isinstance_int quantity = Some q -> 0 < q ->
        find_product_fuzzy PRODUCTS_DB product = Ok None ->
        (exists message,
            r = Ok (VDict [("status", VStr "error"); ("message", message)]))
        /\ st' = st)
  /\ (forall q key p, isinstance_int quantity = Some q -> 0 < q ->
        find_product_fuzzy PRODUCTS_DB product = Ok (Some (key, p)) ->
        let current := in_cart (Product.id p) items in
        (Product.stock p < current + q ->
         status_of r = Some "error"
         /\ result_field "available" r = Some (VInt (Product.stock p - current))
         /\ st' = st)
        /\ (current + q <= Product.stock p ->
            status_of r = Some "success"
            /\ st' = with_items (Cart.items (cart st')) st
            /\ match find_item (Product.id p) 0 items with
               | Some (pos, item) =>
                   Cart.items (cart st')
                   = set_nth pos
                       (CartItem.mk (CartItem.product_id item)
                          (CartItem.name item) (CartItem.unit_price item)
                          (CartItem.quantity item + q)
                          (CartItem.unit_price item
                           * (CartItem.quantity item + q)))
                       items
               | None =>
                   Cart.items (cart st')
                   = items ++ [CartItem.new (Product.id p) (Product.name p)
                                 (Product.price p) q]
               end
            /\ in_cart (Product.id p) (Cart.items (cart st')) = current + q
            /\ Cart.get_subtotal (cart st')
               = Cart.get_subtotal (cart st) + Product.price p * q)).
Proof.
  intros Hst r st' items.
  pose proof (reachable_invariant st Hst) as Hinv.
  pose proof (add_to_cart_result st product quantity Hinv) as R.
  pose proof (add_to_cart_state product quantity st) as S.
  pose proof (reachable_products_db st Hst) as Hdb.
  unfold add_to_cart_effect in S. cbv zeta in R. rewrite Hdb in R, S.
  fold r in R. fold st' in S.
  split; [|split].
  - intros [E|(q & E & Hq)]; rewrite E in R, S.
    + now rewrite R.
    + apply Z.leb_le in Hq. rewrite Hq in R, S. now rewrite R.
  - intros q E Hq F. rewrite E in R, S.
    apply Z.leb_gt in Hq. rewrite Hq, F in R, S.
    split; [|exact S]. rewrite R. unfold error_. eauto.
  - intros q key p E Hq F current. rewrite E in R, S.
    apply Z.leb_gt in Hq. rewrite Hq, F in R, S. fold items current in R, S.
    split; intros Hs.
    + apply Z.ltb_lt in Hs. rewrite Hs in R, S. rewrite R. auto.
    + apply Z.ltb_ge in Hs. rewrite Hs in R, S.
      destruct R as (message & more & R). rewrite R, S.
      split; [reflexivity|]. split; [reflexivity|].
      cbn [with_items cart Cart.items].
      split; [|split].
      * unfold add_line, requantify.
        now destruct (find_item (Product.id p) 0 items) as [[pos item]|].
      * apply add_line_in_cart.
      * apply find_product_fuzzy_In in F.
        apply add_line_subtotal with (key := key); [exact Hinv|].
        now rewrite Hdb.
Qed.

Lemma add_to_cart_spec_witness :
  let st := exec [AddToCart "gaming mouse pro" (VInt 10)] in
  status_of (fst (add_to_cart "gaming mouse pro" (VInt 0) st)) = Some "error"
  /\ status_of (fst (add_to_cart "xyz123" (VInt 1) st)) = Some "error"
  /\ result_field "available" (fst (add_to_cart "gaming mouse pro" (VInt 6) st))
     = Some (VInt 5)
  /\ Cart.get_subtotal (cart (snd (add_to_cart "gaming mouse pro" (VInt 5) st)))
     = 1200.
Proof.
  intros st.
  assert (reachable st) as Hst by apply reachable_exec.
  pose (mouse := Product.mk "MOU002" "Gaming Mouse Pro" 80 15
                   ["16000 DPI"; "RGB"; "8 programmable buttons"; "Wireless"]
                   "Peripherals"
                   "Professional gaming mouse with high-precision sensor"
                   4.7%float 156).
  split; [|split; [|split]].
  - destruct (add_to_cart_spec st "gaming mouse pro" (VInt 0) Hst) as (H & _).
    apply H. right. exists 0. split; [reflexivity | lia].
  - destruct (add_to_cart_spec st "xyz123" (VInt 1) Hst) as (_ & H & _).
    destruct (H 1) as ((message & E) & _);
      [reflexivity | lia | vm_compute; reflexivity |].
    rewrite E. reflexivity.
  - destruct (add_to_cart_spec st "gaming mouse pro" (VInt 6) Hst)
      as (_ & _ & H).
    destruct (H 6 "gaming mouse pro" mouse) as [H1 _];
      [reflexivity | lia | vm_compute; reflexivity |].
    destruct H1 as (_ & H1 & _); [vm_compute; reflexivity|].
    vm_compute in H1. vm_compute. exact H1.
  - destruct (add_to_cart_spec st "gaming mouse pro" (VInt 5) Hst)
      as (_ & _ & H).
    destruct (H 5 "gaming mouse pro" mouse) as [_ H2];
      [reflexivity | lia | vm_compute; reflexivity |].
    destruct H2 as (_ & _ & _ & _ & H2); [vm_compute; discriminate|].
    vm_compute in H2. vm_compute. exact H2.
Defined.

(** The claim of C2 that an unresolved product is rejected with a list of
    suggestions fails: the result has a status and a message, and no
    suggestions. *)
Lemma add_to_cart_lists_no_suggestions :
  find_product_fuzzy PRODUCTS_DB "xyz123" = Ok None
  /\ fst (add_to_cart "xyz123" (VInt 1) initial_state)
     = Ok (VDict [("status", VStr "error");
                  ("message",
                   VFmt [VStr "Couldn't find product '"; VStr "xyz123";
                         VStr "'. Use 'search_product' to see options."])])
  /\ result_field "suggestions"
       (fst (add_to_cart "xyz123" (VInt 1) initial_state)) = None.
Proof. vm_compute. auto. Qed.

Lemma remove_from_cart_result (st : state) (product : string)
      (quantity : option Z) :
  invariant st ->
  let r := fst (remove_from_cart product quantity st) in
  match find_product_fuzzy (products_db st) product with
  | Ok None =>
      r = Ok (error_ (VFmt [VStr "Product '"; VStr product;
                            VStr "' not found in cart."]) [])
  | Ok (Some (_, p)) =>
      match find_item (Product.id p) 0 (Cart.items (cart st)) with
      | None =>
          r = Ok (error_ (VFmt [VStr "'"; VStr (Product.name p);
                                VStr "' is not in the cart."]) [])
      | Some (pos, item) =>
          let completely :=
            exists message more,
              r = Ok (VDict (("status", VStr "success")
                             :: ("message", message) :: more)) in
          match quantity with
          | None => completely
          | Some n =>
              if CartItem.quantity item <=? n then completely
              else if 0 <? n then
                exists message,
                  r = Ok (VDict
                    [("status", VStr "success"); ("message", message);
                     ("removed_quantity", VInt n);
                     ("remaining_quantity",
                      VInt (CartItem.quantity item - n))])
              else
                r = Ok (error_ (VStr "Quantity must be greater than zero.") [])
          end
      end
  | Raise _ => False
  end.
Proof.
  intros Hinv r. subst r. pose proof Hinv as [Hok Hl Hc Hn Hcode].
  unfold remove_from_cart. exec_cbn.
  destruct (find_product_fuzzy_catalog (products_db st) product)
    as [E|(key & p & E & Hin)]; rewrite E; [reflexivity|].
  exec_cbn.
  destruct (find_item (Product.id p) 0 (Cart.items (cart st)))
    as [[pos item]|] eqn:F; [|reflexivity].
  apply find_item_split in F. destruct F as (l1 & l2 & F & _ & Hid & Hl1).
  rewrite <- Hid in Hl1. cbv zeta.
  assert (forall message more : _,
    exists message' more',
      fst ((c <- gets cart;;
            items' <- lift (list_remove item (Cart.items c));;
            set_items items';;;
            ret (VDict (("status", VStr "success")
                        :: ("message", message) :: more))) st)
      = Ok (VDict (("status", VStr "success")
                   :: ("message", message') :: more'))) as Hall.
  { intros message more. exec_cbn.
    rewrite F, list_remove_middle by exact Hl1. exec_cbn. eauto. }
  destruct quantity as [n|]; [|apply Hall].
  destruct (CartItem.quantity item <=? n); [apply Hall|].
  destruct (0 <? n); [|reflexivity].
  exec_cbn. eauto.
Qed.

Lemma discount_percent (k : string) (rate : float) :
  lookup k DISCOUNT_CODES = Some rate ->
  exists n, int_of_float (rate * Z2float 100)%float = Ok n.
Proof.
  unfold DISCOUNT_CODES. cbn [lookup].
  repeat match goal with
         | |- context [String.eqb k ?s] => destruct (String.eqb k s)
         end;
    intros [= <-]; vm_compute; eauto.
Qed.

Lemma apply_discount_result (st : state) (code : string) :
  invariant st ->
  let r := fst (apply_discount code st) in
  match Cart.items (cart st) with
  | [] =>
      r = Ok (error_
            (VStr "Cart is empty. Add products before applying discounts.") [])
  | _ =>
      match lookup (PyStr.upper (PyStr.strip code)) DISCOUNT_CODES with
      | None =>
          r = Ok (error_
                (VFmt [VStr "Code '"; VStr code; VStr "' is not valid."])
                [("available_codes",
                  VList [VStr "WELCOME10"; VStr "SAVE20"; VStr "VIP30"])])
      | Some _ =>
          exists message more,
            r = Ok (VDict (("status", VStr "success")
                           :: ("message", message) :: more))
      end
  end.
Proof.
  intros Hinv r. subst r.
  pose proof (subtotal_bounds st Hinv) as Hb.
  unfold apply_discount. exec_cbn.
  destruct (Cart.items (cart st)) as [|x items] eqn:E; [reflexivity|].
  destruct (lookup _ DISCOUNT_CODES) as [rate|] eqn:L; [|reflexivity].
  exec_cbn. rewrite E.
  set (c := Cart.mk (x :: items) (Some (PyStr.upper (PyStr.strip code)))).
  assert (Cart.get_subtotal c = Cart.get_subtotal (cart st)) as Hc
      by (unfold Cart.get_subtotal; now rewrite E).
  destruct (cart_amounts c) as (D & _ & T); [rewrite Hc; lia|].
  destruct (discount_percent _ _ L) as (n & P).
  rewrite D. exec_cbn.
  rewrite (float_of_int_small 100) by (simpl; lia). exec_cbn.
  rewrite P. exec_cbn.
  rewrite format_price_int by (rewrite Hc; lia). exec_cbn.
  rewrite T. exec_cbn. rewrite !format_price_float. exec_cbn. eauto.
Qed.

Lemma without_other (pid : string) (items : list CartItem.t) :
  Forall (fun x => CartItem.product_id x <> pid) items ->
  without pid items = items.
Proof.
  induction 1 as [|x l Hx _ IH]; simpl; [reflexivity|].
  apply String.eqb_neq in Hx. rewrite Hx. simpl. now rewrite IH.
Qed.

Lemma without_middle (l1 l2 : list CartItem.t) (item : CartItem.t) :
  NoDup (map CartItem.product_id (l1 ++ item :: l2)) ->
  without (CartItem.product_id item) (l1 ++ item :: l2) = l1 ++ l2.
Proof.
  intros Hn. unfold without. rewrite filter_app. simpl.
  rewrite String.eqb_refl. simpl.
  rewrite map_app in Hn. simpl in Hn.
  pose proof (NoDup_remove_2 _ _ _ Hn) as Hnot.
  fold (without (CartItem.product_id item) l1).
  fold (without (CartItem.product_id item) l2).
  rewrite !without_other; [reflexivity| |];
    apply Forall_forall; intros x Hx E; apply Hnot; apply in_or_app;
    [right|left]; rewrite <- E; now apply in_map.
Qed.

(** C4: [remove_from_cart] returns an error when the product is not
    resolved or has no line in the cart; it removes the line when no
    quantity is given or the quantity is at least that of the line; a
    smaller positive quantity [n] leaves the line with its quantity less
    [n] and the subtotal recomputed; a quantity that is not positive is an
    error; an error leaves the state as it was. *)
Theorem remove_from_cart_spec (st : state) (product : string)
        (quantity : option Z) :
  reachable st ->
  let r := fst (remove_from_cart product quantity st) in
  let st' := snd (remove_from_cart product quantity st) in
  let items := Cart.items (cart st) in
  (find_product_fuzzy PRODUCTS_DB product = Ok None ->
   status_of r = Some "error" /\ st' = st)
  /\ (forall key p,
        find_product_fuzzy PRODUCTS_DB product = Ok (Some (key, p)) ->
        (find_item (Product.id p) 0 items = None ->
         status_of r = Some "error" /\ st' = st)
        /\ (forall pos item,
              find_item (Product.id p) 0 items = Some (pos, item) ->
              let current := CartItem.quantity item in
              ((quantity = None
                \/ exists n, quantity = Some n /\ current <= n) ->
               status_of r = Some "success"
               /\ st' = with_items (without (Product.id p) items) st
               /\ find_item (Product.id p) 0 (Cart.items (cart st')) = None)
              /\ (forall n, quantity = Some n -> 0 < n < current ->
                    status_of r = Some "success"
                    /\ st' = with_items
                               (set_nth pos
                                  (CartItem.mk (CartItem.product_id item)
                                     (CartItem.name item)
                                     (CartItem.unit_price item) (current - n)
                                     (CartItem.unit_price item * (current - n)))
                                  items) st
                    /\ in_cart (Product.id p) (Cart.items (cart st'))
                       = current - n)
              /\ (forall n, quantity = Some n -> n <= 0 ->
                    status_of r = Some "error" /\ st' = st))).
Proof.
  intros Hst r st' items.
  pose proof (reachable_invariant st Hst) as Hinv.
  pose proof (remove_from_cart_result st product quantity Hinv) as R.
  pose proof (remove_from_cart_state product quantity st) as S.
  pose proof Hinv as [_ Hl _ Hn _].
  pose proof (reachable_products_db st Hst) as Hdb.
  unfold remove_from_cart_effect in S. cbv zeta in R. rewrite Hdb in R, S.
  fold r in R. fold st' in S. fold items in R, S, Hl, Hn.
  split.
  - intros F. rewrite F in R, S. now rewrite R.
  - intros key p F. rewrite F in R, S. split.
    + intros E. rewrite E in R, S. now rewrite R.
    + intros pos item E current. rewrite E in R, S.
      apply find_item_split in E.
      destruct E as (l1 & l2 & E & -> & Hid & Hl1). simpl in S.
      assert (0 < current) as Hpos.
      { rewrite E in Hl. apply Forall_app in Hl. destruct Hl as [_ Hl].
        now inversion Hl as [|? ? [H _] _]. }
      assert (remove_line (length l1) item None items
              = without (Product.id p) items) as Hall.
      { unfold remove_line. rewrite E, <- Hid.
        rewrite list_remove_middle by (now rewrite Hid).
        rewrite E in Hn. now rewrite without_middle. }
      assert (find_item (Product.id p) 0 (without (Product.id p) items) = None)
        as Hgone.
      { destruct (find_item _ 0 (without _ items)) as [[k x]|] eqn:G;
          [|reflexivity].
        apply find_item_split in G. destruct G as (m1 & m2 & G & _ & Gid & _).
        assert (In x (without (Product.id p) items)) as Hin
            by (rewrite G; apply in_or_app; right; now left).
        apply filter_In in Hin. destruct Hin as [_ Hin].
        rewrite Gid, String.eqb_refl in Hin. discriminate. }
      split; [|split].
      * intros [Q|(n & Q & Hq)]; rewrite Q in R, S.
        -- destruct R as (m & more & ->). rewrite S, Hall. auto.
        -- apply Z.leb_le in Hq. fold current in R. rewrite Hq in R.
           destruct R as (m & more & ->). rewrite S.
           unfold remove_line. fold current. rewrite Hq.
           change (match list_remove item items with
                   | Ok items' => items'
                   | Raise _ => items
                   end) with (remove_line (length l1) item None items).
           rewrite Hall. auto.
      * intros n Q Hq. rewrite Q in R, S.
        fold current in R.
        destruct (Z.leb_spec current n); [lia|].
        destruct (Z.ltb_spec 0 n); [|lia].
        destruct R as (m & ->). rewrite S. unfold remove_line. fold current.
        destruct (Z.leb_spec current n); [lia|].
        destruct (Z.ltb_spec 0 n); [|lia].
        split; [reflexivity|]. split; [reflexivity|].
        cbn [with_items cart Cart.items]. rewrite E, set_nth_middle.
        unfold in_cart.
        rewrite (find_item_middle _ 0 l1 l2) by (simpl; auto).
        reflexivity.
      * intros n Q Hq. rewrite Q in R, S. fold current in R.
        destruct (Z.leb_spec current n); [lia|].
        destruct (Z.ltb_spec 0 n); [lia|].
        rewrite R. split; [reflexivity|].
        rewrite S. unfold remove_line. fold current.
        destruct (Z.leb_spec current n); [lia|].
        destruct (Z.ltb_spec 0 n); [lia|].
        apply with_items_same.
Qed.

Lemma remove_from_cart_spec_witness :
  let st := exec [AddToCart "gaming mouse pro" (VInt 3)] in
  status_of (fst (remove_from_cart "xyz123" None st)) = Some "error"
  /\ status_of (fst (remove_from_cart "4k hdr monitor" None st)) = Some "error"
  /\ Cart.items (cart (snd (remove_from_cart "gaming mouse pro" None st))) = []
  /\ in_cart "MOU002"
       (Cart.items (cart (snd (remove_from_cart "gaming mouse pro" (Some 1) st))))
     = 2
  /\ status_of (fst (remove_from_cart "gaming mouse pro" (Some 0) st))
     = Some "error".
Proof.
  intros st.
  assert (reachable st) as Hst by apply reachable_exec.
  pose (mouse := Product.mk "MOU002" "Gaming Mouse Pro" 80 15
                   ["16000 DPI"; "RGB"; "8 programmable buttons"; "Wireless"]
                   "Peripherals"
                   "Professional gaming mouse with high-precision sensor"
                   4.7%float 156).
  pose (monitor := Product.mk "MON003" "4K HDR Monitor" 400 5
                   ["27 inches"; "144Hz"; "HDR10"; "G-Sync Compatible"]
                   "Monitors"
                   "4K gaming monitor with HDR for an immersive visual experience"
                   4.9%float 203).
  pose (line := CartItem.mk "MOU002" "Gaming Mouse Pro" 80 3 240).
  split; [|split; [|split; [|split]]].
  - destruct (remove_from_cart_spec st "xyz123" None Hst) as (H & _).
    apply H. vm_compute. reflexivity.
  - destruct (remove_from_cart_spec st "4k hdr monitor" None Hst) as (_ & H).
    destruct (H "4k hdr monitor" monitor) as (H1 & _);
      [vm_compute; reflexivity|].
    apply H1. vm_compute. reflexivity.
  - destruct (remove_from_cart_spec st "gaming mouse pro" None Hst) as (_ & H).
    destruct (H "gaming mouse pro" mouse) as (_ & H2);
      [vm_compute; reflexivity|].
    destruct (H2 0%nat line) as (H3 & _); [vm_compute; reflexivity|].
    destruct H3 as (_ & H3 & _); [now left|].
    rewrite H3. vm_compute. reflexivity.
  - destruct (remove_from_cart_spec st "gaming mouse pro" (Some 1) Hst)
      as (_ & H).
    destruct (H "gaming mouse pro" mouse) as (_ & H2);
      [vm_compute; reflexivity|].
    destruct (H2 0%nat line) as (_ & H3 & _); [vm_compute; reflexivity|].
    destruct (H3 1) as (_ & _ & H4); [reflexivity | simpl; lia |].
    exact H4.
  - destruct (remove_from_cart_spec st "gaming mouse pro" (Some 0) Hst)
      as (_ & H).
    destruct (H "gaming mouse pro" mouse) as (_ & H2);
      [vm_compute; reflexivity|].
    destruct (H2 0%nat line) as (_ & _ & H3); [vm_compute; reflexivity|].
    destruct (H3 0) as (H4 & _); [reflexivity | lia |].
    exact H4.
Defined.

(** C10: [remove_from_cart] leaves the discount code of the cart as it
    was, whatever the state and the arguments, so the code stays on a cart
    whose last line is removed; among the tools only [clear_cart] puts the
    code back to none. *)
Theorem remove_from_cart_keeps_discount_code :
  (forall st product quantity,
     Cart.discount_code (cart (snd (remove_from_cart product quantity st)))
     = Cart.discount_code (cart st))
  /\ (let st := exec [AddToCart "gaming mouse pro" (VInt 1);
                      ApplyDiscount "SAVE20";
                      RemoveFromCart "gaming mouse pro" None] in
      Cart.items (cart st) = []
      /\ Cart.discount_code (cart st) = Some "SAVE20")
  /\ (forall st c,
        Cart.discount_code (cart st) <> None ->
        Cart.discount_code (cart (snd (run c st))) = None ->
        c = ClearCart)
  /\ (forall st, Cart.discount_code (cart (snd (clear_cart st))) = None).
Proof.
  assert (forall st product quantity,
     Cart.discount_code (cart (snd (remove_from_cart product quantity st)))
     = Cart.discount_code (cart st)) as Hrem.
  { intros st product quantity. rewrite remove_from_cart_state. unfold remove_from_cart_effect.
    destruct (find_product_fuzzy (products_db st) product)
      as [[[key p]|]|e]; try reflexivity.
    now destruct (find_item _ 0 _) as [[pos item]|]. }
  split; [exact Hrem|]. split; [vm_compute; auto|]. split; [|reflexivity].
  intros st c Hsome Hnone.
  destruct c as [name|product quantity| |code|product quantity| | |category|];
    simpl in Hnone; try reflexivity; exfalso; apply Hsome.
  - now rewrite search_product_by_name_state in Hnone.
  - rewrite add_to_cart_state in Hnone. unfold add_to_cart_effect in Hnone.
    destruct (isinstance_int quantity) as [q|]; [|exact Hnone].
    destruct (q <=? 0); [exact Hnone|].
    destruct (find_product_fuzzy (products_db st) product)
      as [[[key p]|]|e]; try exact Hnone.
    now destruct (Product.stock p <? _).
  - now rewrite (view_cart_readonly st : snd (view_cart st) = st) in Hnone.
  - rewrite apply_discount_state in Hnone. unfold apply_discount_effect in Hnone.
    destruct (Cart.items (cart st)); [exact Hnone|].
    destruct (lookup _ DISCOUNT_CODES); [discriminate Hnone | exact Hnone].
  - now rewrite Hrem in Hnone.
  - now rewrite (calculate_total_readonly st : snd (calculate_total st) = st)
      in Hnone.
  - now rewrite (recommend_products_readonly category st
                 : snd (recommend_products category st) = st) in Hnone.
  - now rewrite (show_search_history_readonly st
                 : snd (show_search_history st) = st) in Hnone.
Qed.

Lemma remove_from_cart_keeps_discount_code_witness :
  let st := exec [AddToCart "gaming mouse pro" (VInt 1); ApplyDiscount "VIP30"] in
  Cart.discount_code (cart (snd (remove_from_cart "gaming mouse pro" None st)))
  = Some "VIP30"
  /\ ClearCart = ClearCart.
Proof.
  intros st.
  destruct remove_from_cart_keeps_discount_code as (H1 & _ & H3 & _).
  split.
  - rewrite H1. vm_compute. reflexivity.
  - apply (H3 st ClearCart); vm_compute; [discriminate | reflexivity].
Defined.

(** C5: [apply_discount] rejects on an empty cart; the code is stripped
    and put in upper case and looked up in the table WELCOME10 10%, SAVE20
    20%, VIP30 30%; an unknown code is rejected with the list of the valid
    codes and leaves the state, so the applied code, as it was; a known code
    takes the place of the code applied before, if any, the cart holding one
    code at most. *)
Theorem apply_discount_spec (st : state) (code : string) :
  reachable st ->
  let r := fst (apply_discount code st) in
  let st' := snd (apply_discount code st) in
  let normalized := PyStr.upper (PyStr.strip code) in
  DISCOUNT_CODES
  = [("WELCOME10", 0.10%float); ("SAVE20", 0.20%float); ("VIP30", 0.30%float)]
  /\ (Cart.items (cart st) = [] -> status_of r = Some "error" /\ st' = st)
  /\ (Cart.items (cart st) <> [] ->
      lookup normalized DISCOUNT_CODES = None ->
      status_of r = Some "error"
      /\ result_field "available_codes" r
         = Some (VList [VStr "WELCOME10"; VStr "SAVE20"; VStr "VIP30"])
      /\ st' = st)
  /\ (Cart.items (cart st) <> [] ->
      forall rate, lookup normalized DISCOUNT_CODES = Some rate ->
      status_of r = Some "success"
      /\ Cart.discount_code (cart st') = Some normalized
      /\ st' = with_code (Some normalized) st).
Proof.
  intros Hst r st' normalized.
  pose proof (reachable_invariant st Hst) as Hinv.
  pose proof (apply_discount_result st code Hinv) as R.
  pose proof (apply_discount_state code st) as S.
  unfold apply_discount_effect in S.
  cbv zeta in R. fold r normalized in R. fold st' normalized in S.
  split; [reflexivity|]. split; [|split].
  - intros E. rewrite E in R, S. now rewrite R.
  - intros E L. destruct (Cart.items (cart st)); [contradiction|].
    rewrite L in R, S. now rewrite R.
  - intros E rate L. destruct (Cart.items (cart st)); [contradiction|].
    rewrite L in R, S. destruct R as (m & more & ->). now rewrite S.
Qed.

Lemma apply_discount_spec_witness :
  status_of (fst (apply_discount "SAVE20" initial_state)) = Some "error"
  /\ (let st := exec [AddToCart "gaming mouse pro" (VInt 1);
                      ApplyDiscount "SAVE20"] in
      Cart.discount_code (cart (snd (apply_discount "half price" st)))
      = Some "SAVE20"
      /\ Cart.discount_code (cart (snd (apply_discount " vip30 " st)))
         = Some "VIP30").
Proof.
  split; [|split].
  - destruct (apply_discount_spec initial_state "SAVE20" reachable_init)
      as (_ & H & _).
    apply H. reflexivity.
  - set (st := exec _).
    destruct (apply_discount_spec st "half price" (reachable_exec _))
      as (_ & _ & H & _).
    destruct H as (_ & _ & ->);
      [vm_compute; discriminate | vm_compute; reflexivity |].
    vm_compute. reflexivity.
  - set (st := exec _).
    destruct (apply_discount_spec st " vip30 " (reachable_exec _))
      as (_ & _ & _ & H).
    destruct (H ltac:(vm_compute; discriminate) 0.30%float
                ltac:(vm_compute; reflexivity)) as (_ & H' & _).
    rewrite H'. vm_compute. reflexivity.
Defined.

(** ** Every tool answers *)

Lemma In_firstn {A} (n : nat) (l : list A) (x : A) :
  In x (firstn n l) -> In x l.
Proof.
  intros H. rewrite <- (firstn_skipn n l). apply in_or_app. now left.
Qed.

Lemma for_each_exists {A B} (f : A -> outcome B) (l : list A) :
  Forall (fun x => exists y, f x = Ok y) l ->
  exists ys, for_each f l = Ok ys /\ length ys = length l.
Proof.
  induction 1 as [|x l (y & Hy) _ (ys & IH & Hlen)]; simpl.
  - now exists [].
  - rewrite Hy, IH. simpl. exists (y :: ys). simpl. auto.
Qed.

Lemma lines_formatted (f : CartItem.t -> outcome value) (st : state) :
  invariant st ->
  (forall item,
     Z.abs (CartItem.unit_price item) <= 2 ^ 53 ->
     Z.abs (CartItem.subtotal item) <= 2 ^ 53 -> exists v, f item = Ok v) ->
  exists vs, for_each f (Cart.items (cart st)) = Ok vs.
Proof.
  intros [Hok Hl Hc _ _] Hf.
  destruct (for_each_exists f (Cart.items (cart st))) as (vs & E & _);
    [|eauto].
  apply Forall_forall. intros item Hin.
  rewrite Forall_forall in Hl, Hc.
  pose proof (line_bounds _ item Hok (Hl item Hin) (Hc item Hin)).
  apply Hf; lia.
Qed.

Lemma item_detail_ok (item : CartItem.t) :
  Z.abs (CartItem.unit_price item) <= 2 ^ 53 ->
  Z.abs (CartItem.subtotal item) <= 2 ^ 53 -> exists v, item_detail item = Ok v.
Proof.
  intros H1 H2. unfold item_detail. rewrite !format_price_int by assumption.
  simpl. eauto.
Qed.

Lemma product_summary_ok (item : CartItem.t) :
  Z.abs (CartItem.unit_price item) <= 2 ^ 53 ->
  Z.abs (CartItem.subtotal item) <= 2 ^ 53 ->
  exists v, product_summary item = Ok v.
Proof.
  intros H1 H2. unfold product_summary.
  rewrite !format_price_int by assumption. simpl. eauto.
Qed.

Lemma format_price_shipping (c : Cart.t) :
  format_price (Cart.get_shipping c) = Ok (VPrice (Cart.get_shipping c)).
Proof.
  unfold Cart.get_shipping.
  destruct (SHIPPING_THRESHOLD <=? Cart.get_subtotal c);
    [reflexivity | apply format_price_int; simpl; lia].
Qed.

Lemma view_cart_result (st : state) :
  invariant st ->
  exists v, fst (view_cart st) = Ok v
            /\ match Cart.items (cart st) with
               | [] => tagged "empty" v /\ has_field "message" v = true
               | _ => tagged "success" v /\ has_field "message" v = false
               end.
Proof.
  intros Hinv. pose proof (subtotal_bounds st Hinv) as Hb.
  destruct (lines_formatted item_detail st Hinv item_detail_ok) as (vs & V).
  destruct (cart_amounts (cart st)) as (D & T & Tot); [lia|].
  unfold view_cart. exec_cbn.
  destruct (Cart.items (cart st)) as [|x items] eqn:E.
  - eexists. split; [reflexivity|]. split; reflexivity.
  - rewrite V. exec_cbn. rewrite D. exec_cbn. rewrite T. exec_cbn.
    rewrite Tot. exec_cbn.
    rewrite format_price_int by lia. exec_cbn.
    rewrite format_price_shipping.
    destruct (0 <? discount_value (cart st))%float;
      exec_cbn; rewrite ?format_price_float; exec_cbn;
      destruct (is_zero _ && _);
      eexists; (split; [reflexivity|]); split; reflexivity.
Qed.

Lemma tax_percent : int_of_float (TAX_RATE * Z2float 100)%float = Ok 8.
Proof. vm_compute. reflexivity. Qed.

Lemma calculate_total_result (st : state) :
  invariant st ->
  exists v, fst (calculate_total st) = Ok v
            /\ has_field "message" v = true
            /\ match Cart.items (cart st) with
               | [] => tagged "empty" v
               | _ => tagged "success" v
               end.
Proof.
  intros Hinv. pose proof (subtotal_bounds st Hinv) as Hb.
  destruct (lines_formatted product_summary st Hinv product_summary_ok)
    as (vs & V).
  destruct (cart_amounts (cart st)) as (D & T & Tot); [lia|].
  unfold calculate_total. exec_cbn.
  destruct (Cart.items (cart st)) as [|x items] eqn:E.
  - rewrite format_price_int by (simpl; lia). exec_cbn.
    eexists. split; [reflexivity|]. split; reflexivity.
  - rewrite D. exec_cbn. rewrite T. exec_cbn. rewrite Tot. exec_cbn.
    rewrite format_price_int by lia. exec_cbn.
    rewrite (float_of_int_small 100) by (simpl; lia).
    rewrite format_price_shipping.
    rewrite (format_price_int SHIPPING_THRESHOLD) by (simpl; lia).
    rewrite (format_price_int SHIPPING_COST) by (simpl; lia).
    assert (float_of_int (if is_zero (Cart.get_shipping (cart st))
                          then SHIPPING_COST else 0)
            = Ok (Z2float (if is_zero (Cart.get_shipping (cart st))
                           then SHIPPING_COST else 0))) as F
        by (apply float_of_int_small;
            destruct (is_zero _); simpl; lia).
    rewrite F.
    destruct (0 <? discount_value (cart st))%float;
      exec_cbn; rewrite ?format_price_float; exec_cbn;
      rewrite tax_percent; exec_cbn; rewrite V; exec_cbn;
      destruct (is_zero _ && _);
      exec_cbn; rewrite ?format_price_float; exec_cbn;
      eexists; (split; [reflexivity|]); split; reflexivity.
Qed.

Lemma suggestions_ok (db : list (string * Product.t)) :
  catalog_ok db -> exists l, for_each suggestion (firstn 3 db) = Ok l.
Proof.
  intros Hok.
  destruct (for_each_exists suggestion (firstn 3 db)) as (l & E & _);
    [|eauto].
  apply Forall_forall. intros [key p] Hin. apply In_firstn in Hin.
  pose proof (catalog_entry_bounds db key p Hok Hin).
  unfold suggestion. rewrite format_price_int by small. simpl. eauto.
Qed.

Lemma search_product_by_name_result (st : state) (product_name : string) :
  invariant st ->
  exists v, fst (search_product_by_name product_name st) = Ok v
            /\ has_field "message" v = true
            /\ match find_product_fuzzy (products_db st) product_name with
               | Ok (Some _) => tagged "success" v
               | _ => tagged "not_found" v
                      /\ exists l, field "suggestions" v = Some (VList l)
               end.
Proof.
  intros Hinv. pose proof Hinv as [Hok _ _ _ _].
  unfold search_product_by_name. exec_cbn.
  destruct (find_product_fuzzy_catalog (products_db st) product_name)
    as [E|(key & p & E & Hin)]; rewrite E; exec_cbn.
  - destruct (suggestions_ok _ Hok) as (l & ->).
    exec_cbn. eexists. split; [reflexivity|]. split; [reflexivity|].
    split; [reflexivity|]. eexists. reflexivity.
  - pose proof (catalog_entry_bounds _ key p Hok Hin).
    rewrite format_price_int by small. exec_cbn.
    eexists. split; [reflexivity|]. split; reflexivity.
Qed.

Lemma clear_cart_result (st : state) :
  exists v, fst (clear_cart st) = Ok v
            /\ tagged "success" v /\ has_field "message" v = true.
Proof. eexists. split; [reflexivity|]. split; reflexivity. Qed.

Lemma show_search_history_result (st : state) :
  exists v, fst (show_search_history st) = Ok v
            /\ match search_history st with
               | [] => tagged "empty" v /\ has_field "message" v = true
               | _ => tagged "success" v /\ has_field "message" v = false
               end.
Proof.
  unfold show_search_history. exec_cbn.
  destruct (search_history st); eexists; (split; [reflexivity|]);
    split; reflexivity.
Qed.

(** ** Sorting the recommendations *)

Lemma insert_sorted_perm (x : Product.t) (l : list Product.t) :
  Permutation (insert_sorted x l) (x :: l).
Proof.
  induction l as [|y l IH]; simpl; [reflexivity|].
  destruct (key_lt x y); [reflexivity|].
  rewrite IH. apply perm_swap.
Qed.

Lemma sort_asc_perm (l : list Product.t) : Permutation (sort_asc l) l.
Proof.
  unfold sort_asc.
  assert (forall acc,
            Permutation (fold_left (fun s x => insert_sorted x s) l acc)
                        (acc ++ l)) as H.
  { induction l as [|x l IH]; intros acc; simpl.
    - now rewrite app_nil_r.
    - rewrite IH, insert_sorted_perm. apply Permutation_middle. }
  apply (H []).
Qed.

Lemma sort_reverse_perm (l : list Product.t) : Permutation (sort_reverse l) l.
Proof.
  unfold sort_reverse.
  rewrite <- Permutation_rev, sort_asc_perm. symmetry. apply Permutation_rev.
Qed.

Lemma recommendation_ok (db : list (string * Product.t)) (p : Product.t) :
  catalog_ok db -> In p (dict_values db) -> exists v, recommendation p = Ok v.
Proof.
  intros Hok H. apply (catalog_bounds db p Hok) in H. unfold recommendation.
  rewrite format_price_int by small. simpl. eauto.
Qed.

Lemma recommendations_ok (db : list (string * Product.t))
      (l : list Product.t) :
  catalog_ok db -> incl l (dict_values db) ->
  exists vs, for_each recommendation (firstn 3 (sort_reverse l)) = Ok vs
             /\ length vs = length (firstn 3 (sort_reverse l)).
Proof.
  intros Hok H. apply for_each_exists. apply Forall_forall. intros p Hp.
  apply (recommendation_ok db p Hok), H.
  apply (Permutation_in p (sort_reverse_perm l)).
  eapply In_firstn. exact Hp.
Qed.

Lemma recommend_products_result (st : state) (category : option string) :
  invariant st ->
  let r := fst (recommend_products category st) in
  let db := products_db st in
  match category_given category, remaining_products db category with
  | true, [] =>
      exists message,
        r = Ok (VDict
          [("status", VStr "error"); ("message", message);
           ("available_categories",
            VList (map VStr (distinct (map Product.category
                                           (dict_values db)))))])
  | _, products =>
      exists recs category' message,
        for_each recommendation (firstn 3 (sort_reverse products)) = Ok recs
        /\ r = Ok (VDict
              [("status", VStr "success"); ("category", category');
               ("recommendations", VList recs); ("message", message)])
  end.
Proof.
  intros [Hok _ _ _ _] r db. subst r.
  unfold recommend_products. exec_cbn. fold db. cbv zeta.
  assert (incl (remaining_products db category) (dict_values db)) as Hincl.
  { unfold remaining_products, in_category.
    destruct category as [c|]; [|apply incl_refl].
    destruct (PyStr.truthy c); [|apply incl_refl].
    intros p Hp. apply filter_In in Hp. tauto. }
  destruct (recommendations_ok db _ Hok Hincl) as (vs & V & _).
  unfold category_given, remaining_products, in_category in *.
  destruct category as [c|].
  - destruct (PyStr.truthy c).
    + destruct (filter _ (dict_values db)) as [|p l] eqn:F.
      * eexists. reflexivity.
      * exec_cbn. rewrite V. exec_cbn. eauto 6.
    + exec_cbn. rewrite V. exec_cbn. eauto 6.
  - exec_cbn. rewrite V. exec_cbn. eauto 6.
Qed.

Lemma tagged_status_of (s : string) (v : value) :
  tagged s v -> status_of (Ok v) = Some s.
Proof. unfold tagged, status_of. now intros ->. Qed.

Lemma run_answers (st : state) (c : call) :
  invariant st ->
  exists v,
    fst (run c st) = Ok v
    /\ (exists s, field "status" v = Some (VStr s) /\ In s statuses)
    /\ (has_field "message" v = false ->
        (c = ViewCart \/ c = ShowSearchHistory) /\ tagged "success" v).
Proof.
  intros Hinv.
  assert (forall v, tagged "error" v -> has_field "message" v = true ->
            (exists s, field "status" v = Some (VStr s) /\ In s statuses)
            /\ (has_field "message" v = false ->
                (c = ViewCart \/ c = ShowSearchHistory) /\ tagged "success" v))
    as Herr.
  { intros v Ht Hm. split; [exists "error"; simpl; auto|].
    rewrite Hm. discriminate. }
  assert (forall message more,
            (exists s, field "status"
                         (VDict (("status", VStr "success")
                                 :: ("message", message) :: more))
                       = Some (VStr s) /\ In s statuses)
            /\ (has_field "message"
                  (VDict (("status", VStr "success")
                          :: ("message", message) :: more)) = false ->
                (c = ViewCart \/ c = ShowSearchHistory)
                /\ tagged "success"
                     (VDict (("status", VStr "success")
                             :: ("message", message) :: more)))) as Hsucc.
  { intros message more. split; [exists "success"; simpl; auto|].
    discriminate. }
  destruct c as [name|product quantity| |code|product quantity| | |category|];
    simpl.
  - destruct (search_product_by_name_result st name Hinv) as (v & E & Hm & H).
    exists v. split; [exact E|]. split.
    + destruct (find_product_fuzzy (products_db st) name) as [[?|]|?];
        [exists "success" | exists "not_found" | exists "not_found"];
        simpl; intuition.
    + rewrite Hm. discriminate.
  - pose proof (add_to_cart_result st product quantity Hinv) as R.
    cbv zeta in R.
    destruct (isinstance_int quantity) as [q|];
      [|eexists; split; [exact R | now apply Herr]].
    destruct (q <=? 0); [eexists; split; [exact R | now apply Herr]|].
    destruct (find_product_fuzzy (products_db st) product) as [[[key p]|]|e];
      [|eexists; split; [exact R | now apply Herr]|contradiction].
    destruct (Product.stock p <? _);
      [eexists; split; [exact R | now apply Herr]|].
    destruct R as (message & more & R). eexists. split; [exact R|].
    apply Hsucc.
  - destruct (view_cart_result st Hinv) as (v & E & H).
    exists v. split; [exact E|].
    destruct (Cart.items (cart st)); destruct H as [Ht Hm].
    + split; [exists "empty"; simpl; auto|]. rewrite Hm. discriminate.
    + split; [exists "success"; simpl; auto|]. auto.
  - pose proof (apply_discount_result st code Hinv) as R. cbv zeta in R.
    destruct (Cart.items (cart st));
      [eexists; split; [exact R | now apply Herr]|].
    destruct (lookup _ DISCOUNT_CODES);
      [|eexists; split; [exact R | now apply Herr]].
    destruct R as (message & more & R). eexists. split; [exact R|].
    apply Hsucc.
  - pose proof (remove_from_cart_result st product quantity Hinv) as R.
    cbv zeta in R.
    destruct (find_product_fuzzy (products_db st) product) as [[[key p]|]|e];
      [|eexists; split; [exact R | now apply Herr]|contradiction].
    destruct (find_item _ 0 _) as [[pos item]|];
      [|eexists; split; [exact R | now apply Herr]].
    destruct quantity as [n|].
    + destruct (CartItem.quantity item <=? n).
      * destruct R as (message & more & R). eexists. split; [exact R|].
        apply Hsucc.
      * destruct (0 <? n); [|eexists; split; [exact R | now apply Herr]].
        destruct R as (message & R). eexists. split; [exact R|]. apply Hsucc.
    + destruct R as (message & more & R). eexists. split; [exact R|].
      apply Hsucc.
  - destruct (clear_cart_result st) as (v & E & Ht & Hm).
    exists v. split; [exact E|].
    split; [exists "success"; simpl; auto|]. rewrite Hm. discriminate.
  - destruct (calculate_total_result st Hinv) as (v & E & Hm & H).
    exists v. split; [exact E|]. split.
    + destruct (Cart.items (cart st));
        [exists "empty" | exists "success"]; simpl; auto.
    + rewrite Hm. discriminate.
  - pose proof (recommend_products_result st category Hinv) as R.
    cbv zeta in R.
    destruct (category_given category),
      (remaining_products (products_db st) category);
      try (destruct R as (recs & c' & message & _ & R));
      try (destruct R as (message & R));
      (eexists; split; [exact R|]);
      (split; [eexists; split; [reflexivity | simpl; auto] | discriminate]).
  - destruct (show_search_history_result st) as (v & E & H).
    exists v. split; [exact E|].
    destruct (search_history st); destruct H as [Ht Hm].
    + split; [exists "empty"; simpl; auto|]. rewrite Hm. discriminate.
    + split; [exists "success"; simpl; auto|]. auto.
Qed.

Lemma mcp_search_product_state (arguments : Mcp.arguments) (st : state) :
  snd (Mcp.search_product arguments st)
  = search_effect (Mcp.get (Mcp.product_name arguments) "") st.
Proof.
  unfold Mcp.search_product, search_effect. cbv zeta. exec_cbn.
  destruct (find_product_fuzzy (products_db st) _) as [[[key p]|]|e];
    exec_done.
Qed.

Lemma mcp_add_to_cart_state (arguments : Mcp.arguments) (st : state) :
  snd (Mcp.add_to_cart arguments st)
  = add_to_cart_effect (Mcp.get (Mcp.product arguments) "")
      (VInt (Mcp.get (Mcp.quantity arguments) 1)) st.
Proof.
  unfold Mcp.add_to_cart, add_to_cart_effect. cbv zeta.
  cbn [isinstance_int].
  set (q := Mcp.get (Mcp.quantity arguments) 1).
  destruct (q <=? 0); [reflexivity|]. exec_cbn.
  destruct (find_product_fuzzy (products_db st) _) as [[[key p]|]|e];
    [|reflexivity|reflexivity].
  exec_cbn. unfold in_cart, add_line.
  destruct (find_item (Product.id p) 0 (Cart.items (cart st))) as [[pos item]|].
  - destruct (Product.stock p <? CartItem.quantity item + q);
      [reflexivity | exec_done].
  - destruct (Product.stock p <? 0 + q); [reflexivity | exec_done].
Qed.

Lemma mcp_view_cart_state (st : state) : snd (Mcp.view_cart st) = st.
Proof.
  unfold Mcp.view_cart. exec_cbn.
  destruct (Cart.items (cart st)); [reflexivity|].
  exec_outcomes; try reflexivity.
  all: destruct (0 <? _)%float; exec_done.
Qed.

Lemma mcp_apply_discount_state (arguments : Mcp.arguments) (st : state) :
  snd (Mcp.apply_discount arguments st)
  = apply_discount_effect (Mcp.get (Mcp.code arguments) "") st.
Proof.
  unfold Mcp.apply_discount, apply_discount_effect. cbv zeta. exec_cbn.
  destruct (Cart.items (cart st)) as [|x r] eqn:E; [reflexivity|].
  destruct (lookup _ DISCOUNT_CODES); [|reflexivity].
  unfold with_code. exec_done.
Qed.

Lemma mcp_remove_from_cart_state (arguments : Mcp.arguments) (st : state) :
  snd (Mcp.remove_from_cart arguments st)
  = remove_from_cart_effect (Mcp.get (Mcp.product arguments) "")
      (Mcp.quantity arguments) st.
Proof.
  unfold Mcp.remove_from_cart, remove_from_cart_effect. cbv zeta. exec_cbn.
  destruct (find_product_fuzzy (products_db st) _) as [[[key p]|]|e];
    [|reflexivity|reflexivity].
  exec_cbn.
  destruct (find_item (Product.id p) 0 (Cart.items (cart st))) as [[pos item]|];
    [|reflexivity].
  unfold remove_line.
  assert (forall v : value,
    snd ((c <- gets cart;;
          items' <- lift (list_remove item (Cart.items c));;
          set_items items';;; ret v) st) =
    with_items match list_remove item (Cart.items (cart st)) with
               | Ok items' => items'
               | Raise _ => Cart.items (cart st)
               end st) as Hall.
  { intros v. exec_cbn.
    destruct (list_remove item (Cart.items (cart st)));
      [reflexivity | now rewrite with_items_same]. }
  destruct (Mcp.quantity arguments) as [n|]; [|apply Hall].
  destruct (CartItem.quantity item <=? n); [apply Hall|].
  destruct (0 <? n); [reflexivity | now rewrite with_items_same].
Qed.

Lemma mcp_calculate_total_state (st : state) :
  snd (Mcp.calculate_total st) = st.
Proof.
  unfold Mcp.calculate_total. exec_cbn.
  destruct (Cart.items (cart st)); exec_done.
Qed.

Lemma mcp_recommend_products_state (arguments : Mcp.arguments) (st : state) :
  snd (Mcp.recommend_products arguments st) = st.
Proof.
  unfold Mcp.recommend_products. cbv zeta. exec_cbn.
  destruct (Mcp.category arguments) as [c|].
  - destruct (PyStr.truthy c).
    + destruct (filter _ _); [reflexivity | exec_done].
    + exec_done.
  - exec_done.
Qed.

Lemma mcp_show_history_state (st : state) : snd (Mcp.show_history st) = st.
Proof.
  unfold Mcp.show_history. exec_cbn. now destruct (search_history st).
Qed.

Lemma mcp_dispatch_state (name : string) (arguments : Mcp.arguments)
      (st : state) :
  snd (Mcp.dispatch name arguments st) = mcp_effect name arguments st.
Proof.
  unfold Mcp.dispatch, mcp_effect.
  repeat match goal with
         | |- context [(name =? ?s)%string] =>
             destruct (String.eqb_spec name s) as [->|]
         end;
    cbn [String.eqb Ascii.eqb Bool.eqb];
    auto using mcp_search_product_state, mcp_add_to_cart_state,
      mcp_view_cart_state, mcp_apply_discount_state,
      mcp_remove_from_cart_state, mcp_calculate_total_state,
      mcp_recommend_products_state, mcp_show_history_state;
    reflexivity.
Qed.

Lemma mcp_call_state (name : string) (arguments : Mcp.arguments)
      (st : state) :
  snd (Mcp.call_mcp_tool name arguments st) = mcp_effect name arguments st.
Proof.
  rewrite <- mcp_dispatch_state. unfold Mcp.call_mcp_tool.
  now destruct (Mcp.dispatch name arguments st) as [[v|e] st'].
Qed.

Lemma mcp_effect_invariant (name : string) (arguments : Mcp.arguments)
      (st : state) :
  invariant st -> invariant (mcp_effect name arguments st).
Proof.
  intros Hinv. unfold mcp_effect.
  repeat match goal with
         | |- context [if ?b then _ else _] => destruct b
         end;
    auto using search_effect_invariant, add_to_cart_effect_invariant,
      apply_discount_effect_invariant, remove_from_cart_effect_invariant,
      clear_cart_effect_invariant.
Qed.

Lemma mcp_effect_products_db (name : string) (arguments : Mcp.arguments)
      (st : state) :
  products_db (mcp_effect name arguments st) = products_db st.
Proof.
  unfold mcp_effect, search_effect, add_to_cart_effect, apply_discount_effect,
    remove_from_cart_effect, clear_cart_effect.
  repeat match goal with
         | |- context [if ?b then _ else _] => destruct b
         | |- context [match ?x with _ => _ end] => destruct x
         end; reflexivity.
Qed.

Lemma Mcp_PRODUCTS_DB_ok : catalog_ok Mcp.PRODUCTS_DB.
Proof.
  split; [|split].
  - simpl. repeat constructor; simpl; intuition discriminate.
  - repeat constructor; simpl; lia.
  - simpl. lia.
Qed.

Lemma mcp_reachable_invariant (st : state) : Mcp.reachable st -> invariant st.
Proof.
  induction 1.
  - apply invariant_empty, Mcp_PRODUCTS_DB_ok.
  - rewrite mcp_call_state. now apply mcp_effect_invariant.
Qed.

Lemma mcp_reachable_products_db (st : state) :
  Mcp.reachable st -> products_db st = Mcp.PRODUCTS_DB.
Proof.
  induction 1; [reflexivity|].
  now rewrite mcp_call_state, mcp_effect_products_db.
Qed.

Lemma mcp_reachable_exec (calls : list (string * Mcp.arguments)) :
  Mcp.reachable (Mcp.exec calls).
Proof.
  unfold Mcp.exec. generalize Mcp.reachable_init.
  generalize Mcp.initial_state as st.
  induction calls as [|c calls IH]; intros st Hst; simpl; [exact Hst|].
  apply IH. now constructor.
Qed.

Ltac answered := eexists; split; [reflexivity|]; split; reflexivity.

Lemma mcp_item_detail_ok (item : CartItem.t) :
  Z.abs (CartItem.unit_price item) <= 2 ^ 53 ->
  Z.abs (CartItem.subtotal item) <= 2 ^ 53 ->
  exists v, Mcp.item_detail item = Ok v.
Proof.
  intros H1 H2. unfold Mcp.item_detail.
  rewrite !format_price_int by assumption. simpl. eauto.
Qed.

Lemma mcp_recommendations_ok (db : list (string * Product.t))
      (l : list Product.t) :
  catalog_ok db -> incl l (dict_values db) ->
  exists vs, for_each Mcp.recommendation (firstn 3 (sort_reverse l)) = Ok vs.
Proof.
  intros Hok Hincl.
  destruct (for_each_exists Mcp.recommendation (firstn 3 (sort_reverse l)))
    as (vs & V & _); [|eauto].
  apply Forall_forall. intros p Hp. apply In_firstn in Hp.
  apply (Permutation_in _ (sort_reverse_perm l)) in Hp.
  apply Hincl in Hp. unfold dict_values in Hp. apply in_map_iff in Hp.
  destruct Hp as ([key p'] & E & Hin). simpl in E. subst p'.
  pose proof (catalog_entry_bounds _ key p Hok Hin).
  unfold Mcp.recommendation. rewrite format_price_int by small.
  simpl. eauto.
Qed.

Lemma mcp_search_product_result (st : state) (arguments : Mcp.arguments) :
  invariant st ->
  answers (fst (Mcp.search_product arguments st))
    match find_product_fuzzy (products_db st)
            (Mcp.get (Mcp.product_name arguments) "") with
    | Ok (Some _) => "success"
    | _ => "not_found"
    end true.
Proof.
  intros Hinv. pose proof Hinv as [Hok _ _ _ _].
  unfold Mcp.search_product. cbv zeta. exec_cbn.
  destruct (find_product_fuzzy_catalog (products_db st)
              (Mcp.get (Mcp.product_name arguments) ""))
    as [E|(key & p & E & Hin)]; rewrite E; exec_cbn.
  - destruct (suggestions_ok _ Hok) as (l & ->). exec_cbn. answered.
  - pose proof (catalog_entry_bounds _ key p Hok Hin).
    rewrite format_price_int by small. exec_cbn. answered.
Qed.

Lemma mcp_add_to_cart_result (st : state) (arguments : Mcp.arguments) :
  invariant st ->
  let quantity := Mcp.get (Mcp.quantity arguments) 1 in
  answers (fst (Mcp.add_to_cart arguments st))
    (if quantity <=? 0 then "error"
     else match find_product_fuzzy (products_db st)
                  (Mcp.get (Mcp.product arguments) "") with
          | Ok (Some (_, p)) =>
              if Product.stock p
                 <? in_cart (Product.id p) (Cart.items (cart st)) + quantity
              then "error" else "success"
          | _ => "error"
          end) true.
Proof.
  intros Hinv q. pose proof Hinv as [Hok Hl Hc Hn Hcode].
  unfold Mcp.add_to_cart. cbv zeta. fold q.
  destruct (Z.leb_spec q 0) as [|Hq]; [answered|]. exec_cbn.
  destruct (find_product_fuzzy_catalog (products_db st)
              (Mcp.get (Mcp.product arguments) ""))
    as [E|(key & p & E & Hin)]; rewrite E; [answered|].
  exec_cbn.
  pose proof (catalog_entry_bounds _ key p Hok Hin) as Hb.
  pose proof (in_cart_nonneg (Product.id p) _ Hl) as Hpos.
  pose proof (add_line_invariant st key p q Hinv Hin Hq) as Hnew.
  unfold in_cart, add_line in *.
  destruct (find_item (Product.id p) 0 (Cart.items (cart st))) as [[pos item]|].
  - destruct (Z.ltb_spec (Product.stock p) (CartItem.quantity item + q))
      as [|Hs]; [answered|].
    specialize (Hnew Hs). apply invariant_subtotal in Hnew.
    exec_cbn. rewrite !format_price_int by (exact Hnew || small).
    answered.
  - destruct (Z.ltb_spec (Product.stock p) (0 + q)) as [|Hs]; [answered|].
    specialize (Hnew Hs). apply invariant_subtotal in Hnew.
    exec_cbn. rewrite !format_price_int by (exact Hnew || small).
    answered.
Qed.

Lemma mcp_view_cart_result (st : state) :
  invariant st ->
  match Cart.items (cart st) with
  | [] => answers (fst (Mcp.view_cart st)) "empty" true
  | _ => answers (fst (Mcp.view_cart st)) "success" false
  end.
Proof.
  intros Hinv. pose proof (subtotal_bounds st Hinv) as Hb.
  destruct (lines_formatted Mcp.item_detail st Hinv mcp_item_detail_ok)
    as (vs & V).
  destruct (cart_amounts (cart st)) as (D & T & Tot); [lia|].
  unfold Mcp.view_cart. exec_cbn.
  destruct (Cart.items (cart st)) as [|x items] eqn:E; [answered|].
  rewrite V. exec_cbn. rewrite D. exec_cbn. rewrite T. exec_cbn.
  rewrite Tot. exec_cbn.
  rewrite format_price_int by lia. exec_cbn.
  rewrite format_price_shipping.
  destruct (0 <? discount_value (cart st))%float;
    exec_cbn; rewrite ?format_price_float; exec_cbn; answered.
Qed.

Lemma mcp_apply_discount_result (st : state) (arguments : Mcp.arguments) :
  invariant st ->
  answers (fst (Mcp.apply_discount arguments st))
    match Cart.items (cart st) with
    | [] => "error"
    | _ =>
        match lookup (PyStr.upper (PyStr.strip (Mcp.get (Mcp.code arguments) "")))
                DISCOUNT_CODES with
        | Some _ => "success"
        | None => "error"
        end
    end true.
Proof.
  intros Hinv. pose proof (subtotal_bounds st Hinv) as Hb.
  unfold Mcp.apply_discount. cbv zeta. exec_cbn.
  set (code := PyStr.upper (PyStr.strip (Mcp.get (Mcp.code arguments) ""))).
  destruct (Cart.items (cart st)) as [|x items] eqn:E; [answered|].
  destruct (lookup code DISCOUNT_CODES) as [rate|] eqn:L; [|answered].
  exec_cbn. rewrite E.
  set (c := Cart.mk (x :: items) (Some code)).
  assert (Cart.get_subtotal c = Cart.get_subtotal (cart st)) as Hc
      by (unfold Cart.get_subtotal; now rewrite E).
  destruct (cart_amounts c) as (D & _ & T); [rewrite Hc; lia|].
  destruct (discount_percent _ _ L) as (n & P).
  rewrite D. exec_cbn.
  rewrite (float_of_int_small 100) by (simpl; lia). exec_cbn.
  rewrite P. exec_cbn.
  rewrite T. exec_cbn. rewrite !format_price_float. exec_cbn. answered.
Qed.

Lemma mcp_remove_from_cart_result (st : state) (arguments : Mcp.arguments) :
  invariant st ->
  answers (fst (Mcp.remove_from_cart arguments st))
    match find_product_fuzzy (products_db st)
            (Mcp.get (Mcp.product arguments) "") with
    | Ok (Some (_, p)) =>
        match find_item (Product.id p) 0 (Cart.items (cart st)) with
        | None => "error"
        | Some (_, item) =>
            match Mcp.quantity arguments with
            | None => "success"
            | Some n =>
                if CartItem.quantity item <=? n then "success"
                else if 0 <? n then "success" else "error"
            end
        end
    | _ => "error"
    end true.
Proof.
  intros Hinv. pose proof Hinv as [Hok Hl Hc Hn Hcode].
  unfold Mcp.remove_from_cart. cbv zeta. exec_cbn.
  destruct (find_product_fuzzy_catalog (products_db st)
              (Mcp.get (Mcp.product arguments) ""))
    as [E|(key & p & E & Hin)]; rewrite E; [answered|].
  exec_cbn.
  destruct (find_item (Product.id p) 0 (Cart.items (cart st)))
    as [[pos item]|] eqn:F; [|answered].
  apply find_item_split in F. destruct F as (l1 & l2 & F & _ & Hid & Hl1).
  rewrite <- Hid in Hl1.
  assert (forall message : value,
    answers
      (fst ((c <- gets cart;;
             items' <- lift (list_remove item (Cart.items c));;
             set_items items';;;
             ret (VDict [("status", VStr "success");
                         ("message", message)])) st))
      "success" true) as Hall.
  { intros message. exec_cbn.
    rewrite F, list_remove_middle by exact Hl1. exec_cbn. answered. }
  destruct (Mcp.quantity arguments) as [n|]; [|apply Hall].
  destruct (CartItem.quantity item <=? n); [apply Hall|].
  destruct (0 <? n); answered.
Qed.

Lemma mcp_calculate_total_result (st : state) :
  invariant st ->
  answers (fst (Mcp.calculate_total st))
    match Cart.items (cart st) with
    | [] => "empty"
    | _ => "success"
    end true.
Proof.
  intros Hinv. pose proof (subtotal_bounds st Hinv) as Hb.
  destruct (cart_amounts (cart st)) as (D & T & Tot); [lia|].
  unfold Mcp.calculate_total. exec_cbn.
  destruct (Cart.items (cart st)) as [|x items] eqn:E.
  - rewrite format_price_int by (simpl; lia). exec_cbn. answered.
  - rewrite format_price_int by lia. exec_cbn.
    rewrite D. exec_cbn. rewrite T. exec_cbn.
    rewrite format_price_shipping. exec_cbn. rewrite Tot. exec_cbn.
    rewrite ?format_price_float. exec_cbn. answered.
Qed.

Lemma mcp_recommend_products_result (st : state)
      (arguments : Mcp.arguments) :
  invariant st ->
  match category_given (Mcp.category arguments),
        remaining_products (products_db st) (Mcp.category arguments) with
  | true, [] => answers (fst (Mcp.recommend_products arguments st)) "error" true
  | _, _ => answers (fst (Mcp.recommend_products arguments st)) "success" false
  end.
Proof.
  intros [Hok _ _ _ _].
  unfold Mcp.recommend_products. cbv zeta. exec_cbn.
  set (db := products_db st) in *.
  assert (incl (remaining_products db (Mcp.category arguments))
               (dict_values db)) as Hincl.
  { unfold remaining_products, in_category.
    destruct (Mcp.category arguments) as [c|]; [|apply incl_refl].
    destruct (PyStr.truthy c); [|apply incl_refl].
    intros p Hp. apply filter_In in Hp. tauto. }
  destruct (mcp_recommendations_ok db _ Hok Hincl) as (vs & V).
  unfold category_given, remaining_products, in_category in *.
  destruct (Mcp.category arguments) as [c|].
  - destruct (PyStr.truthy c).
    + destruct (filter _ (dict_values db)) as [|p l] eqn:F; [answered|].
      exec_cbn. rewrite V. exec_cbn. answered.
    + exec_cbn. rewrite V. exec_cbn.
      destruct (dict_values db); answered.
  - exec_cbn. rewrite V. exec_cbn. destruct (dict_values db); answered.
Qed.

Lemma mcp_show_history_result (st : state) :
  match search_history st with
  | [] => answers (fst (Mcp.show_history st)) "empty" true
  | _ => answers (fst (Mcp.show_history st)) "success" false
  end.
Proof.
  unfold Mcp.show_history. exec_cbn. destruct (search_history st); answered.
Qed.

Lemma mcp_dispatch_other (name : string) (arguments : Mcp.arguments) :
  ~ In name mcp_tools ->
  Mcp.dispatch name arguments = Mcp.not_implemented name.
Proof.
  intros H. unfold Mcp.dispatch.
  repeat match goal with
         | |- context [(name =? ?s)%string] =>
             destruct (String.eqb_spec name s) as [E|_];
             [exfalso; apply H; rewrite E; simpl; tauto|]
         end.
  reflexivity.
Qed.

Lemma mcp_call_ok (name : string) (arguments : Mcp.arguments) (st : state)
      (status : string) (message : bool) :
  answers (fst (Mcp.dispatch name arguments st)) status message ->
  answers (fst (Mcp.call_mcp_tool name arguments st)) status message.
Proof.
  unfold Mcp.call_mcp_tool, answers.
  destruct (Mcp.dispatch name arguments st) as [[v|e] st']; simpl; [auto|].
  intros (v & [=] & _).
Qed.

Lemma answers_status_of (r : outcome value) (status : string)
      (message : bool) :
  answers r status message -> status_of r = Some status.
Proof. intros (v & -> & H & _). now apply tagged_status_of. Qed.

Lemma mcp_dispatch_answers (st : state) (name : string)
      (arguments : Mcp.arguments) :
  invariant st ->
  exists status message,
    answers (fst (Mcp.dispatch name arguments st)) status message
    /\ In status statuses
    /\ (message = false ->
        (name = "view_cart" \/ name = "recommend_products"
         \/ name = "show_history") /\ status = "success").
Proof.
  intros Hinv. unfold Mcp.dispatch.
  repeat match goal with
         | |- context [(name =? ?s)%string] =>
             destruct (String.eqb_spec name s) as [->|]
         end.
  - pose proof (mcp_search_product_result st arguments Hinv) as R.
    do 2 eexists. split; [exact R|].
    split; [|discriminate].
    destruct (find_product_fuzzy _ _) as [[?|]|?]; simpl; auto.
  - pose proof (mcp_add_to_cart_result st arguments Hinv) as R.
    cbv zeta in R. do 2 eexists. split; [exact R|].
    split; [|discriminate].
    destruct (_ <=? 0); [simpl; auto|].
    destruct (find_product_fuzzy _ _) as [[[? p]|]|?]; simpl; auto.
    destruct (Product.stock p <? _); simpl; auto.
  - pose proof (mcp_view_cart_result st Hinv) as R.
    destruct (Cart.items (cart st)); do 2 eexists;
      (split; [exact R|]); simpl; split; auto; discriminate.
  - pose proof (mcp_apply_discount_result st arguments Hinv) as R.
    do 2 eexists. split; [exact R|].
    split; [|discriminate].
    destruct (Cart.items (cart st)); [simpl; auto|].
    destruct (lookup _ DISCOUNT_CODES); simpl; auto.
  - pose proof (mcp_remove_from_cart_result st arguments Hinv) as R.
    do 2 eexists. split; [exact R|].
    split; [|discriminate].
    destruct (find_product_fuzzy _ _) as [[[? p]|]|?]; simpl; auto.
    destruct (find_item _ 0 _) as [[pos item]|]; simpl; auto.
    destruct (Mcp.quantity arguments) as [q|]; simpl; auto.
    destruct (_ <=? q); simpl; auto.
    destruct (0 <? q); simpl; auto.
  - exists "success", true. split; [answered|].
    split; [simpl; auto | discriminate].
  - pose proof (mcp_calculate_total_result st Hinv) as R.
    do 2 eexists. split; [exact R|].
    split; [|discriminate].
    destruct (Cart.items (cart st)); simpl; auto.
  - pose proof (mcp_recommend_products_result st arguments Hinv) as R.
    destruct (category_given _); [destruct (remaining_products _ _)|];
      do 2 eexists; (split; [exact R|]); simpl; split; auto; discriminate.
  - pose proof (mcp_show_history_result st) as R.
    destruct (search_history st); do 2 eexists;
      (split; [exact R|]); simpl; split; auto; discriminate.
  - exists "error", true. split; [answered|].
    split; [simpl; auto | discriminate].
Qed.

(** C6, as the code has it.  In [agent.py]: on every reachable state every
    tool call returns (it raises nothing) a dictionary whose status is
    success, error, empty or not_found; the result has a message, except
    the success results of [view_cart] and [show_search_history], which
    have none.  A bad quantity, an unknown discount code, a request above
    the stock and, in [add_to_cart] and [remove_from_cart], an unresolved
    product are reported with the status error; [search_product_by_name]
    reports an unresolved product with the status not_found.  In the MCP
    server: on every reachable state [call_mcp_tool] returns, for every
    tool name and arguments, a dictionary with such a status (its
    [except] branch is not taken); the result has a message, except the
    success results of view_cart, recommend_products and show_history;
    the same failures are reported with the status error, a name that is
    not a tool too, and an unresolved product in search_product with the
    status not_found. *)
Theorem tools_answer :
  (forall st,
      reachable st ->
      (forall c, exists v,
          fst (run c st) = Ok v
          /\ (exists s, field "status" v = Some (VStr s)
                        /\ In s ["success"; "error"; "empty"; "not_found"])
          /\ (has_field "message" v = false ->
              (c = ViewCart \/ c = ShowSearchHistory)
              /\ field "status" v = Some (VStr "success")))
      /\ (forall product quantity,
            (isinstance_int quantity = None
             \/ exists q, isinstance_int quantity = Some q /\ q <= 0) ->
            status_of (fst (add_to_cart product quantity st)) = Some "error")
      /\ (forall product,
            find_product_fuzzy PRODUCTS_DB product = Ok None ->
            status_of (fst (search_product_by_name product st)) = Some "not_found"
            /\ (forall quantity,
                  status_of (fst (remove_from_cart product quantity st))
                  = Some "error")
            /\ (forall q, 0 < q ->
                  status_of (fst (add_to_cart product (VInt q) st)) = Some "error"))
      /\ (forall code,
            Cart.items (cart st) <> [] ->
            lookup (PyStr.upper (PyStr.strip code)) DISCOUNT_CODES = None ->
            status_of (fst (apply_discount code st)) = Some "error")
      /\ (forall product q key p,
            0 < q ->
            find_product_fuzzy PRODUCTS_DB product = Ok (Some (key, p)) ->
            Product.stock p < in_cart (Product.id p) (Cart.items (cart st)) + q ->
            status_of (fst (add_to_cart product (VInt q) st)) = Some "error"))
  /\
  (forall st, Mcp.reachable st ->
     (forall name arguments, exists v,
         fst (Mcp.call_mcp_tool name arguments st) = Ok v
         /\ (exists s, field "status" v = Some (VStr s)
                       /\ In s ["success"; "error"; "empty"; "not_found"])
         /\ (has_field "message" v = false ->
             (name = "view_cart" \/ name = "recommend_products"
              \/ name = "show_history")
             /\ field "status" v = Some (VStr "success")))
     /\ (forall arguments,
           Mcp.get (Mcp.quantity arguments) 1 <= 0 ->
           status_of (fst (Mcp.call_mcp_tool "add_to_cart" arguments st))
           = Some "error")
     /\ (forall arguments,
           find_product_fuzzy Mcp.PRODUCTS_DB
             (Mcp.get (Mcp.product arguments) "") = Ok None ->
           status_of (fst (Mcp.call_mcp_tool "add_to_cart" arguments st))
           = Some "error"
           /\ status_of
                (fst (Mcp.call_mcp_tool "remove_from_cart" arguments st))
              = Some "error")
     /\ (forall arguments,
           find_product_fuzzy Mcp.PRODUCTS_DB
             (Mcp.get (Mcp.product_name arguments) "") = Ok None ->
           status_of (fst (Mcp.call_mcp_tool "search_product" arguments st))
           = Some "not_found")
     /\ (forall arguments,
           Cart.items (cart st) <> [] ->
           lookup (PyStr.upper (PyStr.strip (Mcp.get (Mcp.code arguments) "")))
                  DISCOUNT_CODES = None ->
           status_of (fst (Mcp.call_mcp_tool "apply_discount" arguments st))
           = Some "error")
     /\ (forall arguments key p,
           find_product_fuzzy Mcp.PRODUCTS_DB
             (Mcp.get (Mcp.product arguments) "") = Ok (Some (key, p)) ->
           Product.stock p
           < in_cart (Product.id p) (Cart.items (cart st))
             + Mcp.get (Mcp.quantity arguments) 1 ->
           status_of (fst (Mcp.call_mcp_tool "add_to_cart" arguments st))
           = Some "error")
     /\ (forall name arguments,
           ~ In name ["search_product"; "add_to_cart"; "view_cart";
                      "apply_discount"; "remove_from_cart"; "clear_cart";
                      "calculate_total"; "recommend_products";
                      "show_history"] ->
           status_of (fst (Mcp.call_mcp_tool name arguments st))
           = Some "error")).
Proof.
  split.
  { intros st Hst. pose proof (reachable_invariant st Hst) as Hinv.
      pose proof (reachable_products_db st Hst) as Hdb.
      split; [|split; [|split; [|split]]].
      - intros c. exact (run_answers st c Hinv).
      - intros product quantity H.
        pose proof (add_to_cart_result st product quantity Hinv) as R.
        cbv zeta in R. rewrite ?Hdb in R. destruct H as [E|(q & E & Hq)]; rewrite E in R.
        + now rewrite R.
        + apply Z.leb_le in Hq. rewrite Hq in R. now rewrite R.
      - intros product F. split; [|split].
        + destruct (search_product_by_name_result st product Hinv)
            as (v & E & _ & H).
          rewrite Hdb, F in H. destruct H as [H _]. rewrite E.
          now apply tagged_status_of.
        + intros quantity.
          pose proof (remove_from_cart_result st product quantity Hinv) as R.
          cbv zeta in R. rewrite ?Hdb in R. rewrite F in R. now rewrite R.
        + intros q Hq.
          pose proof (add_to_cart_result st product (VInt q) Hinv) as R.
          cbv zeta in R. rewrite ?Hdb in R. cbn [isinstance_int] in R.
          apply Z.leb_gt in Hq. rewrite Hq, F in R. now rewrite R.
      - intros code Hne L.
        pose proof (apply_discount_result st code Hinv) as R. cbv zeta in R. rewrite ?Hdb in R.
        destruct (Cart.items (cart st)); [contradiction|].
        rewrite L in R. now rewrite R.
      - intros product q key p Hq F Hs.
        pose proof (add_to_cart_result st product (VInt q) Hinv) as R.
        cbv zeta in R. rewrite ?Hdb in R. cbn [isinstance_int] in R.
        apply Z.leb_gt in Hq. apply Z.ltb_lt in Hs. rewrite Hq, F, Hs in R.
        now rewrite R. }
  { intros st Hst. pose proof (mcp_reachable_invariant st Hst) as Hinv.
    pose proof (mcp_reachable_products_db st Hst) as Hdb.
    split; [|split; [|split; [|split; [|split; [|split]]]]].
    + intros name arguments.
      destruct (mcp_dispatch_answers st name arguments Hinv)
        as (s & m & A & Hs & Hm).
      apply mcp_call_ok in A. destruct A as (v & E & Ht & Hf).
      exists v. split; [exact E|]. split; [exists s; auto|].
      intros Hno. rewrite Hno in Hf. symmetry in Hf.
      destruct (Hm Hf) as [Hn ->]. auto.
    + intros arguments Hq.
      pose proof (mcp_add_to_cart_result st arguments Hinv) as R.
      cbv zeta in R. apply Z.leb_le in Hq. rewrite Hq in R.
      exact (answers_status_of _ _ _
               (mcp_call_ok "add_to_cart" arguments st _ _ R)).
    + intros arguments F. split.
      * pose proof (mcp_add_to_cart_result st arguments Hinv) as R.
        cbv zeta in R. rewrite Hdb, F in R.
        destruct (_ <=? 0);
          exact (answers_status_of _ _ _
                   (mcp_call_ok "add_to_cart" arguments st _ _ R)).
      * pose proof (mcp_remove_from_cart_result st arguments Hinv) as R.
        rewrite Hdb, F in R.
        exact (answers_status_of _ _ _
                 (mcp_call_ok "remove_from_cart" arguments st _ _ R)).
    + intros arguments F.
      pose proof (mcp_search_product_result st arguments Hinv) as R.
      rewrite Hdb, F in R.
      exact (answers_status_of _ _ _
               (mcp_call_ok "search_product" arguments st _ _ R)).
    + intros arguments Hne L.
      pose proof (mcp_apply_discount_result st arguments Hinv) as R.
      rewrite L in R.
      destruct (Cart.items (cart st)); [contradiction|].
      exact (answers_status_of _ _ _
               (mcp_call_ok "apply_discount" arguments st _ _ R)).
    + intros arguments key p F Hs.
      pose proof (mcp_add_to_cart_result st arguments Hinv) as R.
      cbv zeta in R. rewrite Hdb, F in R.
      apply Z.ltb_lt in Hs. rewrite Hs in R.
      destruct (_ <=? 0);
        exact (answers_status_of _ _ _
                 (mcp_call_ok "add_to_cart" arguments st _ _ R)).
    + intros name arguments Hn.
      apply (answers_status_of _ _ true), mcp_call_ok.
      rewrite mcp_dispatch_other by exact Hn. answered. }
Qed.

Lemma tools_answer_witness :
  let st := exec [AddToCart "gaming mouse pro" (VInt 15)] in
  let mcp := Mcp.exec [("add_to_cart",
                        Mcp.mkArguments None (Some "gaming mouse pro")
                          (Some 15) None None)] in
  ((exists v, fst (run CalculateTotal st) = Ok v)
   /\ status_of (fst (add_to_cart "gaming mouse pro" (VFloat 1.5) st))
      = Some "error"
   /\ status_of (fst (search_product_by_name "xyz123" st)) = Some "not_found"
   /\ status_of (fst (apply_discount "HALF" st)) = Some "error"
   /\ status_of (fst (add_to_cart "gaming mouse pro" (VInt 1) st))
      = Some "error")
  /\ ((exists v, fst (Mcp.call_mcp_tool "calculate_total"
                        (Mcp.mkArguments None None None None None) mcp)
                 = Ok v)
      /\ status_of (fst (Mcp.call_mcp_tool "add_to_cart"
                           (Mcp.mkArguments None (Some "gaming mouse pro")
                              (Some 0) None None) mcp)) = Some "error"
      /\ status_of (fst (Mcp.call_mcp_tool "search_product"
                           (Mcp.mkArguments (Some "xyz123") None None None
                              None) mcp)) = Some "not_found"
      /\ status_of (fst (Mcp.call_mcp_tool "apply_discount"
                           (Mcp.mkArguments None None None (Some "HALF")
                              None) mcp)) = Some "error"
      /\ status_of (fst (Mcp.call_mcp_tool "add_to_cart"
                           (Mcp.mkArguments None (Some "gaming mouse pro")
                              None None None) mcp)) = Some "error"
      /\ status_of (fst (Mcp.call_mcp_tool "checkout"
                           (Mcp.mkArguments None None None None None) mcp))
         = Some "error").
Proof.
  intros st mcp. destruct tools_answer as [HA HM].
  destruct (HA st (reachable_exec _)) as (H1 & H2 & H3 & H4 & H5).
  destruct (HM mcp (mcp_reachable_exec _))
    as (M1 & M2 & M3 & M4 & M5 & M6 & M7).
  set (mouse := Product.mk "MOU002" "Gaming Mouse Pro" 80 15
                  ["16000 DPI"; "RGB"; "8 programmable buttons"; "Wireless"]
                  "Peripherals"
                  "Professional gaming mouse with high-precision sensor"
                  4.7%float 156).
  split; [split; [|split; [|split; [|split]]]
         |split; [|split; [|split; [|split; [|split]]]]].
  - destruct (H1 CalculateTotal) as (v & E & _). now exists v.
  - apply H2. now left.
  - destruct (H3 "xyz123") as (H & _); [vm_compute; reflexivity | exact H].
  - apply H4; vm_compute; [discriminate | reflexivity].
  - apply (H5 "gaming mouse pro" 1 "gaming mouse pro" mouse);
      vm_compute; reflexivity.
  - destruct (M1 "calculate_total" (Mcp.mkArguments None None None None None))
      as (v & E & _).
    now exists v.
  - apply M2. vm_compute. discriminate.
  - apply M4. vm_compute. reflexivity.
  - apply M5; vm_compute; [discriminate | reflexivity].
  - apply (M6 _ "gaming mouse pro" mouse); vm_compute; reflexivity.
  - apply M7. simpl. intuition discriminate.
Defined.

(** The claim of C6 that every result carries a message fails: the
    success results of [view_cart] and [show_search_history] have no
    message, nor has the success result of recommend_products in the MCP
    server; and an unresolved product is reported by
    [search_product_by_name] as not_found, not as an error. *)
Lemma view_cart_has_no_message :
  let st := exec [AddToCart "gaming mouse pro" (VInt 1);
                  SearchProductByName "xyz123"] in
  status_of (fst (view_cart st)) = Some "success"
  /\ result_field "message" (fst (view_cart st)) = None
  /\ status_of (fst (show_search_history st)) = Some "success"
  /\ result_field "message" (fst (show_search_history st)) = None
  /\ status_of (fst (search_product_by_name "xyz123" st)) = Some "not_found"
  /\ (let r := fst (Mcp.call_mcp_tool "recommend_products"
                      (Mcp.mkArguments None None None None None)
                      Mcp.initial_state) in
      status_of r = Some "success" /\ result_field "message" r = None).
Proof. vm_compute. repeat split. Qed.

(** C9, as the code has it: no tool writes the catalog;
    [search_product_by_name] appends its argument to the search history
    and leaves the cart and the catalog as they were; every other tool
    leaves the search history as it was, and [view_cart],
    [calculate_total], [recommend_products] and [show_search_history]
    leave the whole state as it was. *)
Theorem tools_frame :
  (forall st c, products_db (snd (run c st)) = products_db st)
  /\ (forall st product_name,
        snd (search_product_by_name product_name st)
        = mkState (products_db st) (cart st)
                  (search_history st ++ [product_name]))
  /\ (forall st c,
        (forall product_name, c <> SearchProductByName product_name) ->
        search_history (snd (run c st)) = search_history st)
  /\ (forall st c,
        c = ViewCart \/ c = CalculateTotal
        \/ (exists category, c = RecommendProducts category)
        \/ c = ShowSearchHistory ->
        snd (run c st) = st).
Proof.
  assert (forall st c,
            products_db (snd (run c st)) = products_db st
            /\ ((forall product_name, c <> SearchProductByName product_name) ->
                search_history (snd (run c st)) = search_history st)) as H.
  { intros st c.
    destruct c as [name|product quantity| |code|product quantity| | |category|];
      simpl.
    - rewrite search_product_by_name_state. unfold search_effect. split; [reflexivity|].
      intros Hc. now destruct (Hc name).
    - rewrite add_to_cart_state. unfold add_to_cart_effect.
      destruct (isinstance_int quantity) as [q|]; [|auto].
      destruct (q <=? 0); [auto|].
      destruct (find_product_fuzzy (products_db st) product)
        as [[[key p]|]|e]; auto.
      destruct (Product.stock p <? _); auto.
    - rewrite (view_cart_readonly st : snd (view_cart st) = st). auto.
    - rewrite apply_discount_state. unfold apply_discount_effect.
      destruct (Cart.items (cart st)); [auto|].
      destruct (lookup _ DISCOUNT_CODES); auto.
    - rewrite remove_from_cart_state. unfold remove_from_cart_effect.
      destruct (find_product_fuzzy (products_db st) product)
        as [[[key p]|]|e]; auto.
      destruct (find_item _ 0 _) as [[pos item]|]; auto.
    - auto.
    - rewrite (calculate_total_readonly st : snd (calculate_total st) = st).
      auto.
    - rewrite (recommend_products_readonly category st
               : snd (recommend_products category st) = st). auto.
    - rewrite (show_search_history_readonly st
               : snd (show_search_history st) = st). auto. }
  split; [intros st c; apply H|].
  split; [intros st name; apply search_product_by_name_state|].
  split; [intros st c; apply H|].
  intros st c [E|[E|[(category & E)|E]]]; subst c; simpl.
  - apply view_cart_readonly.
  - apply calculate_total_readonly.
  - apply recommend_products_readonly.
  - apply show_search_history_readonly.
Qed.

Lemma tools_frame_witness :
  let st := exec [AddToCart "gaming mouse pro" (VInt 1)] in
  search_history (snd (run (ApplyDiscount "SAVE20") st)) = []
  /\ snd (run ViewCart st) = st.
Proof.
  intros st. destruct tools_frame as (_ & _ & H3 & H4). split.
  - rewrite H3; [vm_compute; reflexivity | discriminate].
  - apply H4. now left.
Defined.

(** The claim of C9 that a search changes no state outside the cart
    fails: [search_product_by_name] writes the search history. *)
Lemma search_writes_history :
  search_history initial_state = []
  /\ search_history (snd (search_product_by_name "laptop" initial_state))
     = ["laptop"]
  /\ snd (search_product_by_name "laptop" initial_state) <> initial_state.
Proof.
  split; [reflexivity|]. split; [vm_compute; reflexivity|].
  intros H. apply (f_equal search_history) in H. vm_compute in H. discriminate.
Qed.

(** ** The order of binary64 numbers and of strings *)

Ltac sf_cases :=
  repeat match goal with
         | s : bool |- _ => destruct s
         end;
  simpl; try discriminate; try reflexivity.

Ltac cmp_cases :=
  change (Pos.compare_cont Eq) with Pos.compare in *;
  repeat match goal with
         | |- context [Z.compare ?x ?y] => destruct (Z.compare_spec x y)
         | |- context [Pos.compare ?x ?y] => destruct (Pos.compare_spec x y)
         | H : context [Z.compare ?x ?y] |- _ => destruct (Z.compare_spec x y)
         | H : context [Pos.compare ?x ?y] |- _ =>
             destruct (Pos.compare_spec x y)
         end;
  simpl in *; try discriminate; try reflexivity; try (exfalso; lia).

Lemma SFcompare_sym (a b : spec_float) (c : comparison) :
  SFcompare a b = Some c -> SFcompare b a = Some (CompOpp c).
Proof.
  destruct a as [sa|sa| |sa ma ea], b as [sb|sb| |sb mb eb]; sf_cases;
    intros [= <-]; try reflexivity; cmp_cases; subst; cmp_cases.
Qed.

Lemma SFcompare_eq_l (a b c : spec_float) :
  SFcompare a b = Some Eq -> SFcompare a c = SFcompare b c.
Proof.
  destruct a as [sa|sa| |sa ma ea], b as [sb|sb| |sb mb eb]; sf_cases;
    intros H; try reflexivity;
    try (destruct c as [sc|sc| |sc mc ec]; sf_cases; fail).
  all: revert H; cmp_cases; intros _; subst; reflexivity.
Qed.

Lemma SFcompare_lt_trans (a b c : spec_float) :
  SFcompare a b = Some Lt -> SFcompare b c = Some Lt -> SFcompare a c = Some Lt.
Proof.
  destruct a as [sa|sa| |sa ma ea], b as [sb|sb| |sb mb eb],
           c as [sc|sc| |sc mc ec]; sf_cases;
    intros H1 H2; try discriminate; try reflexivity;
    revert H1 H2; cmp_cases; intros; try discriminate; subst; cmp_cases.
Qed.

Lemma feqb_cmp (x y : float) : (x =? y)%float = true <-> fcmp x y = Some Eq.
Proof.
  rewrite FloatAxioms.eqb_spec. unfold SFeqb, fcmp.
  destruct (SFcompare _ _) as [[| |]|]; split; congruence.
Qed.

Lemma fltb_cmp (x y : float) : (x <? y)%float = true <-> fcmp x y = Some Lt.
Proof.
  rewrite FloatAxioms.ltb_spec. unfold SFltb, fcmp.
  destruct (SFcompare _ _) as [[| |]|]; split; congruence.
Qed.

Lemma fltb_irrefl (x : float) : (x <? x)%float = false.
Proof.
  destruct (x <? x)%float eqn:E; [|reflexivity].
  apply fltb_cmp in E. pose proof (SFcompare_sym _ _ _ E) as E'.
  unfold fcmp in E. simpl in E'. congruence.
Qed.

Lemma fltb_trans (x y z : float) :
  (x <? y)%float = true -> (y <? z)%float = true -> (x <? z)%float = true.
Proof.
  rewrite !fltb_cmp. apply SFcompare_lt_trans.
Qed.

Lemma feqb_sym (x y : float) : (x =? y)%float = (y =? x)%float.
Proof.
  destruct (x =? y)%float eqn:E, (y =? x)%float eqn:E'; try reflexivity.
  - apply feqb_cmp in E. apply SFcompare_sym in E.
    apply feqb_cmp in E. congruence.
  - apply feqb_cmp in E'. apply SFcompare_sym in E'.
    apply feqb_cmp in E'. congruence.
Qed.

Lemma feqb_cmp_l (x y z : float) :
  (x =? y)%float = true -> fcmp x z = fcmp y z.
Proof. rewrite feqb_cmp. apply SFcompare_eq_l. Qed.

Lemma feqb_cmp_r (x y z : float) :
  (x =? y)%float = true -> fcmp z x = fcmp z y.
Proof.
  intros E. pose proof (feqb_cmp_l x y z E) as H.
  destruct (fcmp z x) as [c|] eqn:C.
  - apply SFcompare_sym in C. fold (fcmp x z) in C. rewrite H in C.
    apply SFcompare_sym in C. rewrite CompOpp_involutive in C.
    symmetry. exact C.
  - destruct (fcmp z y) as [c|] eqn:C'; [|reflexivity].
    apply SFcompare_sym in C'. fold (fcmp y z) in C'. rewrite <- H in C'.
    apply SFcompare_sym in C'. fold (fcmp z x) in C'. congruence.
Qed.

Lemma feqb_eqb_l (x y z : float) :
  (x =? y)%float = true -> (x =? z)%float = (y =? z)%float.
Proof.
  intros E. pose proof (feqb_cmp_l x y z E) as H.
  destruct (x =? z)%float eqn:A, (y =? z)%float eqn:B; try reflexivity.
  - apply feqb_cmp in A. rewrite H in A. apply feqb_cmp in A. congruence.
  - apply feqb_cmp in B. rewrite <- H in B. apply feqb_cmp in B. congruence.
Qed.

Lemma feqb_ltb_l (x y z : float) :
  (x =? y)%float = true -> (x <? z)%float = (y <? z)%float.
Proof.
  intros E. pose proof (feqb_cmp_l x y z E) as H.
  destruct (x <? z)%float eqn:A, (y <? z)%float eqn:B; try reflexivity.
  - apply fltb_cmp in A. rewrite H in A. apply fltb_cmp in A. congruence.
  - apply fltb_cmp in B. rewrite <- H in B. apply fltb_cmp in B. congruence.
Qed.

Lemma feqb_ltb_r (x y z : float) :
  (x =? y)%float = true -> (z <? x)%float = (z <? y)%float.
Proof.
  intros E. pose proof (feqb_cmp_r x y z E) as H.
  destruct (z <? x)%float eqn:A, (z <? y)%float eqn:B; try reflexivity.
  - apply fltb_cmp in A. rewrite H in A. apply fltb_cmp in A. congruence.
  - apply fltb_cmp in B. rewrite <- H in B. apply fltb_cmp in B. congruence.
Qed.

Lemma fltb_not_eqb (x y : float) :
  (x <? y)%float = true -> (x =? y)%float = false /\ (y =? x)%float = false.
Proof.
  intros L. rewrite <- (feqb_sym x y).
  destruct (x =? y)%float eqn:E; [|auto].
  rewrite (feqb_ltb_l x y y E), fltb_irrefl in L. discriminate.
Qed.

Lemma string_compare_lt_trans (s1 s2 s3 : string) :
  String.compare s1 s2 = Lt -> String.compare s2 s3 = Lt ->
  String.compare s1 s3 = Lt.
Proof.
  revert s2 s3; induction s1 as [|c1 s1 IH]; intros [|c2 s2] [|c3 s3]; simpl;
    try discriminate; try reflexivity.
  destruct (Ascii.compare c1 c2) eqn:E12; try discriminate;
    destruct (Ascii.compare c2 c3) eqn:E23; try discriminate.
  - apply Ascii.compare_eq_iff in E12, E23. subst.
    replace (Ascii.compare c3 c3) with Eq by
        (symmetry; apply N.compare_refl).
    apply IH.
  - apply Ascii.compare_eq_iff in E12. subst. now rewrite E23.
  - apply Ascii.compare_eq_iff in E23. subst. now rewrite E12.
  - unfold Ascii.compare in *. rewrite N.compare_lt_iff in E12, E23.
    replace (N_of_ascii c1 ?= N_of_ascii c3)%N with Lt; [reflexivity|].
    symmetry. apply N.compare_lt_iff. lia.
Qed.

Lemma string_ltb_trans (s1 s2 s3 : string) :
  String.ltb s1 s2 = true -> String.ltb s2 s3 = true -> String.ltb s1 s3 = true.
Proof.
  unfold String.ltb. intros H1 H2.
  rewrite (string_compare_lt_trans s1 s2 s3); [reflexivity| |].
  - now destruct (String.compare s1 s2).
  - now destruct (String.compare s2 s3).
Qed.

Lemma string_ltb_irrefl (s : string) : String.ltb s s = false.
Proof.
  unfold String.ltb. pose proof (String.compare_antisym s s) as H.
  destruct (String.compare s s); try reflexivity. discriminate H.
Qed.

(** ** The best candidate of [get_close_matches] *)

Lemma pair_gt_irrefl (t : float * string) : Difflib.pair_gt t t = false.
Proof.
  unfold Difflib.pair_gt.
  destruct (fst t =? fst t)%float;
    [apply string_ltb_irrefl | apply fltb_irrefl].
Qed.

Lemma pair_gt_trans (a b c : float * string) :
  Difflib.pair_gt a b = true -> Difflib.pair_gt b c = true ->
  Difflib.pair_gt a c = true.
Proof.
  destruct a as [sa ka], b as [sb kb], c as [sc kc].
  unfold Difflib.pair_gt. simpl.
  destruct (sa =? sb)%float eqn:Eab, (sb =? sc)%float eqn:Ebc; intros H1 H2.
  - rewrite (feqb_eqb_l sa sb sc Eab), Ebc.
    exact (string_ltb_trans kc kb ka H2 H1).
  - rewrite (feqb_eqb_l sa sb sc Eab), Ebc.
    now rewrite (feqb_ltb_r sa sb sc Eab).
  - assert ((sc =? sb)%float = true) as Ecb by (now rewrite feqb_sym).
    rewrite (feqb_sym sa sc), (feqb_eqb_l sc sb sa Ecb), (feqb_sym sb sa), Eab.
    now rewrite (feqb_ltb_l sc sb sa Ecb).
  - pose proof (fltb_trans sc sb sa H2 H1) as L.
    destruct (fltb_not_eqb sc sa L) as [_ ->]. exact L.
Qed.

Lemma pair_gt_asym (a b : float * string) :
  Difflib.pair_gt a b = true -> Difflib.pair_gt b a = false.
Proof.
  intros H. destruct (Difflib.pair_gt b a) eqn:E; [|reflexivity].
  pose proof (pair_gt_trans a b a H E) as C.
  rewrite pair_gt_irrefl in C. discriminate.
Qed.

Lemma max_from_greatest (l seen : list (float * string)) (t : float * string) :
  (forall u, In u seen -> Difflib.pair_gt u t = false) ->
  forall u, In u seen \/ In u (t :: l) ->
            Difflib.pair_gt u (Difflib.max_from t l) = false.
Proof.
  revert seen t; induction l as [|x l IH]; intros seen t Hseen u Hu; simpl.
  - destruct Hu as [Hu|[<-|[]]]; [auto | apply pair_gt_irrefl].
  - apply (IH (t :: x :: seen)).
    + intros v [<-|[<-|Hv]]; destruct (Difflib.pair_gt x t) eqn:E.
      * now apply pair_gt_asym.
      * apply pair_gt_irrefl.
      * apply pair_gt_irrefl.
      * exact E.
      * destruct (Difflib.pair_gt v x) eqn:E'; [|reflexivity].
        rewrite <- (Hseen v Hv). symmetry. exact (pair_gt_trans v x t E' E).
      * auto.
    + simpl in *. tauto.
Qed.

(** Every candidate that passes the test is no better than the one
    returned: it is not more similar, and when it is as similar its key is
    not greater. *)
Lemma get_close_matches_best (word : string) (ps : list string) (cutoff : float)
      (m k : string) :
  In m (Difflib.get_close_matches word ps cutoff) ->
  In k ps -> Difflib.is_close cutoff word k = true ->
  (Difflib.score word m <? Difflib.score word k)%float = false
  /\ ((Difflib.score word k =? Difflib.score word m)%float = true ->
      String.ltb m k = false).
Proof.
  unfold Difflib.get_close_matches.
  destruct (map _ (filter _ ps)) as [|t r] eqn:E; simpl; [tauto|].
  intros [<-|[]] Hk Hc.
  assert (In (Difflib.score word k, k) (t :: r)) as Hin.
  { rewrite <- E. apply in_map_iff. exists k. split; [reflexivity|].
    apply filter_In. auto. }
  pose proof (max_from_In t r) as Hm. rewrite <- E in Hm.
  apply in_map_iff in Hm. destruct Hm as (m & Em & _).
  pose proof (max_from_greatest r [] t (fun u H => match H with end)
                (Difflib.score word k, k) (or_intror Hin)) as G.
  rewrite <- Em in *. simpl. unfold Difflib.pair_gt in G. simpl in G.
  destruct (Difflib.score word k =? Difflib.score word m)%float eqn:Q.
  - split; [|auto].
    rewrite (feqb_ltb_r _ _ (Difflib.score word m) Q). apply fltb_irrefl.
  - split; [exact G | discriminate].
Qed.

(** ** The order of the recommendations *)

Lemma key_lt_irrefl (p : Product.t) : key_lt p p = false.
Proof.
  unfold key_lt.
  destruct (_ =? _)%float; [apply Z.ltb_irrefl | apply fltb_irrefl].
Qed.

Lemma key_lt_trans (a b c : Product.t) :
  key_lt a b = true -> key_lt b c = true -> key_lt a c = true.
Proof.
  unfold key_lt.
  set (sa := Product.rating a). set (sb := Product.rating b).
  set (sc := Product.rating c).
  destruct (sa =? sb)%float eqn:Eab, (sb =? sc)%float eqn:Ebc; intros H1 H2.
  - rewrite (feqb_eqb_l sa sb sc Eab), Ebc. lia.
  - rewrite (feqb_eqb_l sa sb sc Eab), Ebc.
    now rewrite (feqb_ltb_l sa sb sc Eab).
  - assert ((sc =? sb)%float = true) as Ecb by (now rewrite feqb_sym).
    rewrite (feqb_sym sa sc), (feqb_eqb_l sc sb sa Ecb), (feqb_sym sb sa), Eab.
    now rewrite (feqb_ltb_r sc sb sa Ecb).
  - pose proof (fltb_trans sa sb sc H1 H2) as L.
    destruct (fltb_not_eqb sa sc L) as [-> _]. exact L.
Qed.

Lemma key_lt_asym (a b : Product.t) : key_lt a b = true -> key_lt b a = false.
Proof.
  intros H. destruct (key_lt b a) eqn:E; [|reflexivity].
  pose proof (key_lt_trans a b a H E) as C.
  rewrite key_lt_irrefl in C. discriminate.
Qed.

Lemma insert_sorted_increasing (x : Product.t) (l : list Product.t) :
  increasing l -> increasing (insert_sorted x l).
Proof.
  unfold increasing. induction 1 as [|y r Hr IH Hy]; simpl.
  - repeat constructor.
  - destruct (key_lt x y) eqn:E.
    + constructor; [now constructor|].
      constructor; [now apply key_lt_asym|].
      rewrite Forall_forall in *. intros z Hz.
      destruct (key_lt z x) eqn:E'; [|reflexivity].
      rewrite <- (Hy z Hz). symmetry. exact (key_lt_trans z x y E' E).
    + constructor; [exact IH|].
      rewrite Forall_forall in *. intros z Hz.
      apply (Permutation_in z (insert_sorted_perm x r)) in Hz.
      destruct Hz as [<-|Hz]; auto.
Qed.

Lemma sort_asc_increasing (l : list Product.t) : increasing (sort_asc l).
Proof.
  unfold sort_asc.
  assert (forall acc, increasing acc ->
            increasing (fold_left (fun s x => insert_sorted x s) l acc)) as H.
  { induction l as [|x l IH]; intros acc Hacc; simpl; [exact Hacc|].
    apply IH. now apply insert_sorted_increasing. }
  apply H. constructor.
Qed.

Lemma increasing_rev (l : list Product.t) : increasing l -> decreasing (rev l).
Proof.
  unfold increasing, decreasing. induction 1 as [|x l Hl IH Hx]; simpl.
  - constructor.
  - assert (forall l', StronglySorted (fun a b => key_lt a b = false) l' ->
              Forall (fun y => key_lt y x = false) l' ->
              StronglySorted (fun a b => key_lt a b = false) (l' ++ [x])) as H.
    { induction 1 as [|y l' Hl' IH' Hy]; intros Hall; simpl.
      - repeat constructor.
      - inversion Hall as [|? ? Hyx Hall']; subst.
        constructor; [now apply IH'|].
        apply Forall_app. split; [exact Hy | now constructor]. }
    apply H; [exact IH|].
    apply Forall_rev. exact Hx.
Qed.

Lemma sort_reverse_decreasing (l : list Product.t) : decreasing (sort_reverse l).
Proof. apply increasing_rev, sort_asc_increasing. Qed.

Lemma distinct_In (l : list string) (x : string) : In x (distinct l) <-> In x l.
Proof.
  unfold distinct. rewrite <- in_rev, nodup_In, <- in_rev. reflexivity.
Qed.

(** C8, as the code has it: given a category that is not the empty string,
    [recommend_products] keeps the products whose category is the given
    one up to case, and returns an error with the categories of the catalog
    when none is kept; without a category, and with the empty string, it
    keeps the whole catalog; it sorts the products kept by decreasing
    (rating, reviews) and returns the first three. *)
Theorem recommend_products_spec (st : state) (category : option string) :
  reachable st ->
  let r := fst (recommend_products category st) in
  let catalog := dict_values PRODUCTS_DB in
  (forall c, category = Some c -> c <> "" -> in_category c catalog = [] ->
     status_of r = Some "error"
     /\ exists categories,
         result_field "available_categories" r
         = Some (VList (map VStr categories))
         /\ forall p, In p catalog -> In (Product.category p) categories)
  /\ (forall c, category = Some c -> c <> "" -> in_category c catalog <> [] ->
        recommended r (in_category c catalog))
  /\ (category = None \/ category = Some "" -> recommended r catalog).
Proof.
  intros Hst r catalog.
  pose proof (recommend_products_result st category
                (reachable_invariant st Hst)) as R.
  cbv zeta in R. rewrite (reachable_products_db st Hst) in R. fold r in R.
  assert (forall products,
            (exists recs category' message,
                for_each recommendation (firstn 3 (sort_reverse products))
                = Ok recs
                /\ r = Ok (VDict
                      [("status", VStr "success"); ("category", category');
                       ("recommendations", VList recs);
                       ("message", message)])) ->
            recommended r products) as Hrec.
  { intros products (recs & c' & message & F & ->).
    exists (sort_reverse products), recs.
    split; [apply sort_reverse_perm|].
    split; [apply sort_reverse_decreasing|]. auto. }
  assert (forall c, c <> "" -> PyStr.truthy c = true) as Htruthy.
  { intros c Hc. unfold PyStr.truthy. apply negb_true_iff.
    now apply String.eqb_neq. }
  split; [|split].
  - intros c -> Hc E. unfold category_given, remaining_products in R.
    rewrite (Htruthy c Hc) in R. fold catalog in R. rewrite E in R.
    destruct R as (message & ->). split; [reflexivity|].
    eexists. split; [reflexivity|].
    intros p Hp. apply distinct_In. now apply in_map.
  - intros c -> Hc E. unfold category_given, remaining_products in R.
    rewrite (Htruthy c Hc) in R. fold catalog in R.
    destruct (in_category c catalog) as [|p l]; [contradiction|].
    now apply Hrec.
  - intros [-> | ->]; unfold category_given, remaining_products in R;
      simpl in R; now apply Hrec.
Qed.

Lemma recommend_products_spec_witness :
  status_of (fst (recommend_products (Some "Gadgets") initial_state))
  = Some "error"
  /\ recommended (fst (recommend_products (Some "PERIPHERALS") initial_state))
       (in_category "PERIPHERALS" (dict_values PRODUCTS_DB))
  /\ recommended (fst (recommend_products None initial_state))
       (dict_values PRODUCTS_DB).
Proof.
  split; [|split].
  - destruct (recommend_products_spec initial_state (Some "Gadgets")
                reachable_init) as (H & _).
    destruct (H "Gadgets") as (H' & _);
      [reflexivity | discriminate | vm_compute; reflexivity | exact H'].
  - destruct (recommend_products_spec initial_state (Some "PERIPHERALS")
                reachable_init) as (_ & H & _).
    apply H; [reflexivity | discriminate | vm_compute; discriminate].
  - destruct (recommend_products_spec initial_state None reachable_init)
      as (_ & _ & H).
    apply H. now left.
Defined.

(** The claim of C8 that a supplied category is always a filter fails on
    the empty string: no product has it as its category, and the result is
    not an error but the first three of the whole catalog. *)
Lemma recommend_products_empty_category :
  in_category "" (dict_values PRODUCTS_DB) = []
  /\ status_of (fst (recommend_products (Some "") initial_state))
     = Some "success"
  /\ exists r1 r2 r3,
      result_field "recommendations"
        (fst (recommend_products (Some "") initial_state))
      = Some (VList [r1; r2; r3])
      /\ map (field "name") [r1; r2; r3]
         = [Some (VStr "4K HDR Monitor"); Some (VStr "Gaming Laptop Pro");
            Some (VStr "Gaming Mouse Pro")].
Proof.
  split; [vm_compute; reflexivity|]. split; [vm_compute; reflexivity|].
  do 3 eexists. vm_compute. split; reflexivity.
Qed.

(** ** The recursion of [get_matching_blocks] has fuel enough *)

Section MatchingBlocks.

Variables a b : list ascii.
Variables alo ahi : nat.

Lemma scan_row_in_range (i blo bhi : nat) (j2len : list (nat * nat))
      (js : list nat) :
  (alo <= i < ahi)%nat -> lengths_below j2len (i - alo) ->
  forall newj2len best,
    lengths_below newj2len (S i - alo) -> in_range alo ahi best ->
    lengths_below (fst (Difflib.scan_row i blo bhi j2len js newj2len best))
                  (S i - alo)
    /\ in_range alo ahi (snd (Difflib.scan_row i blo bhi j2len js newj2len best)).
Proof.
  intros Hi Hold. induction js as [|j js IH]; intros newj2len best Hnew Hbest;
    simpl; [auto|].
  destruct (j <? blo)%nat; [auto|].
  destruct (bhi <=? j)%nat; [auto|].
  set (k := S match j with O => O | S j' => Difflib.j2len_get j2len j' end).
  assert (k <= S i - alo)%nat as Hk.
  { subst k. destruct j as [|j']; [lia|]. specialize (Hold j'). lia. }
  apply IH.
  - intros j0. simpl. destruct (j =? j0)%nat; [exact Hk | apply Hnew].
  - destruct best as [[bi bj] bs].
    destruct (bs <? k)%nat; [|exact Hbest]. simpl. lia.
Qed.

Lemma scan_rows_in_range (blo bhi n : nat) :
  forall i j2len best,
    (alo <= i)%nat -> (i + n <= ahi)%nat ->
    lengths_below j2len (i - alo) -> in_range alo ahi best ->
    in_range alo ahi (Difflib.scan_rows a b (seq i n) blo bhi j2len best).
Proof.
  induction n as [|n IH]; intros i j2len best Hlo Hhi Hlen Hbest; simpl;
    [exact Hbest|].
  destruct (Difflib.scan_row i blo bhi j2len
              (Difflib.b2j b (Difflib.elt a i)) [] best)
    as [newj2len best'] eqn:E.
  destruct (scan_row_in_range i blo bhi j2len
              (Difflib.b2j b (Difflib.elt a i)) ltac:(lia) Hlen [] best)
    as [H1 H2]; [intros j; simpl; lia | exact Hbest |].
  rewrite E in H1, H2. cbn [fst snd] in H1, H2.
  apply IH; try lia; assumption.
Qed.

Lemma extend_left_in_range (blo : nat) :
  forall besti bestj bestsize,
    in_range alo ahi (besti, bestj, bestsize) ->
    in_range alo ahi (Difflib.extend_left a b alo blo besti bestj bestsize).
Proof.
  induction besti as [|i IH]; intros bestj bestsize H; simpl; [exact H|].
  destruct bestj as [|j]; [exact H|].
  destruct (Nat.ltb_spec alo (S i)); simpl; [|exact H].
  destruct (blo <? S j)%nat; simpl; [|exact H].
  destruct (Ascii.eqb _ _); [|exact H].
  apply IH. simpl in *. lia.
Qed.

Lemma extend_right_in_range (bhi besti bestj : nat) :
  forall gap bestsize,
    (besti + bestsize <= ahi)%nat ->
    (besti + Difflib.extend_right a b gap ahi bhi besti bestj bestsize
     <= ahi)%nat.
Proof.
  induction gap as [|gap IH]; intros bestsize H; simpl; [exact H|].
  destruct (Nat.ltb_spec (besti + bestsize) ahi); simpl; [|exact H].
  destruct (bestj + bestsize <? bhi)%nat; simpl; [|exact H].
  destruct (Ascii.eqb _ _); [|exact H].
  apply IH. lia.
Qed.

Lemma find_longest_match_in_range (blo bhi : nat) :
  (alo <= ahi)%nat ->
  in_range alo ahi (Difflib.find_longest_match a b alo ahi blo bhi).
Proof.
  intros H. unfold Difflib.find_longest_match.
  pose proof (scan_rows_in_range blo bhi (ahi - alo) alo [] (alo, blo, O))
    as H1.
  destruct (Difflib.scan_rows a b _ blo bhi [] _) as [[i0 j0] k0].
  pose proof (extend_left_in_range blo i0 j0 k0) as H2.
  destruct (Difflib.extend_left a b alo blo i0 j0 k0) as [[i j] k].
  assert (in_range alo ahi (i, j, k)) as [R1 R2].
  { apply H2, H1; try lia; [intros x; simpl; lia | simpl; lia]. }
  simpl. split; [exact R1|]. now apply extend_right_in_range.
Qed.

End MatchingBlocks.

Lemma blocks_fuel (a b : list ascii) (n : nat) :
  forall m alo ahi blo bhi,
    (alo <= ahi)%nat -> (ahi - alo < n)%nat -> (ahi - alo < m)%nat ->
    Difflib.blocks a b n alo ahi blo bhi = Difflib.blocks a b m alo ahi blo bhi.
Proof.
  induction n as [|n IH]; intros m alo ahi blo bhi H Hn Hm; [lia|].
  destruct m as [|m]; [lia|]. simpl.
  pose proof (find_longest_match_in_range a b alo ahi blo bhi H) as R.
  destruct (Difflib.find_longest_match a b alo ahi blo bhi) as [[i j] k].
  simpl in R.
  destruct (Nat.eqb_spec k 0); [reflexivity|].
  f_equal; [|f_equal].
  - destruct ((alo <? i) && (blo <? j))%nat; [|reflexivity].
    apply IH; lia.
  - destruct ((i + k <? ahi) && (j + k <? bhi))%nat; [|reflexivity].
    apply IH; lia.
Qed.

(** More fuel than the length of [a] changes nothing. *)
Lemma get_matching_blocks_fuel (a b : list ascii) (fuel : nat) :
  (length a < fuel)%nat ->
  Difflib.blocks a b fuel 0 (length a) 0 (length b)
  = Difflib.get_matching_blocks a b.
Proof.
  intros H. unfold Difflib.get_matching_blocks. apply blocks_fuel; lia.
Qed.

Lemma contains_iff {A} (k : string) (d : list (string * A)) :
  contains k d = true <-> In k (dict_keys d).
Proof.
  split; [apply contains_In|].
  intros H. unfold contains. apply existsb_exists. exists k.
  split; [exact H | apply String.eqb_refl].
Qed.

Lemma get_close_matches_nil (word : string) (ps : list string) (cutoff : float) :
  Difflib.get_close_matches word ps cutoff = [] ->
  forall k, In k ps -> Difflib.is_close cutoff word k = false.
Proof.
  unfold Difflib.get_close_matches.
  destruct (filter (Difflib.is_close cutoff word) ps) as [|x l] eqn:E;
    simpl; [|discriminate].
  intros _ k Hk. destruct (Difflib.is_close cutoff word k) eqn:C; [|reflexivity].
  assert (In k (filter (Difflib.is_close cutoff word) ps)) as H
      by (apply filter_In; auto).
  rewrite E in H. destruct H.
Qed.

Lemma is_close_score (cutoff : float) (word k : string) :
  Difflib.is_close cutoff word k = true ->
  (cutoff <=? Difflib.score word k)%float = true.
Proof.
  unfold Difflib.is_close, Difflib.score. intros H.
  apply andb_true_iff in H. tauto.
Qed.

(** C3, as the code has it: [find_product_fuzzy] strips the query and puts
    it in lower case; when that is a key of the catalog, it returns this
    key and its product; otherwise it returns nothing when no key passes
    the test of [get_close_matches] at the cutoff 0.6, and else a key that
    passes it, whose similarity is at least 0.6, such that no key that
    passes is more similar and, among the keys as similar, none is greater
    as a string.  On the catalog "leptop" and "xyz123" resolve to nothing. *)
Theorem find_product_fuzzy_spec :
  (forall (db : list (string * Product.t)) (name : string),
     let q := PyStr.lower (PyStr.strip name) in
     let keys := dict_keys db in
     (In q keys ->
      exists p, lookup q db = Some p
                /\ find_product_fuzzy db name = Ok (Some (q, p)))
     /\ (~ In q keys ->
         (find_product_fuzzy db name = Ok None
          /\ forall k, In k keys -> Difflib.is_close 0.6 q k = false)
         \/ exists k p,
             find_product_fuzzy db name = Ok (Some (k, p))
             /\ lookup k db = Some p
             /\ In k keys
             /\ (0.6 <=? Difflib.score q k)%float = true
             /\ forall k', In k' keys -> Difflib.is_close 0.6 q k' = true ->
                  (Difflib.score q k <? Difflib.score q k')%float = false
                  /\ ((Difflib.score q k' =? Difflib.score q k)%float = true ->
                      String.ltb k k' = false)))
  /\ find_product_fuzzy PRODUCTS_DB "leptop" = Ok None
  /\ find_product_fuzzy PRODUCTS_DB "xyz123" = Ok None.
Proof.
  split; [|split; vm_compute; reflexivity].
  intros db name q keys. unfold find_product_fuzzy. fold q. split.
  - intros H. apply contains_iff in H. rewrite H.
    apply contains_In, In_keys_lookup in H. destruct H as (p & L).
    exists p. now rewrite L.
  - intros H. destruct (contains q db) eqn:C;
      [apply contains_iff in C; contradiction|].
    fold keys.
    destruct (Difflib.get_close_matches q keys 0.6) as [|m r] eqn:G.
    + left. split; [reflexivity|]. now apply get_close_matches_nil.
    + right.
      assert (In m (Difflib.get_close_matches q keys 0.6)) as Hm
          by (rewrite G; now left).
      destruct (get_close_matches_In _ _ _ _ Hm) as [Hin Hc].
      destruct (In_keys_lookup m db Hin) as (p & L).
      exists m, p. rewrite L.
      split; [reflexivity|]. split; [reflexivity|]. split; [exact Hin|].
      split; [now apply is_close_score|].
      intros k' Hk' Hc'. now apply (get_close_matches_best q keys 0.6).
Qed.

Lemma find_product_fuzzy_spec_witness :
  (exists p, find_product_fuzzy PRODUCTS_DB "  Gaming Mouse PRO "
             = Ok (Some ("gaming mouse pro", p)))
  /\ (exists k p, find_product_fuzzy PRODUCTS_DB "gaming mouse"
                  = Ok (Some (k, p))
                  /\ (0.6 <=? Difflib.score "gaming mouse" k)%float = true).
Proof.
  destruct find_product_fuzzy_spec as (H & _). split.
  - destruct (H PRODUCTS_DB "  Gaming Mouse PRO ") as (H1 & _).
    destruct H1 as (p & _ & E); [vm_compute; tauto|].
    exists p. exact E.
  - destruct (H PRODUCTS_DB "gaming mouse") as (_ & H2).
    destruct H2 as [[E _]|(k & p & E & _ & _ & S & _)].
    + vm_compute. intros [E|[E|[E|[E|[E|[]]]]]]; discriminate E.
    + vm_compute in E. discriminate E.
    + exists k, p. split; [exact E | exact S].
Defined.

(** The claims of C3 that "leptop" resolves to a product and that ties
    go to the first key of the catalog fail: no key is similar enough to
    "leptop" (the best score is 10/23); "headphonitor" is as similar to
    "4k hdr monitor" as to "7.1 headphones", and resolves to the second,
    the greater string, which comes later in the catalog.  A similarity
    equal to the cutoff is enough: "headph" resolves at 0.6. *)
Lemma find_product_fuzzy_leptop :
  find_product_fuzzy PRODUCTS_DB "leptop" = Ok None
  /\ map (Difflib.score "leptop") (dict_keys PRODUCTS_DB)
     = [(2 * 5 / 23)%float; (2 * 2 / 29)%float; (2 * 2 / 20)%float;
        (2 * 2 / 22)%float; (2 * 3 / 20)%float]
  /\ dict_keys PRODUCTS_DB
     = ["gaming laptop pro"; "mechanical rgb keyboard"; "4k hdr monitor";
        "gaming mouse pro"; "7.1 headphones"]
  /\ Difflib.score "headphonitor" "4k hdr monitor" = (2 * 8 / 26)%float
  /\ Difflib.score "headphonitor" "7.1 headphones" = (2 * 8 / 26)%float
  /\ (exists p, find_product_fuzzy PRODUCTS_DB "headphonitor"
                = Ok (Some ("7.1 headphones", p)))
  /\ Difflib.score "headph" "7.1 headphones" = 0.6%float
  /\ (exists p, find_product_fuzzy PRODUCTS_DB "headph"
                = Ok (Some ("7.1 headphones", p))).
Proof.
  repeat split; try (vm_compute; reflexivity);
    eexists; vm_compute; reflexivity.
Qed.

(** * Further properties of the cart and of the MCP server *)

Ltac same_outcomes :=
  repeat (exec_cbn;
          match goal with
          | |- context [match ?x with Ok _ => _ | Raise _ => _ end] =>
              destruct x
          | |- context [if ?b then _ else _] => destruct b
          | |- context [match ?x with Some _ => _ | None => _ end] =>
              destruct x
          | |- context [match ?x with [] => _ | _ :: _ => _ end] =>
              destruct x
          | |- context [let '(_, _) := ?x in _] => destruct x
          | |- context [lift ?x] => destruct x
          end);
  exec_cbn; auto.

Ltac each_char c := destruct c as [[] [] [] [] [] [] [] []].

Lemma mcp_status (name : string) (arguments : Mcp.arguments) (st : state)
      (status : string) (message : bool) :
  answers (fst (Mcp.dispatch name arguments st)) status message ->
  status_of (fst (Mcp.call_mcp_tool name arguments st)) = Some status.
Proof.
  intros H. exact (answers_status_of _ _ _ (mcp_call_ok _ _ _ _ _ H)).
Qed.

Lemma mcp_call_fst (name : string) (arguments : Mcp.arguments) (st : state) :
  fst (Mcp.call_mcp_tool name arguments st)
  = match fst (Mcp.dispatch name arguments st) with
    | Ok result => Ok result
    | Raise e =>
        Ok (VDict [("error", VFmt [VStr "Failed to execute tool '";
                                   VStr name; VStr "': "; VExn e])])
    end.
Proof.
  unfold Mcp.call_mcp_tool.
  now destruct (Mcp.dispatch name arguments st) as [[r|e] st'].
Qed.

Lemma run_ignores_history (db : list (string * Product.t)) (c : Cart.t)
      (h1 h2 : list string) (t : call) :
  t <> ShowSearchHistory ->
  fst (run t (mkState db c h1)) = fst (run t (mkState db c h2))
  /\ cart (snd (run t (mkState db c h1))) = cart (snd (run t (mkState db c h2))).
Proof.
  intros Ht.
  destruct t as [name|product quantity| |code|product quantity| | |category|];
    try contradiction; cbn [run].
  - unfold search_product_by_name. same_outcomes.
  - unfold add_to_cart. same_outcomes.
  - unfold view_cart. same_outcomes.
  - unfold apply_discount. same_outcomes.
  - unfold remove_from_cart. same_outcomes.
  - unfold clear_cart. same_outcomes.
  - unfold calculate_total. same_outcomes.
  - unfold recommend_products. same_outcomes.
Qed.

(** ** The cart stays within the catalog and the stock *)

(** X1: in every state that the tools of [agent.py] reach, each line of
    the cart carries the identifier, the name and the price of a product
    of the catalog, in a positive quantity that does not exceed the stock
    of that product. *)
Theorem cart_within_stock (st : state) :
  reachable st ->
  Forall (fun item =>
            exists key p,
              In (key, p) PRODUCTS_DB
              /\ Product.id p = CartItem.product_id item
              /\ CartItem.name item = Product.name p
              /\ CartItem.unit_price item = Product.price p
              /\ 0 < CartItem.quantity item <= Product.stock p)
         (Cart.items (cart st)).
Proof.
  intros Hst. pose proof (reachable_invariant st Hst) as [Hok Hl Hc Hn _].
  rewrite (reachable_products_db st Hst) in *.
  apply Forall_forall. intros item Hin.
  rewrite Forall_forall in Hl, Hc.
  destruct (Hl item Hin) as [Hq _].
  destruct (Hc item Hin) as (p & Hp & Hname & Hprice & Hstock).
  apply product_by_id_inv in Hp. destruct Hp as [Hid Hp].
  unfold dict_values in Hp. apply in_map_iff in Hp.
  destruct Hp as ([key p'] & E & Hp). simpl in E. subst p'.
  exists key, p. repeat split; auto.
Qed.

Lemma cart_within_stock_witness :
  Forall (fun item =>
            exists key p,
              In (key, p) PRODUCTS_DB
              /\ Product.id p = CartItem.product_id item
              /\ CartItem.name item = Product.name p
              /\ CartItem.unit_price item = Product.price p
              /\ 0 < CartItem.quantity item <= Product.stock p)
         (Cart.items (cart (exec [AddToCart "4k hdr monitor" (VInt 3);
                                  AddToCart "4k hdr monitor" (VInt 2);
                                  AddToCart "4k hdr monitor" (VInt 1)]))).
Proof. apply cart_within_stock. apply reachable_exec. Defined.

Lemma sum_filter_split (f : CartItem.t -> Z) (P : CartItem.t -> bool)
      (l : list CartItem.t) :
  fold_right Z.add 0 (map f l)
  = fold_right Z.add 0 (map f (filter P l))
    + fold_right Z.add 0 (map f (filter (fun x => negb (P x)) l)).
Proof.
  induction l as [|x l IH]; simpl; [reflexivity|].
  destruct (P x); simpl; lia.
Qed.

Lemma NoDup_filter_id (pid : string) (l : list CartItem.t) :
  NoDup (map CartItem.product_id l) ->
  filter (fun x => (CartItem.product_id x =? pid)%string) l = []
  \/ exists x, filter (fun x => (CartItem.product_id x =? pid)%string) l = [x]
               /\ In x l /\ CartItem.product_id x = pid.
Proof.
  induction l as [|x l IH]; simpl; [auto|].
  intros Hn. inversion Hn as [|? ? Hx Hn']; subst.
  destruct (String.eqb_spec (CartItem.product_id x) pid) as [E|E].
  - right. exists x. split; [|auto].
    f_equal. 
    assert (forall l', ~ In pid (map CartItem.product_id l') ->
              filter (fun x => (CartItem.product_id x =? pid)%string) l' = [])
      as Hnone.
    { induction l' as [|y l' IH']; simpl; [reflexivity|].
      intros H. destruct (String.eqb_spec (CartItem.product_id y) pid);
        [tauto | apply IH'; tauto]. }
    apply Hnone. now rewrite <- E.
  - destruct (IH Hn') as [H|(y & H & Hy & Hid)]; [auto|].
    right. exists y. auto.
Qed.

Lemma NoDup_map_filter (P : CartItem.t -> bool) (l : list CartItem.t) :
  NoDup (map CartItem.product_id l) ->
  NoDup (map CartItem.product_id (filter P l)).
Proof.
  induction l as [|x l IH]; simpl; [auto|].
  intros Hn. inversion Hn as [|? ? Hx Hn']; subst.
  destruct (P x); simpl; [|auto].
  constructor; [|auto].
  intros H. apply Hx. apply in_map_iff in H.
  destruct H as (y & E & Hy). apply filter_In in Hy.
  apply in_map_iff. exists y. tauto.
Qed.

Lemma cart_below_inventory (db : list (string * Product.t)) :
  Forall (fun p => 0 < Product.price p /\ 0 < Product.stock p)
         (dict_values db) ->
  forall items,
    Forall line_ok items -> Forall (line_of_catalog db) items ->
    NoDup (map CartItem.product_id items) ->
    fold_right Z.add 0 (map CartItem.subtotal items) <= inventory_value db
    /\ fold_right Z.add 0 (map CartItem.quantity items) <= inventory_units db.
Proof.
  unfold inventory_value, inventory_units.
  induction db as [|[key p] db IH]; intros Hdb items Hl Hc Hn.
  - destruct items as [|x items]; [simpl; lia|].
    inversion Hc as [|? ? (q & Hq & _) _]; subst. discriminate Hq.
  - simpl in Hdb. inversion Hdb as [|? ? [Hprice Hstock] Hdb']; subst.
    set (mine := fun x : CartItem.t =>
                   (CartItem.product_id x =? Product.id p)%string).
    rewrite (sum_filter_split CartItem.subtotal mine).
    rewrite (sum_filter_split CartItem.quantity mine).
    assert (Forall line_ok (filter (fun x => negb (mine x)) items)) as Hl'.
    { apply Forall_forall. intros x Hx. apply filter_In in Hx.
      rewrite Forall_forall in Hl. apply Hl. tauto. }
    assert (Forall (line_of_catalog db) (filter (fun x => negb (mine x)) items))
      as Hc'.
    { apply Forall_forall. intros x Hx. apply filter_In in Hx.
      destruct Hx as [Hx Hm]. rewrite Forall_forall in Hc.
      destruct (Hc x Hx) as (q & Hq & Hrest).
      exists q. split; [|exact Hrest].
      unfold product_by_id in *. simpl in Hq. unfold mine in Hm.
      rewrite String.eqb_sym in Hm.
      destruct (Product.id p =? CartItem.product_id x)%string;
        [discriminate | exact Hq]. }
    destruct (IH Hdb' _ Hl' Hc' (NoDup_map_filter _ _ Hn)) as [IH1 IH2].
    simpl.
    destruct (NoDup_filter_id (Product.id p) items Hn)
      as [E|(x & E & Hx & Hid)]; fold mine in E; rewrite E; simpl.
    + nia.
    + rewrite Forall_forall in Hl, Hc.
      destruct (Hl x Hx) as [Hq Hs].
      destruct (Hc x Hx) as (q & Hq' & _ & Hup & Hst).
      unfold product_by_id in Hq'. simpl in Hq'.
      rewrite Hid, String.eqb_refl in Hq'. injection Hq' as <-.
      rewrite Hs, Hup. nia.
Qed.

Lemma invariant_below_inventory (st : state) :
  invariant st ->
  0 <= Cart.get_subtotal (cart st) <= inventory_value (products_db st)
  /\ 0 <= total_units (Cart.items (cart st))
     <= inventory_units (products_db st)
  /\ (length (Cart.items (cart st)) <= length (products_db st))%nat.
Proof.
  intros Hinv. pose proof Hinv as [Hok Hl Hc Hn _].
  pose proof (subtotal_bounds st Hinv) as [Hs _].
  pose proof (units_bounds _ Hl) as Hu.
  pose proof (cart_length _ _ Hc Hn) as Hlen.
  destruct Hok as (_ & Hdb & _).
  destruct (cart_below_inventory (products_db st)) with
    (items := Cart.items (cart st)) as [B1 B2]; auto.
  { eapply Forall_impl; [|exact Hdb]. simpl. intros p Hp. lia. }
  unfold Cart.get_subtotal, total_units. rewrite !py_sum_fold_right.
  unfold Cart.get_subtotal, total_units in Hs, Hu.
  rewrite !py_sum_fold_right in Hs, Hu. lia.
Qed.

(** X15: in every state that the tools of [agent.py] or the MCP server
    reach, the cart is worth at most the whole stock: the subtotal is at
    most 22400, the cart holds at most 63 units, in at most 5 lines. *)
Theorem cart_never_exceeds_stock :
  (forall st, reachable st ->
     0 <= Cart.get_subtotal (cart st) <= 22400
     /\ 0 <= total_units (Cart.items (cart st)) <= 63
     /\ (length (Cart.items (cart st)) <= 5)%nat)
  /\ (forall st, Mcp.reachable st ->
        0 <= Cart.get_subtotal (cart st) <= 22400
        /\ 0 <= total_units (Cart.items (cart st)) <= 63
        /\ (length (Cart.items (cart st)) <= 5)%nat).
Proof.
  split; intros st Hst.
  - pose proof (invariant_below_inventory st (reachable_invariant st Hst))
      as H.
    rewrite (reachable_products_db st Hst) in H. exact H.
  - pose proof (invariant_below_inventory st
                  (mcp_reachable_invariant st Hst)) as H.
    rewrite (mcp_reachable_products_db st Hst) in H. exact H.
Qed.

Lemma cart_never_exceeds_stock_witness :
  Cart.get_subtotal
    (cart (exec [AddToCart "gaming laptop pro" (VInt 10);
                 AddToCart "gaming laptop pro" (VInt 1)])) <= 22400.
Proof.
  destruct cart_never_exceeds_stock as [H _].
  destruct (H (exec [AddToCart "gaming laptop pro" (VInt 10);
                      AddToCart "gaming laptop pro" (VInt 1)]))
    as ([_ Hs] & _).
  - apply reachable_exec.
  - exact Hs.
Defined.

(** X13: in every state that [call_mcp_tool] reaches, the catalog is the
    one the server started with, each line of the cart has a positive
    quantity within the stock of its product and the subtotal, the name
    and the price that go with it, no product has two lines, and the
    discount code, if any, is one of the three known codes. *)
Theorem mcp_cart_invariants (st : state) :
  Mcp.reachable st ->
  products_db st = Mcp.PRODUCTS_DB
  /\ Forall (fun item =>
               0 < CartItem.quantity item
               /\ CartItem.subtotal item
                  = CartItem.unit_price item * CartItem.quantity item
               /\ exists key p,
                    In (key, p) Mcp.PRODUCTS_DB
                    /\ Product.id p = CartItem.product_id item
                    /\ CartItem.name item = Product.name p
                    /\ CartItem.unit_price item = Product.price p
                    /\ CartItem.quantity item <= Product.stock p)
            (Cart.items (cart st))
  /\ NoDup (map CartItem.product_id (Cart.items (cart st)))
  /\ match Cart.discount_code (cart st) with
     | Some code => In code ["WELCOME10"; "SAVE20"; "VIP30"]
     | None => True
     end.
Proof.
  intros Hst. pose proof (mcp_reachable_invariant st Hst) as [Hok Hl Hc Hn Hk].
  pose proof (mcp_reachable_products_db st Hst) as Hdb.
  rewrite Hdb in *.
  split; [reflexivity|]. split; [|split; [exact Hn|]].
  - apply Forall_forall. intros item Hin.
    rewrite Forall_forall in Hl, Hc.
    destruct (Hl item Hin) as [Hq Hs].
    destruct (Hc item Hin) as (p & Hp & Hname & Hprice & Hstock).
    apply product_by_id_inv in Hp. destruct Hp as [Hid Hp].
    unfold dict_values in Hp. apply in_map_iff in Hp.
    destruct Hp as ([key p'] & E & Hp). simpl in E. subst p'.
    split; [exact Hq|]. split; [exact Hs|].
    exists key, p. repeat split; auto.
  - unfold code_ok in Hk. destruct (Cart.discount_code (cart st)) as [k|]; auto.
    destruct Hk as (rate & L). apply lookup_In in L.
    simpl in L. simpl.
    repeat (destruct L as [L|L]; [injection L as <- _; tauto|]).
    contradiction.
Qed.

Lemma mcp_cart_invariants_witness :
  NoDup (map CartItem.product_id
           (Cart.items (cart (Mcp.exec
              [("add_to_cart",
                Mcp.mkArguments None (Some "4k hdr monitor") (Some 2) None
                  None);
               ("add_to_cart",
                Mcp.mkArguments None (Some "4k monitor") None None None)])))).
Proof. apply mcp_cart_invariants. apply mcp_reachable_exec. Defined.

(** ** The amounts of a reachable cart *)


Lemma range_In (n : nat) (from x : Z) :
  from <= x < from + Z.of_nat n -> In x (range n from).
Proof.
  revert from. induction n as [|n IH]; intros from H; [lia|].
  simpl. destruct (Z.eq_dec from x) as [E|E]; [auto|].
  right. apply IH. lia.
Qed.




Lemma total_value_at (c : Cart.t) :
  discount_value c
  = discount_at (Z2float (Cart.get_subtotal c))
                (discount_rate (Cart.discount_code c))
  /\ total_value c
     = total_at (Z2float (Cart.get_subtotal c))
                (SHIPPING_THRESHOLD <=? Cart.get_subtotal c)
                (discount_rate (Cart.discount_code c)).
Proof.
  unfold total_value, tax_value, shipping_value, discount_value, total_at,
    discount_at.
  split; [reflexivity|].
  now destruct (SHIPPING_THRESHOLD <=? Cart.get_subtotal c).
Qed.



Lemma texts_accurate_all :
  forallb texts_accurate (range (Z.to_nat 22401) 0) = true.
Proof. vm_compute. reflexivity. Qed.

Lemma texts_accurate_below (s : Z) : 0 <= s <= 22400 -> texts_accurate s = true.
Proof.
  intros H. pose proof texts_accurate_all as A.
  rewrite forallb_forall in A. apply A. apply range_In. lia.
Qed.

Lemma shown_text (x : float) (h : Z) :
  shown x = Some h ->
  price_text (NFloat x) = Ok ("$" ++ PyFormat.render false h)%string.
Proof.
  unfold shown, price_text, PyFormat.format_2f. simpl.
  destruct (Prim2SF x) as [[]|[]| |[] m e]; try discriminate;
    now intros [= <-].
Qed.

Lemma shown_near_text (x : float) (exact : Z) :
  shown_near x exact = true ->
  exists h,
    price_text (NFloat x) = Ok ("$" ++ PyFormat.render false h)%string
    /\ Z.abs (100 * h - exact) <= 50.
Proof.
  unfold shown_near. destruct (shown x) as [h|] eqn:E; [|discriminate].
  intros H. apply Z.leb_le in H. exists h. split; [|exact H].
  now apply shown_text.
Qed.

Lemma rate_and_percent (code : option string) :
  code_ok code ->
  In (discount_rate code, percent code)
     [(None, 0); (Some 0.10%float, 10); (Some 0.20%float, 20);
      (Some 0.30%float, 30)].
Proof.
  destruct code as [k|]; [|simpl; auto]. unfold code_ok.
  intros (rate & L). pose proof (lookup_In _ _ _ L) as Hin. simpl in Hin.
  repeat (destruct Hin as [Hin|Hin];
          [injection Hin as <- <-; vm_compute; tauto|]).
  contradiction.
Qed.

Lemma format_price_text (amount : num) :
  format_price amount = Ok (VPrice amount)
  <-> exists text, price_text amount = Ok text.
Proof.
  unfold format_price, price_text.
  destruct (to_float amount) as [x|e]; simpl.
  - split; eauto.
  - split; [discriminate | intros (t & H); discriminate H].
Qed.

(** X21: the texts of the amounts are exact to the cent.  An integer
    amount up to 22400 is shown as it is, with two zero decimals; and in
    every state that the tools of [agent.py] or the MCP server reach,
    the discount, the tax and the total of the cart, computed in
    floating point, are shown within half a cent of their exact values:
    the subtotal times the percentage of the code, 8% of the discounted
    subtotal, and their sum with the shipping cost. *)
Theorem displayed_amounts_accurate :
  (forall z, 0 <= z <= 22400 ->
     price_text (NInt z) = Ok ("$" ++ PyFormat.render false (100 * z))%string)
  /\ (forall st,
        reachable st \/ Mcp.reachable st ->
        let c := cart st in
        let s := Cart.get_subtotal c in
        let pct := percent (Cart.discount_code c) in
        0 <= s <= 22400
        /\ exists discount tax total hd ht htot,
             Cart.get_discount_amount c = Ok discount
             /\ Cart.get_tax c = Ok tax
             /\ Cart.get_total c = Ok total
             /\ price_text (NFloat discount)
                = Ok ("$" ++ PyFormat.render false hd)%string
             /\ Z.abs (100 * hd - exact_discount s pct) <= 50
             /\ price_text (NFloat tax)
                = Ok ("$" ++ PyFormat.render false ht)%string
             /\ Z.abs (100 * ht - exact_tax s pct) <= 50
             /\ price_text (NFloat total)
                = Ok ("$" ++ PyFormat.render false htot)%string
             /\ Z.abs (100 * htot - exact_total s pct) <= 50).
Proof.
  split.
  - intros z Hz. pose proof (texts_accurate_below _ Hz) as A.
    unfold texts_accurate in A. apply andb_prop in A. destruct A as [A0 _].
    unfold price_text, to_float.
    rewrite float_of_int_small by lia. cbn [obind].
    destruct (shown (Z2float z)) as [h|] eqn:E; [|discriminate].
    apply Z.eqb_eq in A0. subst h.
    pose proof (shown_text _ _ E) as P. unfold price_text in P. exact P.
  - intros st Hst. cbv zeta. set (c := cart st).
    assert (invariant st /\ 0 <= Cart.get_subtotal c <= 22400) as [Hinv Hb].
    { destruct Hst as [H|H].
      - pose proof (reachable_invariant st H) as Hinv. split; [exact Hinv|].
        pose proof (invariant_below_inventory st Hinv) as B.
        rewrite (reachable_products_db st H) in B. apply B.
      - pose proof (mcp_reachable_invariant st H) as Hinv.
        split; [exact Hinv|].
        pose proof (invariant_below_inventory st Hinv) as B.
        rewrite (mcp_reachable_products_db st H) in B. apply B. }
    split; [exact Hb|].
    pose proof Hinv as [_ _ _ _ Hk]. fold c in Hk.
    destruct (cart_amounts c) as (D & T & Tot); [lia|].
    destruct (total_value_at c) as [Ed Et].
    pose proof (texts_accurate_below _ Hb) as A.
    unfold texts_accurate in A. apply andb_prop in A. destruct A as [_ A].
    rewrite forallb_forall in A.
    specialize (A _ (rate_and_percent _ Hk)). cbv beta iota zeta in A.
    rewrite <- Ed in A.
    apply andb_prop in A. destruct A as [A A3].
    apply andb_prop in A. destruct A as [A1 A2].
    destruct (shown_near_text _ _ A1) as (hd & P1 & B1).
    destruct (shown_near_text _ _ A2) as (ht & P2 & B2).
    rewrite <- Et in A3.
    destruct (shown_near_text _ _ A3) as (htot & P3 & B3).
    exists (discount_value c), (tax_value c), (total_value c), hd, ht, htot.
    repeat (split; [assumption|]). assumption.
Qed.

Lemma displayed_amounts_accurate_witness :
  price_text (NInt 1500) = Ok "$1,500.00"
  /\ let c := cart (exec [AddToCart "4k hdr monitor" (VInt 1);
                          ApplyDiscount "WELCOME10"]) in
     exists total htot,
       Cart.get_total c = Ok total
       /\ price_text (NFloat total)
          = Ok ("$" ++ PyFormat.render false htot)%string
       /\ Z.abs (100 * htot
                 - exact_total (Cart.get_subtotal c)
                               (percent (Cart.discount_code c))) <= 50.
Proof.
  destruct displayed_amounts_accurate as [H1 H2]. split.
  - rewrite H1 by lia. vm_compute. reflexivity.
  - intros c.
    destruct (H2 (exec [AddToCart "4k hdr monitor" (VInt 1);
                        ApplyDiscount "WELCOME10"]))
      as (_ & d & t & total & hd & ht & htot & _ & _ & T & _ & _ & _ & _
          & P & B).
    + left. apply reachable_exec.
    + exists total, htot. split; [exact T|]. split; [exact P | exact B].
Defined.

Lemma discount_percent_nominal (k : string) (rate : float) :
  lookup k DISCOUNT_CODES = Some rate ->
  exists pct,
    int_of_float (rate * Z2float 100)%float = Ok pct
    /\ In (k, pct) [("WELCOME10", 10); ("SAVE20", 20); ("VIP30", 30)].
Proof.
  intros L. pose proof (lookup_In _ _ _ L) as Hin. simpl in Hin.
  destruct Hin as [Hin|[Hin|[Hin|[]]]]; injection Hin as <- <-;
    eexists; (split; [vm_compute; reflexivity|]); simpl; auto.
Qed.

(** X19: when [apply_discount] accepts a code on a cart that is not
    empty, the percentage it reports is the nominal one of the code (10,
    20 or 30), the amount it reports is the discount of the cart as it
    is now, the subtotal times the rate, and it reports the subtotal and
    the new total of the cart. *)
Theorem apply_discount_reports (st : state) (code : string) (rate : float) :
  reachable st -> Cart.items (cart st) <> [] ->
  lookup (PyStr.upper (PyStr.strip code)) DISCOUNT_CODES = Some rate ->
  let st' := snd (apply_discount code st) in
  exists v pct discount total,
    fst (apply_discount code st) = Ok v
    /\ In (PyStr.upper (PyStr.strip code), pct)
          [("WELCOME10", 10); ("SAVE20", 20); ("VIP30", 30)]
    /\ at_path ["discount"; "percentage"] v
       = Some (VFmt [VInt pct; VStr "%"])
    /\ Cart.get_discount_amount (cart st') = Ok discount
    /\ discount = (Z2float (Cart.get_subtotal (cart st)) * rate)%float
    /\ at_path ["discount"; "amount"] v = Some (VPrice (NFloat discount))
    /\ at_path ["discount"; "original_subtotal"] v
       = Some (VPrice (NInt (Cart.get_subtotal (cart st))))
    /\ Cart.get_total (cart st') = Ok total
    /\ at_path ["discount"; "total_with_discount"] v
       = Some (VPrice (NFloat total)).
Proof.
  intros Hst Hne L st'.
  pose proof (reachable_invariant st Hst) as Hinv.
  pose proof (subtotal_bounds st Hinv) as Hb.
  assert (st' = with_code (Some (PyStr.upper (PyStr.strip code))) st) as Est.
  { unfold st'. rewrite apply_discount_state. unfold apply_discount_effect.
    destruct (Cart.items (cart st)); [contradiction|]. now rewrite L. }
  clearbody st'. subst st'.
  destruct (discount_percent_nominal _ _ L) as (pct & P & Hp).
  unfold apply_discount. exec_cbn.
  destruct (Cart.items (cart st)) as [|x items] eqn:E; [contradiction|].
  rewrite L. exec_cbn. rewrite E.
  set (k := PyStr.upper (PyStr.strip code)) in *.
  set (c := Cart.mk (x :: items) (Some k)).
  assert (cart (with_code (Some k) st) = c) as ->
    by (unfold with_code; cbn [cart]; now rewrite E).
  assert (Cart.get_subtotal c = Cart.get_subtotal (cart st)) as Hc
    by (unfold Cart.get_subtotal; now rewrite E).
  destruct (cart_amounts c) as (D & _ & T); [rewrite Hc; lia|].
  assert (discount_value c
          = (Z2float (Cart.get_subtotal (cart st)) * rate)%float) as Ed.
  { unfold discount_value, discount_rate. cbn [c Cart.discount_code].
    assert (PyStr.truthy k = true) as ->
      by (destruct k; [discriminate L | reflexivity]).
    now rewrite L, Hc. }
  rewrite D. exec_cbn.
  rewrite (float_of_int_small 100) by (simpl; lia). exec_cbn.
  rewrite P. exec_cbn.
  rewrite format_price_int by (rewrite Hc; lia). exec_cbn.
  rewrite T. exec_cbn. rewrite !format_price_float. exec_cbn.
  eexists. exists pct, (discount_value c), (total_value c).
  split; [reflexivity|]. rewrite Hc. repeat split; auto.
Qed.

Lemma apply_discount_reports_witness :
  let st := exec [AddToCart "4k hdr monitor" (VInt 1)] in
  exists v,
    fst (apply_discount " vip30 " st) = Ok v
    /\ at_path ["discount"; "percentage"] v = Some (VFmt [VInt 30; VStr "%"]).
Proof.
  intros st.
  destruct (apply_discount_reports st " vip30 " 0.30%float)
    as (v & pct & discount & total & E & Hp & H & _).
  - apply reachable_exec.
  - vm_compute. discriminate.
  - vm_compute. reflexivity.
  - exists v. split; [exact E|].
    simpl in Hp. destruct Hp as [Hp|[Hp|[Hp|[]]]]; try discriminate Hp.
    injection Hp as <-. exact H.
Defined.

(** ** How additions and removals compose *)












Lemma run_unsuccessful (st : state) (c : call) :
  invariant st ->
  status_of (fst (run c st)) <> Some "success" ->
  cart (snd (run c st)) = cart st.
Proof.
  intros Hinv.
  destruct c as [name|product quantity| |code|product quantity| | |category|];
    cbn [run]; intros H.
  - now rewrite search_product_by_name_state.
  - rewrite add_to_cart_state. unfold add_to_cart_effect.
    pose proof (add_to_cart_result st product quantity Hinv) as R.
    cbv zeta in R.
    destruct (isinstance_int quantity) as [q|]; [|reflexivity].
    destruct (q <=? 0); [reflexivity|].
    destruct (find_product_fuzzy _ _) as [[[? p]|]|?]; try reflexivity.
    destruct (Product.stock p <? _); [reflexivity|].
    destruct R as (message & more & R). rewrite R in H. now destruct H.
  - now rewrite (view_cart_readonly st : snd (view_cart st) = st).
  - rewrite apply_discount_state. unfold apply_discount_effect.
    pose proof (apply_discount_result st code Hinv) as R. cbv zeta in R.
    destruct (Cart.items (cart st)); [reflexivity|].
    destruct (lookup _ DISCOUNT_CODES); [|reflexivity].
    destruct R as (message & more & R). rewrite R in H. now destruct H.
  - rewrite remove_from_cart_state. unfold remove_from_cart_effect.
    pose proof (remove_from_cart_result st product quantity Hinv) as R.
    cbv zeta in R.
    destruct (find_product_fuzzy _ _) as [[[? p]|]|?]; try reflexivity.
    destruct (find_item _ 0 _) as [[pos item]|]; [|reflexivity].
    unfold remove_line.
    destruct quantity as [n|].
    + destruct (CartItem.quantity item <=? n).
      * destruct R as (message & more & R). rewrite R in H. now destruct H.
      * destruct (0 <? n); [|now rewrite with_items_same].
        destruct R as (message & R). rewrite R in H. now destruct H.
    + destruct R as (message & more & R). rewrite R in H. now destruct H.
  - now destruct H.
  - now rewrite (calculate_total_readonly st : snd (calculate_total st) = st).
  - now rewrite (recommend_products_readonly category st
                 : snd (recommend_products category st) = st).
  - now rewrite (show_search_history_readonly st
                 : snd (show_search_history st) = st).
Qed.

Lemma mcp_unsuccessful (st : state) (name : string)
      (arguments : Mcp.arguments) :
  invariant st ->
  status_of (fst (Mcp.call_mcp_tool name arguments st)) <> Some "success" ->
  cart (snd (Mcp.call_mcp_tool name arguments st)) = cart st.
Proof.
  intros Hinv. rewrite mcp_call_state. unfold mcp_effect.
  destruct (String.eqb_spec name "search_product") as [->|N1];
    [reflexivity|].
  destruct (String.eqb_spec name "add_to_cart") as [->|N2].
  { rewrite (mcp_status "add_to_cart" arguments st _ _
               (mcp_add_to_cart_result st arguments Hinv)).
    unfold add_to_cart_effect. cbn [isinstance_int].
    destruct (_ <=? 0); [reflexivity|].
    destruct (find_product_fuzzy _ _) as [[[? p]|]|?]; try reflexivity.
    destruct (Product.stock p <? _); [reflexivity|]. intros H. now destruct H. }
  destruct (String.eqb_spec name "apply_discount") as [->|N3].
  { rewrite (mcp_status "apply_discount" arguments st _ _
               (mcp_apply_discount_result st arguments Hinv)).
    unfold apply_discount_effect.
    destruct (Cart.items (cart st)); [reflexivity|].
    destruct (lookup _ DISCOUNT_CODES); [|reflexivity].
    intros H. now destruct H. }
  destruct (String.eqb_spec name "remove_from_cart") as [->|N4].
  { rewrite (mcp_status "remove_from_cart" arguments st _ _
               (mcp_remove_from_cart_result st arguments Hinv)).
    unfold remove_from_cart_effect.
    destruct (find_product_fuzzy _ _) as [[[? p]|]|?]; try reflexivity.
    destruct (find_item _ 0 _) as [[pos item]|]; [|reflexivity].
    unfold remove_line.
    destruct (Mcp.quantity arguments) as [n|];
      [|intros H; now destruct H].
    destruct (CartItem.quantity item <=? n); [intros H; now destruct H|].
    destruct (0 <? n); [intros H; now destruct H|].
    now rewrite with_items_same. }
  destruct (String.eqb_spec name "clear_cart") as [->|N5].
  { intros H. now destruct H. }
  reflexivity.
Qed.

(** X17: a call whose result does not have the status success leaves the
    cart as it was, for the tools of [agent.py] and for [call_mcp_tool]. *)
Theorem unsuccessful_calls_keep_cart :
  (forall st c,
     reachable st ->
     status_of (fst (run c st)) <> Some "success" ->
     cart (snd (run c st)) = cart st)
  /\ (forall st name arguments,
        Mcp.reachable st ->
        status_of (fst (Mcp.call_mcp_tool name arguments st))
        <> Some "success" ->
        cart (snd (Mcp.call_mcp_tool name arguments st)) = cart st).
Proof.
  split.
  - intros st c Hst. apply run_unsuccessful. now apply reachable_invariant.
  - intros st name arguments Hst. apply mcp_unsuccessful.
    now apply mcp_reachable_invariant.
Qed.

Lemma unsuccessful_calls_keep_cart_witness :
  let st := exec [AddToCart "4k hdr monitor" (VInt 5)] in
  cart (snd (run (AddToCart "4k hdr monitor" (VInt 1)) st)) = cart st.
Proof.
  intros st. destruct unsuccessful_calls_keep_cart as [H _].
  apply H.
  - apply reachable_exec.
  - vm_compute. discriminate.
Defined.

(** ** Clearing and viewing the cart *)

(** X4: [clear_cart] succeeds in every state, reports the numbers of
    lines and of units that the cart had, and leaves an empty cart with
    no discount code, the catalog and the search history as they were;
    after it [view_cart] and [calculate_total] answer empty (with a total
    of zero), [apply_discount] rejects every code and changes nothing,
    a second [clear_cart] removes nothing, and, from a reachable state,
    every tool but [show_search_history] answers and leaves the cart as
    it does on a fresh start. *)
Theorem clear_cart_resets (st : state) :
  let r := fst (clear_cart st) in
  let st' := snd (clear_cart st) in
  status_of r = Some "success"
  /\ result_field "removed_products" r
     = Some (VInt (Z.of_nat (length (Cart.items (cart st)))))
  /\ result_field "removed_units" r
     = Some (VInt (total_units (Cart.items (cart st))))
  /\ st' = mkState (products_db st) (Cart.mk [] None) (search_history st)
  /\ status_of (fst (view_cart st')) = Some "empty"
  /\ status_of (fst (calculate_total st')) = Some "empty"
  /\ result_field "total" (fst (calculate_total st')) = Some (VPrice (NInt 0))
  /\ (forall code, status_of (fst (apply_discount code st')) = Some "error"
                   /\ snd (apply_discount code st') = st')
  /\ result_field "removed_products" (fst (clear_cart st')) = Some (VInt 0)
  /\ snd (clear_cart st') = st'
  /\ (reachable st ->
      forall t, t <> ShowSearchHistory ->
        fst (run t st') = fst (run t initial_state)
        /\ cart (snd (run t st')) = cart (snd (run t initial_state))).
Proof.
  intros r st'.
  repeat (split; [reflexivity|]).
  split; [intros code; split; reflexivity|].
  repeat (split; [reflexivity|]).
  intros Hst t Ht.
  assert (st' = mkState PRODUCTS_DB (Cart.mk [] None) (search_history st))
    as -> by (unfold st'; cbn; now rewrite (reachable_products_db st Hst)).
  now apply run_ignores_history.
Qed.

Lemma clear_cart_resets_witness :
  let st := snd (clear_cart (exec [AddToCart "gaming mouse pro" (VInt 15);
                                   ApplyDiscount "VIP30"])) in
  fst (run (AddToCart "gaming mouse pro" (VInt 15)) st)
  = fst (run (AddToCart "gaming mouse pro" (VInt 15)) initial_state).
Proof.
  intros st.
  destruct (clear_cart_resets
              (exec [AddToCart "gaming mouse pro" (VInt 15);
                     ApplyDiscount "VIP30"]))
    as (_ & _ & _ & _ & _ & _ & _ & _ & _ & _ & H).
  apply H.
  - apply reachable_exec.
  - discriminate.
Defined.

Lemma view_cart_figures (st : state) :
  invariant st -> Cart.items (cart st) <> [] ->
  let c := cart st in
  exists v,
    fst (view_cart st) = Ok v
    /\ at_path ["total_products"] v
       = Some (VInt (Z.of_nat (length (Cart.items c))))
    /\ at_path ["total_units"] v = Some (VInt (total_units (Cart.items c)))
    /\ at_path ["calculations"; "subtotal"] v
       = Some (VPrice (NInt (Cart.get_subtotal c)))
    /\ at_path ["calculations"; "taxes"] v
       = Some (VPrice (NFloat (tax_value c)))
    /\ at_path ["calculations"; "shipping"] v
       = Some (VPrice (Cart.get_shipping c))
    /\ at_path ["calculations"; "free_shipping"] v
       = Some (VBool (SHIPPING_THRESHOLD <=? Cart.get_subtotal c))
    /\ at_path ["calculations"; "total"] v
       = Some (VPrice (NFloat (total_value c))).
Proof.
  intros Hinv Hne c. pose proof (subtotal_bounds st Hinv) as Hb.
  destruct (lines_formatted item_detail st Hinv item_detail_ok) as (vs & V).
  destruct (cart_amounts (cart st)) as (D & T & Tot); [lia|].
  assert (is_zero (Cart.get_shipping c)
          = (SHIPPING_THRESHOLD <=? Cart.get_subtotal c)) as Hz.
  { unfold Cart.get_shipping. now destruct (SHIPPING_THRESHOLD <=? _). }
  unfold view_cart. exec_cbn. fold c in V, D, T, Tot, Hb, Hne |- *.
  destruct (Cart.items c) as [|x items] eqn:E; [contradiction|].
  rewrite V. exec_cbn. rewrite D. exec_cbn. rewrite T. exec_cbn.
  rewrite Tot. exec_cbn.
  rewrite format_price_int by lia. exec_cbn.
  rewrite format_price_shipping. rewrite Hz.
  destruct (0 <? discount_value c)%float;
    exec_cbn; rewrite ?format_price_float; exec_cbn;
    destruct (_ && _);
    eexists; (split; [reflexivity|]); repeat split.
Qed.

Lemma calculate_total_figures (st : state) :
  invariant st -> Cart.items (cart st) <> [] ->
  let c := cart st in
  exists v,
    fst (calculate_total st) = Ok v
    /\ at_path ["subtotal"] v = Some (VPrice (NInt (Cart.get_subtotal c)))
    /\ at_path ["taxes"; "amount"] v = Some (VPrice (NFloat (tax_value c)))
    /\ at_path ["shipping"; "cost"] v = Some (VPrice (Cart.get_shipping c))
    /\ at_path ["shipping"; "free"] v
       = Some (VBool (SHIPPING_THRESHOLD <=? Cart.get_subtotal c))
    /\ at_path ["total"] v = Some (VPrice (NFloat (total_value c))).
Proof.
  intros Hinv Hne c. pose proof (subtotal_bounds st Hinv) as Hb.
  destruct (lines_formatted product_summary st Hinv product_summary_ok)
    as (vs & V).
  destruct (cart_amounts (cart st)) as (D & T & Tot); [lia|].
  assert (is_zero (Cart.get_shipping c)
          = (SHIPPING_THRESHOLD <=? Cart.get_subtotal c)) as Hz.
  { unfold Cart.get_shipping. now destruct (SHIPPING_THRESHOLD <=? _). }
  unfold calculate_total. exec_cbn. fold c in V, D, T, Tot, Hb, Hne |- *.
  destruct (Cart.items c) as [|x items] eqn:E; [contradiction|].
  rewrite D. exec_cbn. rewrite T. exec_cbn. rewrite Tot. exec_cbn.
  rewrite format_price_int by lia. exec_cbn.
  rewrite (float_of_int_small 100) by (simpl; lia).
  rewrite format_price_shipping.
  rewrite (format_price_int SHIPPING_THRESHOLD) by (simpl; lia).
  rewrite (format_price_int SHIPPING_COST) by (simpl; lia).
  assert (float_of_int (if is_zero (Cart.get_shipping c)
                        then SHIPPING_COST else 0)
          = Ok (Z2float (if is_zero (Cart.get_shipping c)
                         then SHIPPING_COST else 0))) as F
      by (apply float_of_int_small;
          destruct (is_zero _); simpl; lia).
  rewrite F. rewrite Hz.
  destruct (0 <? discount_value c)%float;
    exec_cbn; rewrite ?format_price_float; exec_cbn;
    rewrite tax_percent; exec_cbn; rewrite V; exec_cbn;
    destruct (_ && _);
    exec_cbn; rewrite ?format_price_float; exec_cbn;
    eexists; (split; [reflexivity|]); repeat split.
Qed.

(** X7: on a cart that is not empty, [view_cart] and [calculate_total]
    both return, and they report the same subtotal, tax, shipping cost,
    free-shipping flag and total, which are those of the methods of
    [Cart]; [view_cart] also reports the number of lines and of units. *)
Theorem cart_reports_agree (st : state) :
  reachable st -> Cart.items (cart st) <> [] ->
  let c := cart st in
  exists v t tax total,
    fst (view_cart st) = Ok v
    /\ fst (calculate_total st) = Ok t
    /\ Cart.get_tax c = Ok tax
    /\ Cart.get_total c = Ok total
    /\ at_path ["total_products"] v
       = Some (VInt (Z.of_nat (length (Cart.items c))))
    /\ at_path ["total_units"] v = Some (VInt (total_units (Cart.items c)))
    /\ at_path ["calculations"; "subtotal"] v
       = Some (VPrice (NInt (Cart.get_subtotal c)))
    /\ at_path ["subtotal"] t = Some (VPrice (NInt (Cart.get_subtotal c)))
    /\ at_path ["calculations"; "taxes"] v = Some (VPrice (NFloat tax))
    /\ at_path ["taxes"; "amount"] t = Some (VPrice (NFloat tax))
    /\ at_path ["calculations"; "shipping"] v
       = Some (VPrice (Cart.get_shipping c))
    /\ at_path ["shipping"; "cost"] t = Some (VPrice (Cart.get_shipping c))
    /\ at_path ["calculations"; "free_shipping"] v
       = Some (VBool (100 <=? Cart.get_subtotal c))
    /\ at_path ["shipping"; "free"] t
       = Some (VBool (100 <=? Cart.get_subtotal c))
    /\ at_path ["calculations"; "total"] v = Some (VPrice (NFloat total))
    /\ at_path ["total"] t = Some (VPrice (NFloat total)).
Proof.
  intros Hst Hne c. pose proof (reachable_invariant st Hst) as Hinv.
  destruct (view_cart_figures st Hinv Hne)
    as (v & Ev & V1 & V2 & V3 & V4 & V5 & V6 & V7).
  destruct (calculate_total_figures st Hinv Hne)
    as (t & Et & T1 & T2 & T3 & T4 & T5).
  destruct (reachable_amounts st Hst) as (_ & Tax & Tot).
  exists v, t, (tax_value c), (total_value c).
  repeat (split; [assumption|]). assumption.
Qed.

Lemma cart_reports_agree_witness :
  let st := exec [AddToCart "4k hdr monitor" (VInt 1); ApplyDiscount "SAVE20"] in
  exists v t,
    fst (view_cart st) = Ok v /\ fst (calculate_total st) = Ok t
    /\ at_path ["calculations"; "total"] v = at_path ["total"] t.
Proof.
  intros st.
  destruct (cart_reports_agree st) as (v & t & tax & total & H).
  - apply reachable_exec.
  - vm_compute. discriminate.
  - exists v, t. decompose [and] H. split; [assumption|]. split; [assumption|].
    congruence.
Defined.

(** ** The search history *)

Lemma run_search_history (c : call) (st : state) :
  search_history (snd (run c st))
  = search_history st ++ searched [c].
Proof.
  destruct c as [name|product quantity| |code|product quantity| | |category|];
    simpl; rewrite ?app_nil_r.
  - now rewrite search_product_by_name_state.
  - rewrite add_to_cart_state. unfold add_to_cart_effect.
    destruct (isinstance_int quantity) as [q|]; [|auto].
    destruct (q <=? 0); [auto|].
    destruct (find_product_fuzzy (products_db st) product)
      as [[[key p]|]|e]; auto.
    destruct (Product.stock p <? _); auto.
  - now rewrite (view_cart_readonly st : snd (view_cart st) = st).
  - rewrite apply_discount_state. unfold apply_discount_effect.
    destruct (Cart.items (cart st)); [auto|].
    destruct (lookup _ DISCOUNT_CODES); auto.
  - rewrite remove_from_cart_state. unfold remove_from_cart_effect.
    destruct (find_product_fuzzy (products_db st) product)
      as [[[key p]|]|e]; auto.
    destruct (find_item _ 0 _) as [[pos item]|]; auto.
  - reflexivity.
  - now rewrite (calculate_total_readonly st : snd (calculate_total st) = st).
  - now rewrite (recommend_products_readonly category st
                 : snd (recommend_products category st) = st).
  - now rewrite (show_search_history_readonly st
                 : snd (show_search_history st) = st).
Qed.

Lemma fold_search_history (calls : list call) (st : state) :
  search_history (fold_left (fun st c => snd (run c st)) calls st)
  = search_history st ++ searched calls.
Proof.
  revert st. induction calls as [|c calls IH]; intros st; simpl.
  - now rewrite app_nil_r.
  - rewrite IH, run_search_history. simpl. now rewrite <- !app_assoc.
Qed.

(** X5: after any sequence of calls the search history is the list of
    the queries of the searches made, in order and as they were typed;
    [show_search_history] answers empty when there was no search, and
    otherwise returns the number of all searches and the last five of
    them (all of them when there are fewer). *)
Theorem search_history_log (calls : list call) :
  let st := exec calls in
  let h := searched calls in
  let r := fst (show_search_history st) in
  search_history st = h
  /\ match h with
     | [] => status_of r = Some "empty"
     | _ =>
         status_of r = Some "success"
         /\ result_field "total_searches" r = Some (VInt (Z.of_nat (length h)))
         /\ exists recent,
             result_field "history" r = Some (VList (map VStr recent))
             /\ (length recent = Nat.min 5 (length h))%nat
             /\ exists older, h = older ++ recent
     end.
Proof.
  intros st h r.
  assert (search_history st = h) as E
    by (unfold st, exec; now rewrite fold_search_history).
  split; [exact E|].
  unfold r, show_search_history. exec_cbn. rewrite E.
  destruct h as [|x h'] eqn:Eh; [reflexivity|]. rewrite <- Eh.
  split; [reflexivity|]. split; [reflexivity|].
  exists (skipn (length h - 5) h). split; [reflexivity|]. split.
  - rewrite length_skipn. lia.
  - exists (firstn (length h - 5) h). now rewrite firstn_skipn.
Qed.

(** X6: the search history has no influence on the cart: two states with
    the same catalog and the same cart, whatever their histories, give
    the same results and the same cart in the end, for every sequence of
    calls without [show_search_history]. *)
Theorem history_does_not_interfere (st1 st2 : state) (calls : list call) :
  products_db st1 = products_db st2 -> cart st1 = cart st2 ->
  ~ In ShowSearchHistory calls ->
  fst (run_all calls st1) = fst (run_all calls st2)
  /\ cart (snd (run_all calls st1)) = cart (snd (run_all calls st2)).
Proof.
  revert st1 st2. induction calls as [|t calls IH]; intros st1 st2 Hdb Hc Hn.
  - simpl. auto.
  - simpl in Hn. cbn [run_all].
    assert (t <> ShowSearchHistory) as Ht by (intros E; apply Hn; auto).
    destruct (run_ignores_history (products_db st1) (cart st1)
                (search_history st1) (search_history st2) t Ht) as [R1 R2].
    assert (st1 = mkState (products_db st1) (cart st1) (search_history st1))
      as E1 by now destruct st1.
    assert (st2 = mkState (products_db st1) (cart st1) (search_history st2))
      as E2 by (rewrite Hdb, Hc; now destruct st2).
    rewrite <- E1, <- E2 in R1, R2.
    destruct (IH (snd (run t st1)) (snd (run t st2))) as [I1 I2].
    + now rewrite !run_products_db.
    + exact R2.
    + tauto.
    + destruct (run_all calls (snd (run t st1))) as [r1 s1].
      destruct (run_all calls (snd (run t st2))) as [r2 s2].
      simpl in *. now rewrite R1, I1.
Qed.

Lemma history_does_not_interfere_witness :
  fst (run_all [ViewCart; AddToCart "monitor" (VInt 1)]
         (mkState PRODUCTS_DB (Cart.mk [] None) ["mouse"]))
  = fst (run_all [ViewCart; AddToCart "monitor" (VInt 1)]
           (mkState PRODUCTS_DB (Cart.mk [] None) [])).
Proof.
  apply (history_does_not_interfere
           (mkState PRODUCTS_DB (Cart.mk [] None) ["mouse"])
           (mkState PRODUCTS_DB (Cart.mk [] None) [])
           [ViewCart; AddToCart "monitor" (VInt 1)]).
  - reflexivity.
  - reflexivity.
  - simpl. intuition discriminate.
Defined.

(** X8: a search and a recommendation depend on the catalog only: their
    results are the same whatever the cart and the search history, for
    the tools of [agent.py] and for those of the MCP server. *)
Theorem catalog_queries_ignore_cart (db : list (string * Product.t))
        (c1 c2 : Cart.t) (h1 h2 : list string) :
  (forall product_name,
     fst (search_product_by_name product_name (mkState db c1 h1))
     = fst (search_product_by_name product_name (mkState db c2 h2)))
  /\ (forall category,
        fst (recommend_products category (mkState db c1 h1))
        = fst (recommend_products category (mkState db c2 h2)))
  /\ (forall name arguments,
        name = "search_product" \/ name = "recommend_products" ->
        fst (Mcp.call_mcp_tool name arguments (mkState db c1 h1))
        = fst (Mcp.call_mcp_tool name arguments (mkState db c2 h2))).
Proof.
  split; [|split].
  - intros product_name. unfold search_product_by_name. same_outcomes.
  - intros category. unfold recommend_products. same_outcomes.
  - intros name arguments H. rewrite !mcp_call_fst.
    enough (fst (Mcp.dispatch name arguments (mkState db c1 h1))
            = fst (Mcp.dispatch name arguments (mkState db c2 h2))) as E
      by (now rewrite E).
    destruct H as [-> | ->]; unfold Mcp.dispatch;
      cbn [String.eqb Ascii.eqb Bool.eqb].
    + unfold Mcp.search_product. same_outcomes.
    + unfold Mcp.recommend_products. same_outcomes.
Qed.

Lemma catalog_queries_ignore_cart_witness :
  fst (Mcp.call_mcp_tool "recommend_products"
         (Mcp.mkArguments None None None None (Some "audio"))
         (mkState Mcp.PRODUCTS_DB (Cart.mk [] (Some "VIP30")) ["mouse"]))
  = fst (Mcp.call_mcp_tool "recommend_products"
           (Mcp.mkArguments None None None None (Some "audio"))
           Mcp.initial_state).
Proof.
  destruct (catalog_queries_ignore_cart Mcp.PRODUCTS_DB
              (Cart.mk [] (Some "VIP30")) (Cart.mk [] None) ["mouse"] [])
    as (_ & _ & H).
  apply H. now right.
Defined.

(** ** Resolving a product *)

Lemma lower_char_idem (c : ascii) :
  PyStr.lower_char (PyStr.lower_char c) = PyStr.lower_char c.
Proof. each_char c; reflexivity. Qed.

Lemma is_space_lower_char (c : ascii) :
  PyStr.is_space (PyStr.lower_char c) = PyStr.is_space c.
Proof. each_char c; reflexivity. Qed.

Lemma lower_idem (s : string) : PyStr.lower (PyStr.lower s) = PyStr.lower s.
Proof.
  induction s as [|c s IH]; simpl; [reflexivity|].
  now rewrite lower_char_idem, IH.
Qed.

Lemma lower_app (s t : string) :
  PyStr.lower (s ++ t) = (PyStr.lower s ++ PyStr.lower t)%string.
Proof. induction s as [|c s IH]; simpl; [reflexivity | now rewrite IH]. Qed.

Lemma lstrip_lower (s : string) :
  PyStr.lstrip (PyStr.lower s) = PyStr.lower (PyStr.lstrip s).
Proof.
  induction s as [|c s IH]; simpl; [reflexivity|].
  rewrite is_space_lower_char. now destruct (PyStr.is_space c).
Qed.

Lemma lower_empty (s : string) : PyStr.lower s = "" -> s = "".
Proof. now destruct s. Qed.

Lemma rstrip_lower (s : string) :
  PyStr.rstrip (PyStr.lower s) = PyStr.lower (PyStr.rstrip s).
Proof.
  induction s as [|c s IH]; simpl; [reflexivity|].
  rewrite IH, is_space_lower_char.
  destruct (PyStr.rstrip s) as [|d r]; simpl.
  - now destruct (PyStr.is_space c).
  - reflexivity.
Qed.

Lemma strip_lower (s : string) :
  PyStr.strip (PyStr.lower s) = PyStr.lower (PyStr.strip s).
Proof. unfold PyStr.strip. now rewrite lstrip_lower, rstrip_lower. Qed.

Lemma rstrip_idem (s : string) : PyStr.rstrip (PyStr.rstrip s) = PyStr.rstrip s.
Proof.
  induction s as [|c s IH]; simpl; [reflexivity|].
  destruct (PyStr.rstrip s) as [|d r] eqn:E.
  - destruct (PyStr.is_space c) eqn:Ec; simpl; [reflexivity|].
    now rewrite Ec.
  - simpl in *. now rewrite IH.
Qed.

Lemma lstrip_trimmed (s : string) : trimmed_left (PyStr.lstrip s).
Proof.
  induction s as [|c s IH]; simpl; [exact I|].
  destruct (PyStr.is_space c) eqn:E; [exact IH | exact E].
Qed.

Lemma lstrip_of_trimmed (s : string) : trimmed_left s -> PyStr.lstrip s = s.
Proof. destruct s as [|c s]; simpl; [reflexivity|]. now intros ->. Qed.

Lemma rstrip_trimmed (s : string) :
  trimmed_left s -> trimmed_left (PyStr.rstrip s).
Proof.
  destruct s as [|c s]; simpl; [auto|]. intros E.
  destruct (PyStr.rstrip s); [rewrite E|]; exact E.
Qed.

Lemma strip_idem (s : string) : PyStr.strip (PyStr.strip s) = PyStr.strip s.
Proof.
  unfold PyStr.strip.
  rewrite (lstrip_of_trimmed (PyStr.rstrip (PyStr.lstrip s)))
    by apply rstrip_trimmed, lstrip_trimmed.
  apply rstrip_idem.
Qed.

Lemma lstrip_blank (pad s : string) :
  blank pad = true -> PyStr.lstrip (pad ++ s) = PyStr.lstrip s.
Proof.
  induction pad as [|c pad IH]; simpl; [reflexivity|].
  intros H. apply andb_prop in H. destruct H as [-> H]. auto.
Qed.

Lemma rstrip_blank (pad : string) : blank pad = true -> PyStr.rstrip pad = "".
Proof.
  induction pad as [|c pad IH]; simpl; [reflexivity|].
  intros H. apply andb_prop in H. destruct H as [-> H]. now rewrite IH.
Qed.

Lemma rstrip_app_blank (s pad : string) :
  blank pad = true -> PyStr.rstrip (s ++ pad) = PyStr.rstrip s.
Proof.
  intros H. induction s as [|c s IH]; simpl.
  - now apply rstrip_blank.
  - now rewrite IH.
Qed.

Lemma lstrip_app_nonblank (s t : string) :
  PyStr.lstrip s <> "" -> PyStr.lstrip (s ++ t) = (PyStr.lstrip s ++ t)%string.
Proof.
  induction s as [|c s IH]; simpl; [congruence|].
  destruct (PyStr.is_space c); auto.
Qed.

Lemma lstrip_all_blank (s : string) : PyStr.lstrip s = "" -> blank s = true.
Proof.
  induction s as [|c s IH]; simpl; [reflexivity|].
  destruct (PyStr.is_space c); [auto | discriminate].
Qed.

Lemma strip_padded (pad1 pad2 s : string) :
  blank pad1 = true -> blank pad2 = true ->
  PyStr.strip (pad1 ++ s ++ pad2) = PyStr.strip s.
Proof.
  intros H1 H2. unfold PyStr.strip. rewrite lstrip_blank by exact H1.
  destruct (PyStr.lstrip s) as [|c r] eqn:E.
  - assert (blank (s ++ pad2) = true) as Hb.
    { apply lstrip_all_blank in E. clear -E H2.
      induction s as [|c s IH]; simpl in *; [exact H2|].
      apply andb_prop in E. destruct E as [-> E]. auto. }
    assert (PyStr.lstrip (s ++ pad2) = "") as ->.
    { clear -Hb. induction (s ++ pad2)%string as [|c t IH]; simpl in *;
        [reflexivity|].
      apply andb_prop in Hb. destruct Hb as [-> Hb]. auto. }
    reflexivity.
  - rewrite lstrip_app_nonblank by (rewrite E; discriminate).
    rewrite E. now apply rstrip_app_blank.
Qed.

Lemma lower_upper_char (c : ascii) :
  (PyStr.code c <? 128)%N = true ->
  PyStr.lower (PyStr.upper_char c) = String (PyStr.lower_char c) "".
Proof. each_char c; intros H; try discriminate H; reflexivity. Qed.

Lemma lower_upper (s : string) :
  is_ascii s = true -> PyStr.lower (PyStr.upper s) = PyStr.lower s.
Proof.
  induction s as [|c s IH]; simpl; [reflexivity|].
  intros H. apply andb_prop in H. destruct H as [Hc H].
  now rewrite lower_app, lower_upper_char, IH.
Qed.

(** X11: [find_product_fuzzy] does not depend on the white space around
    the name nor on the case of its letters: the stripped name, the
    lower-cased name, the name with white space before and after it and,
    for a name of ASCII characters, the upper-cased name resolve as the
    name does; and two names that resolve alike make [add_to_cart] and
    [remove_from_cart] change the state alike. *)
Theorem find_product_fuzzy_normalises (db : list (string * Product.t))
        (name : string) :
  find_product_fuzzy db (PyStr.strip name) = find_product_fuzzy db name
  /\ find_product_fuzzy db (PyStr.lower name) = find_product_fuzzy db name
  /\ (forall pad1 pad2,
        blank pad1 = true -> blank pad2 = true ->
        find_product_fuzzy db (pad1 ++ name ++ pad2)
        = find_product_fuzzy db name)
  /\ (is_ascii name = true ->
      find_product_fuzzy db (PyStr.upper name) = find_product_fuzzy db name)
  /\ (forall name' st,
        products_db st = db ->
        find_product_fuzzy db name' = find_product_fuzzy db name ->
        (forall quantity,
           snd (add_to_cart name' quantity st)
           = snd (add_to_cart name quantity st))
        /\ (forall quantity,
              snd (remove_from_cart name' quantity st)
              = snd (remove_from_cart name quantity st))).
Proof.
  split; [|split; [|split; [|split]]].
  - unfold find_product_fuzzy. now rewrite strip_idem.
  - unfold find_product_fuzzy. now rewrite strip_lower, lower_idem.
  - intros pad1 pad2 H1 H2. unfold find_product_fuzzy.
    now rewrite strip_padded.
  - intros H. unfold find_product_fuzzy.
    now rewrite <- strip_lower, lower_upper, strip_lower.
  - intros name' st Hdb E. split; intros quantity.
    + rewrite !add_to_cart_state. unfold add_to_cart_effect.
      now rewrite Hdb, E.
    + rewrite !remove_from_cart_state. unfold remove_from_cart_effect.
      now rewrite Hdb, E.
Qed.

Lemma find_product_fuzzy_normalises_witness :
  find_product_fuzzy PRODUCTS_DB "  GAMING MOUSE PRO "
  = find_product_fuzzy PRODUCTS_DB "gaming mouse pro".
Proof.
  destruct (find_product_fuzzy_normalises PRODUCTS_DB "GAMING MOUSE PRO")
    as (_ & H2 & H3 & _ & _).
  pose proof (H3 "  " " " eq_refl eq_refl) as H. cbn [append] in H.
  rewrite H, <- H2. reflexivity.
Defined.

(** X12: every product of the catalog of [agent.py] is found by its key
    and by its display name, the name that the results show; on every
    reachable state a search for the display name succeeds and returns
    that product. *)
Theorem catalog_names_resolve (st : state) (key : string) (p : Product.t) :
  reachable st -> In (key, p) PRODUCTS_DB ->
  find_product_fuzzy PRODUCTS_DB key = Ok (Some (key, p))
  /\ find_product_fuzzy PRODUCTS_DB (Product.name p) = Ok (Some (key, p))
  /\ exists v,
       fst (search_product_by_name (Product.name p) st) = Ok v
       /\ at_path ["status"] v = Some (VStr "success")
       /\ at_path ["product"; "id"] v = Some (VStr (Product.id p))
       /\ at_path ["product"; "stock"] v = Some (VInt (Product.stock p)).
Proof.
  intros Hst Hin. pose proof (reachable_products_db st Hst) as Hdb.
  assert (find_product_fuzzy PRODUCTS_DB key = Ok (Some (key, p))
          /\ find_product_fuzzy PRODUCTS_DB (Product.name p)
             = Ok (Some (key, p))) as [F1 F2].
  { simpl in Hin.
    repeat (destruct Hin as [Hin|Hin];
            [injection Hin as <- <-; split; vm_compute; reflexivity|]).
    contradiction. }
  split; [exact F1|]. split; [exact F2|].
  pose proof (catalog_entry_bounds _ key p PRODUCTS_DB_ok Hin) as Hb.
  unfold search_product_by_name. exec_cbn. rewrite Hdb, F2. exec_cbn.
  rewrite format_price_int by (apply Z.abs_le; split; nia). exec_cbn.
  eexists. split; [reflexivity|]. repeat split.
Qed.

Lemma catalog_names_resolve_witness :
  find_product_fuzzy PRODUCTS_DB "Gaming Headphones 7.1"
  = Ok (Some ("7.1 headphones",
              Product.mk "AUR004" "Gaming Headphones 7.1" 150 8
                ["7.1 Surround Sound"; "Retractable microphone"; "RGB";
                 "Noise cancellation"]
                "Audio"
                "Gaming headphones with surround sound for maximum immersion"
                4.5%float 94)).
Proof.
  apply (catalog_names_resolve initial_state "7.1 headphones"
           (Product.mk "AUR004" "Gaming Headphones 7.1" 150 8
              ["7.1 Surround Sound"; "Retractable microphone"; "RGB";
               "Noise cancellation"]
              "Audio"
              "Gaming headphones with surround sound for maximum immersion"
              4.5%float 94)).
  - apply reachable_init.
  - simpl. tauto.
Defined.

(** ** The MCP server and the tools of the agent *)

Lemma same_catalog (k k' : string) (p p' : Product.t) :
  In (k, p) PRODUCTS_DB -> In (k', p') Mcp.PRODUCTS_DB ->
  Product.id p = Product.id p' ->
  Product.price p = Product.price p' /\ Product.stock p = Product.stock p'.
Proof.
  intros H H'. simpl in H, H'.
  repeat (destruct H as [H|H]; [injection H as <- <-|]); [..|contradiction];
    repeat (destruct H' as [H'|H']; [injection H' as <- <-|]);
    try contradiction; simpl; intros E; try discriminate E; split; reflexivity.
Qed.

Lemma same_categories :
  map Product.category (dict_values PRODUCTS_DB)
  = map Product.category (dict_values Mcp.PRODUCTS_DB).
Proof. reflexivity. Qed.

Lemma find_item_same (pid : string) (l1 l2 : list CartItem.t) :
  Forall2 same_line l1 l2 ->
  forall pos,
  match find_item pid pos l1, find_item pid pos l2 with
  | Some (n, x), Some (n', y) => n = n' /\ same_line x y
  | None, None => True
  | _, _ => False
  end.
Proof.
  induction 1 as [|x y l1 l2 Hxy _ IH]; intros pos; simpl; [exact I|].
  destruct Hxy as (Hid & Hrest). rewrite <- Hid.
  destruct (CartItem.product_id x =? pid)%string.
  - split; [reflexivity|]. split; assumption.
  - apply IH.
Qed.

Lemma set_nth_same (l1 l2 : list CartItem.t) (x y : CartItem.t) :
  Forall2 same_line l1 l2 -> same_line x y ->
  forall n, Forall2 same_line (set_nth n x l1) (set_nth n y l2).
Proof.
  induction 1 as [|x' y' l1 l2 Hxy Hl IH]; intros Hs n;
    destruct n; simpl; constructor; auto.
Qed.

Lemma requantify_same (x y : CartItem.t) (q : Z) :
  same_line x y -> same_line (requantify x q) (requantify y q).
Proof.
  intros (H1 & H2 & H3 & H4). unfold same_line, requantify. simpl.
  rewrite H2. auto.
Qed.

Lemma list_remove_same (pid : string) (l1 l2 : list CartItem.t) :
  Forall2 same_line l1 l2 ->
  forall pos n n' x y,
  find_item pid pos l1 = Some (n, x) -> find_item pid pos l2 = Some (n', y) ->
  exists r1 r2,
    list_remove x l1 = Ok r1 /\ list_remove y l2 = Ok r2
    /\ Forall2 same_line r1 r2.
Proof.
  induction 1 as [|x' y' l1 l2 Hxy Hl IH]; intros pos n n' x y; simpl;
    [discriminate|].
  destruct Hxy as (Hid & Hrest). rewrite <- Hid.
  destruct (String.eqb_spec (CartItem.product_id x') pid) as [E|NE].
  - intros [= <- <-] [= <- <-]. rewrite !CartItem_eqb_refl. eauto.
  - intros F1 F2.
    destruct (find_item_split _ _ _ _ _ F1) as (? & ? & _ & _ & Hx & _).
    destruct (find_item_split _ _ _ _ _ F2) as (? & ? & _ & _ & Hy & _).
    destruct (IH _ _ _ _ _ F1 F2) as (r1 & r2 & -> & -> & Hr).
    destruct (CartItem.eqb x' x) eqn:E1;
      [apply CartItem_eqb_id in E1; congruence|].
    destruct (CartItem.eqb y' y) eqn:E2;
      [apply CartItem_eqb_id in E2; congruence|].
    simpl. exists (x' :: r1), (y' :: r2). repeat split; auto.
    constructor; auto. split; auto.
Qed.

Lemma new_same (p p' : Product.t) (q : Z) :
  Product.id p = Product.id p' -> Product.price p = Product.price p' ->
  same_line (CartItem.new (Product.id p) (Product.name p) (Product.price p) q)
            (CartItem.new (Product.id p') (Product.name p') (Product.price p') q).
Proof. intros H1 H2. unfold same_line, CartItem.new. simpl. rewrite H2. auto. Qed.

Lemma alike_cases (n : string) :
  resolves_alike n ->
  (find_product_fuzzy PRODUCTS_DB n = Ok None
   /\ find_product_fuzzy Mcp.PRODUCTS_DB n = Ok None)
  \/ exists k p k' p',
       find_product_fuzzy PRODUCTS_DB n = Ok (Some (k, p))
       /\ find_product_fuzzy Mcp.PRODUCTS_DB n = Ok (Some (k', p'))
       /\ Product.id p = Product.id p'
       /\ Product.price p = Product.price p'
       /\ Product.stock p = Product.stock p'.
Proof.
  unfold resolves_alike, resolved.
  destruct (find_product_fuzzy_returns PRODUCTS_DB n) as ([[k p]|] & E);
    destruct (find_product_fuzzy_returns Mcp.PRODUCTS_DB n) as ([[k' p']|] & E');
    rewrite E, E'; try discriminate; [|auto].
  intros [= H]. right. exists k, p, k', p'.
  apply find_product_fuzzy_In in E, E'.
  destruct (same_catalog _ _ _ _ E E' H). auto.
Qed.

Lemma in_cart_same (pid : string) (l1 l2 : list CartItem.t) :
  Forall2 same_line l1 l2 -> in_cart pid l1 = in_cart pid l2.
Proof.
  intros H. unfold in_cart. pose proof (find_item_same pid _ _ H 0%nat) as F.
  destruct (find_item pid 0 l1) as [[? x]|], (find_item pid 0 l2) as [[? y]|];
    try contradiction; [|reflexivity].
  destruct F as (_ & _ & _ & Hq & _). exact Hq.
Qed.

Lemma add_line_same (p p' : Product.t) (q : Z) (l1 l2 : list CartItem.t) :
  Forall2 same_line l1 l2 ->
  Product.id p = Product.id p' -> Product.price p = Product.price p' ->
  Forall2 same_line (add_line p q l1) (add_line p' q l2).
Proof.
  intros H Hid Hprice. unfold add_line. rewrite <- Hid.
  pose proof (find_item_same (Product.id p) _ _ H 0%nat) as F.
  destruct (find_item (Product.id p) 0 l1) as [[n x]|],
           (find_item (Product.id p) 0 l2) as [[n' y]|]; try contradiction.
  - destruct F as (<- & Hxy). apply set_nth_same; [exact H|].
    destruct Hxy as (H1 & H2 & H3 & H4). rewrite H3.
    apply requantify_same. repeat split; auto.
  - apply Forall2_app; [exact H|]. constructor; [|constructor].
    unfold same_line, CartItem.new. simpl. rewrite Hprice. auto.
Qed.

Lemma remove_line_same (pid : string) (quantity : option Z)
      (l1 l2 : list CartItem.t) (n n' : nat) (x y : CartItem.t) :
  Forall2 same_line l1 l2 ->
  find_item pid 0 l1 = Some (n, x) -> find_item pid 0 l2 = Some (n', y) ->
  Forall2 same_line (remove_line n x quantity l1) (remove_line n' y quantity l2).
Proof.
  intros H F1 F2.
  pose proof (find_item_same pid _ _ H 0%nat) as F. rewrite F1, F2 in F.
  destruct F as (<- & Hxy).
  destruct (list_remove_same pid _ _ H _ _ _ _ _ F1 F2)
    as (r1 & r2 & R1 & R2 & Hr).
  unfold remove_line. rewrite R1, R2.
  pose proof Hxy as (_ & _ & Hq & _). rewrite <- Hq.
  destruct quantity as [k|]; [|exact Hr].
  destruct (CartItem.quantity x <=? k); [exact Hr|].
  destruct (0 <? k); [|exact H].
  apply set_nth_same; [exact H|]. now apply requantify_same.
Qed.

Lemma in_category_same (c : string) (l1 l2 : list Product.t) :
  map Product.category l1 = map Product.category l2 ->
  length (in_category c l1) = length (in_category c l2).
Proof.
  revert l2. induction l1 as [|x l1 IH]; intros [|y l2]; simpl;
    try discriminate; [reflexivity|].
  intros [= E1 E2]. rewrite E1.
  destruct (_ =? _)%string; simpl; auto.
Qed.

Lemma remaining_same (category : option string) :
  length (remaining_products PRODUCTS_DB category)
  = length (remaining_products Mcp.PRODUCTS_DB category).
Proof.
  unfold remaining_products.
  destruct category as [c|]; [|reflexivity].
  destruct (PyStr.truthy c); [|reflexivity].
  apply in_category_same, same_categories.
Qed.

Lemma same_emptiness (l1 l2 : list CartItem.t) :
  Forall2 same_line l1 l2 ->
  match l1, l2 with
  | [], [] => True
  | _ :: _, _ :: _ => True
  | _, _ => False
  end.
Proof. now destruct 1. Qed.

Lemma corresponds_with_items (a m : state) (l1 l2 : list CartItem.t) :
  corresponds a m -> Forall2 same_line l1 l2 ->
  corresponds (with_items l1 a) (with_items l2 m).
Proof. intros (_ & Hc & Hh) H. repeat split; simpl; auto. Qed.

Lemma tools_correspond (a m : state) (arguments : Mcp.arguments)
      (name : string) (tool : M value) :
  invariant a -> invariant m ->
  products_db a = PRODUCTS_DB -> products_db m = Mcp.PRODUCTS_DB ->
  corresponds a m ->
  In (name, tool) (counterparts arguments) ->
  Forall resolves_alike (names_of name arguments) ->
  corresponds (snd (tool a)) (snd (tool m))
  /\ status_of (fst (tool a)) = status_of (fst (tool m)).
Proof.
  intros Ha Hm Da Dm Hcor Hin Hal.
  pose proof Hcor as (Hl & Hc & Hh).
  pose proof (same_emptiness _ _ Hl) as Hempty.
  set (product_name := Mcp.get (Mcp.product_name arguments) "") in *.
  set (product := Mcp.get (Mcp.product arguments) "") in *.
  set (quantity := Mcp.get (Mcp.quantity arguments) 1) in *.
  set (code := Mcp.get (Mcp.code arguments) "") in *.
  unfold counterparts in Hin. cbn [In] in Hin.
  fold product_name product quantity code in Hin.
  repeat (destruct Hin as [Hin|Hin]; [injection Hin as <- <-|]);
    [..|contradiction];
    unfold names_of in Hal; cbn [String.eqb Ascii.eqb Bool.eqb orb] in Hal;
    fold product_name product in Hal.
  - (* search_product *)
    inversion Hal as [|? ? Hn _]; subst.
    rewrite !search_product_by_name_state. unfold search_effect.
    split; [repeat split; simpl; auto; now rewrite Hh|].
    destruct (search_product_by_name_result a product_name Ha)
      as (v & -> & _ & H).
    destruct (search_product_by_name_result m product_name Hm)
      as (v' & -> & _ & H').
    rewrite Da in H. rewrite Dm in H'.
    destruct (alike_cases _ Hn) as [[E E']|(k & p & k' & p' & E & E' & _)];
      rewrite E in H; rewrite E' in H'.
    + destruct H as [H _], H' as [H' _].
      now rewrite (tagged_status_of _ _ H), (tagged_status_of _ _ H').
    + now rewrite (tagged_status_of _ _ H), (tagged_status_of _ _ H').
  - (* add_to_cart *)
    inversion Hal as [|? ? Hn _]; subst.
    rewrite !add_to_cart_state. unfold add_to_cart_effect.
    pose proof (add_to_cart_result a product (VInt quantity) Ha) as R.
    pose proof (add_to_cart_result m product (VInt quantity) Hm) as R'.
    cbv zeta in R, R'. cbn [isinstance_int] in *.
    destruct (quantity <=? 0); [split; [exact Hcor | now rewrite R, R']|].
    rewrite Da in *. rewrite Dm in *.
    destruct (alike_cases _ Hn)
      as [[E E']|(k & p & k' & p' & E & E' & Hid & Hprice & Hstock)];
      rewrite E in *; rewrite E' in *;
      [split; [exact Hcor | now rewrite R, R']|].
    rewrite <- Hid, <- Hstock, <- (in_cart_same _ _ _ Hl) in *.
    destruct (Product.stock p <? _);
      [split; [exact Hcor | now rewrite R, R']|].
    split.
    + apply corresponds_with_items; [exact Hcor|].
      apply add_line_same; auto.
    + destruct R as (? & ? & ->), R' as (? & ? & ->). reflexivity.
  - (* view_cart *)
    rewrite (view_cart_readonly a : snd (view_cart a) = a).
    rewrite (view_cart_readonly m : snd (view_cart m) = m).
    split; [exact Hcor|].
    destruct (view_cart_result a Ha) as (v & -> & H).
    destruct (view_cart_result m Hm) as (v' & -> & H').
    destruct (Cart.items (cart a)), (Cart.items (cart m));
      try contradiction; destruct H as [H _], H' as [H' _];
      now rewrite (tagged_status_of _ _ H), (tagged_status_of _ _ H').
  - (* apply_discount *)
    rewrite !apply_discount_state. unfold apply_discount_effect.
    pose proof (apply_discount_result a code Ha) as R.
    pose proof (apply_discount_result m code Hm) as R'.
    cbv zeta in R, R'.
    destruct (Cart.items (cart a)) eqn:Ia, (Cart.items (cart m)) eqn:Im;
      try contradiction; [split; [exact Hcor | now rewrite R, R']|].
    destruct (lookup _ DISCOUNT_CODES);
      [|split; [exact Hcor | now rewrite R, R']].
    split.
    + unfold with_code. repeat split; simpl; auto. now rewrite Ia, Im.
    + destruct R as (? & ? & ->), R' as (? & ? & ->). reflexivity.
  - (* remove_from_cart *)
    inversion Hal as [|? ? Hn _]; subst.
    rewrite !remove_from_cart_state. unfold remove_from_cart_effect.
    pose proof (remove_from_cart_result a product (Mcp.quantity arguments) Ha)
      as R.
    pose proof (remove_from_cart_result m product (Mcp.quantity arguments) Hm)
      as R'.
    cbv zeta in R, R'.
    rewrite Da in *. rewrite Dm in *.
    destruct (alike_cases _ Hn)
      as [[E E']|(k & p & k' & p' & E & E' & Hid & Hprice & Hstock)];
      rewrite E in *; rewrite E' in *;
      [split; [exact Hcor | now rewrite R, R']|].
    rewrite <- Hid in *.
    pose proof (find_item_same (Product.id p) _ _ Hl 0%nat) as F.
    destruct (find_item (Product.id p) 0 (Cart.items (cart a)))
      as [[n x]|] eqn:F1;
      destruct (find_item (Product.id p) 0 (Cart.items (cart m)))
        as [[n' y]|] eqn:F2; try contradiction;
      [|split; [exact Hcor | now rewrite R, R']].
    split.
    + apply corresponds_with_items; [exact Hcor|].
      now apply (remove_line_same (Product.id p)).
    + destruct F as (_ & _ & _ & Hq & _). rewrite <- Hq in R'.
      destruct (Mcp.quantity arguments) as [j|].
      * destruct (CartItem.quantity x <=? j).
        -- destruct R as (? & ? & ->), R' as (? & ? & ->). reflexivity.
        -- destruct (0 <? j); [|now rewrite R, R'].
           destruct R as (? & ->), R' as (? & ->). reflexivity.
      * destruct R as (? & ? & ->), R' as (? & ? & ->). reflexivity.
  - (* clear_cart *)
    rewrite !clear_cart_state. unfold clear_cart_effect.
    split; [repeat split; simpl; auto|].
    destruct (clear_cart_result a) as (v & -> & H & _).
    destruct (clear_cart_result m) as (v' & -> & H' & _).
    now rewrite (tagged_status_of _ _ H), (tagged_status_of _ _ H').
  - (* calculate_total *)
    rewrite (calculate_total_readonly a : snd (calculate_total a) = a).
    rewrite (calculate_total_readonly m : snd (calculate_total m) = m).
    split; [exact Hcor|].
    destruct (calculate_total_result a Ha) as (v & -> & _ & H).
    destruct (calculate_total_result m Hm) as (v' & -> & _ & H').
    destruct (Cart.items (cart a)), (Cart.items (cart m));
      try contradiction;
      now rewrite (tagged_status_of _ _ H), (tagged_status_of _ _ H').
  - (* recommend_products *)
    rewrite (recommend_products_readonly (Mcp.category arguments) a
             : snd (recommend_products (Mcp.category arguments) a) = a).
    rewrite (recommend_products_readonly (Mcp.category arguments) m
             : snd (recommend_products (Mcp.category arguments) m) = m).
    split; [exact Hcor|].
    pose proof (recommend_products_result a (Mcp.category arguments) Ha) as R.
    pose proof (recommend_products_result m (Mcp.category arguments) Hm) as R'.
    cbv zeta in R, R'. rewrite Da in R. rewrite Dm in R'.
    pose proof (remaining_same (Mcp.category arguments)) as L.
    destruct (category_given _);
      destruct (remaining_products PRODUCTS_DB _);
      destruct (remaining_products Mcp.PRODUCTS_DB _);
      try discriminate L;
      try (destruct R as (? & ->)); try (destruct R as (? & ? & ? & _ & ->));
      try (destruct R' as (? & ->)); try (destruct R' as (? & ? & ? & _ & ->));
      reflexivity.
  - (* show_history *)
    rewrite (show_search_history_readonly a
             : snd (show_search_history a) = a).
    rewrite (show_search_history_readonly m
             : snd (show_search_history m) = m).
    split; [exact Hcor|].
    destruct (show_search_history_result a) as (v & -> & H).
    destruct (show_search_history_result m) as (v' & -> & H').
    rewrite <- Hh in H'.
    destruct (search_history a); destruct H as [H _], H' as [H' _];
      now rewrite (tagged_status_of _ _ H), (tagged_status_of _ _ H').
Qed.

(** On one and the same state, a branch of [call_mcp_tool] leaves the
    state that the function of [agent.py] with the same body leaves, and
    answers with the same status. *)
Lemma mcp_call_as_tool (st : state) (arguments : Mcp.arguments)
      (name : string) (tool : M value) :
  In (name, tool) (counterparts arguments) ->
  snd (Mcp.call_mcp_tool name arguments st) = snd (tool st)
  /\ (invariant st ->
      status_of (fst (Mcp.call_mcp_tool name arguments st))
      = status_of (fst (tool st))).
Proof.
  intros Hin.
  set (product_name := Mcp.get (Mcp.product_name arguments) "").
  set (product := Mcp.get (Mcp.product arguments) "").
  set (quantity := Mcp.get (Mcp.quantity arguments) 1).
  set (code := Mcp.get (Mcp.code arguments) "").
  unfold counterparts in Hin. cbn [In] in Hin.
  fold product_name product quantity code in Hin.
  repeat (destruct Hin as [Hin|Hin]; [injection Hin as <- <-; split|]);
    [..|contradiction].
  all: try (rewrite mcp_call_state; unfold mcp_effect;
            cbn [String.eqb Ascii.eqb Bool.eqb]).
  all: try intros Hinv.
  - now rewrite search_product_by_name_state.
  - rewrite (mcp_status "search_product" arguments st _ _ (mcp_search_product_result st arguments Hinv)).
    destruct (search_product_by_name_result st product_name Hinv)
      as (v & -> & _ & H).
    fold product_name.
    destruct (find_product_fuzzy _ _) as [[?|]|?];
      symmetry; apply tagged_status_of; tauto.
  - now rewrite add_to_cart_state.
  - rewrite (mcp_status "add_to_cart" arguments st _ _ (mcp_add_to_cart_result st arguments Hinv)).
    pose proof (add_to_cart_result st product (VInt quantity) Hinv) as R.
    cbv zeta in R. cbn [isinstance_int] in R. fold product quantity.
    destruct (quantity <=? 0); [now rewrite R|].
    destruct (find_product_fuzzy _ _) as [[[? p]|]|?];
      [|now rewrite R|contradiction].
    destruct (Product.stock p <? _); [now rewrite R|].
    destruct R as (message & more & ->). reflexivity.
  - now rewrite (view_cart_readonly st : snd (view_cart st) = st).
  - pose proof (mcp_view_cart_result st Hinv) as M.
    destruct (view_cart_result st Hinv) as (v & -> & H).
    destruct (Cart.items (cart st));
      rewrite (mcp_status "view_cart" arguments st _ _ M);
      symmetry; apply tagged_status_of; tauto.
  - now rewrite apply_discount_state.
  - rewrite (mcp_status "apply_discount" arguments st _ _ (mcp_apply_discount_result st arguments Hinv)).
    pose proof (apply_discount_result st code Hinv) as R.
    cbv zeta in R. fold code.
    destruct (Cart.items (cart st)); [now rewrite R|].
    destruct (lookup _ DISCOUNT_CODES); [|now rewrite R].
    destruct R as (message & more & ->). reflexivity.
  - now rewrite remove_from_cart_state.
  - rewrite (mcp_status "remove_from_cart" arguments st _ _
               (mcp_remove_from_cart_result st arguments Hinv)).
    pose proof (remove_from_cart_result st product (Mcp.quantity arguments)
                  Hinv) as R.
    cbv zeta in R. fold product.
    destruct (find_product_fuzzy _ _) as [[[? p]|]|?];
      [|now rewrite R|contradiction].
    destruct (find_item _ 0 _) as [[pos item]|]; [|now rewrite R].
    destruct (Mcp.quantity arguments) as [n|].
    + destruct (CartItem.quantity item <=? n).
      * destruct R as (message & more & ->). reflexivity.
      * destruct (0 <? n); [|now rewrite R].
        destruct R as (message & ->). reflexivity.
    + destruct R as (message & more & ->). reflexivity.
  - reflexivity.
  - reflexivity.
  - now rewrite (calculate_total_readonly st : snd (calculate_total st) = st).
  - rewrite (mcp_status "calculate_total" arguments st _ _ (mcp_calculate_total_result st Hinv)).
    destruct (calculate_total_result st Hinv) as (v & -> & _ & H).
    destruct (Cart.items (cart st)); symmetry; now apply tagged_status_of.
  - now rewrite (recommend_products_readonly (Mcp.category arguments) st
                 : snd (recommend_products (Mcp.category arguments) st) = st).
  - pose proof (mcp_recommend_products_result st arguments Hinv) as M.
    pose proof (recommend_products_result st (Mcp.category arguments) Hinv)
      as R.
    cbv zeta in R.
    destruct (category_given _); [destruct (remaining_products _ _)|];
      rewrite (mcp_status "recommend_products" arguments st _ _ M);
      try (destruct R as (recs & c' & message & _ & ->));
      try (destruct R as (message & ->)); reflexivity.
  - now rewrite (show_search_history_readonly st
                 : snd (show_search_history st) = st).
  - pose proof (mcp_show_history_result st) as M.
    destruct (show_search_history_result st) as (v & -> & H).
    destruct (search_history st);
      rewrite (mcp_status "show_history" arguments st _ _ M);
      symmetry; apply tagged_status_of; tauto.
Qed.

(** X9: the MCP server simulates [agent.py].  Take a state that the tools
    of [agent.py] reach and a state that the MCP server reaches, each
    program on its own catalog, holding the same cart up to the display
    names and the same search history.  When the product name of a call
    resolves to the same product, or to none, in both catalogs, the tool of
    the MCP server and the function of [agent.py] it stands for leave
    states that correspond again, and answer with the same status. *)
Theorem mcp_server_simulates_agent (a m : state) (arguments : Mcp.arguments)
        (name : string) (tool : M value) :
  reachable a -> Mcp.reachable m -> corresponds a m ->
  In (name, tool) (counterparts arguments) ->
  Forall resolves_alike (names_of name arguments) ->
  corresponds (snd (tool a)) (snd (Mcp.call_mcp_tool name arguments m))
  /\ status_of (fst (tool a))
     = status_of (fst (Mcp.call_mcp_tool name arguments m)).
Proof.
  intros Ha Hm Hcor Hin Hal.
  pose proof (reachable_invariant a Ha) as Ia.
  pose proof (mcp_reachable_invariant m Hm) as Im.
  destruct (mcp_call_as_tool m arguments name tool Hin) as [S St].
  rewrite S, (St Im).
  apply (tools_correspond a m arguments name tool); auto.
  - now apply reachable_products_db.
  - now apply mcp_reachable_products_db.
Qed.

Lemma mcp_server_simulates_agent_witness :
  let a := exec [AddToCart "mechanical rgb keyboard" (VInt 2)] in
  let m := Mcp.exec [("add_to_cart",
                      Mcp.mkArguments None (Some "mechanical keyboard rgb")
                        (Some 2) None None)] in
  let arguments :=
    Mcp.mkArguments None (Some "mechanical keyboard") (Some 1) None None in
  corresponds (snd (remove_from_cart "mechanical keyboard" (Some 1) a))
              (snd (Mcp.call_mcp_tool "remove_from_cart" arguments m))
  /\ status_of (fst (remove_from_cart "mechanical keyboard" (Some 1) a))
     = status_of (fst (Mcp.call_mcp_tool "remove_from_cart" arguments m)).
Proof.
  intros a m arguments.
  apply (mcp_server_simulates_agent a m arguments "remove_from_cart"
           (remove_from_cart "mechanical keyboard" (Some 1))).
  - apply reachable_exec.
  - apply mcp_reachable_exec.
  - vm_compute. repeat split. repeat constructor.
  - simpl. tauto.
  - constructor; [|constructor]. vm_compute. reflexivity.
Defined.

(** The two catalogs do not resolve every name alike: the key of the
    headphones in [agent.py] is no key of the MCP server, and is not close
    enough to one. *)
Lemma catalogs_resolve_apart :
  resolved PRODUCTS_DB "7.1 headphones" = Some "AUR004"
  /\ resolved Mcp.PRODUCTS_DB "7.1 headphones" = None.
Proof. split; vm_compute; reflexivity. Qed.

(** X14: [call_mcp_tool] never writes the catalog; it appends the query
    to the search history for search_product and leaves the history as
    it was for every other name; the cart can change only for
    add_to_cart, apply_discount, remove_from_cart and clear_cart, and
    for every name other than these and search_product the whole state
    stays as it was. *)
Theorem mcp_frame (st : state) (name : string) (arguments : Mcp.arguments) :
  let st' := snd (Mcp.call_mcp_tool name arguments st) in
  products_db st' = products_db st
  /\ search_history st'
     = search_history st
       ++ (if (name =? "search_product")%string
           then [Mcp.get (Mcp.product_name arguments) ""] else [])
  /\ (~ In name ["add_to_cart"; "apply_discount"; "remove_from_cart";
                 "clear_cart"] ->
      cart st' = cart st)
  /\ (~ In name ["search_product"; "add_to_cart"; "apply_discount";
                 "remove_from_cart"; "clear_cart"] ->
      st' = st).
Proof.
  intros st'. unfold st'. clear st'. rewrite mcp_call_state.
  unfold mcp_effect.
  destruct (String.eqb_spec name "search_product") as [->|N1].
  { simpl. repeat split; intros H; exfalso; apply H; simpl; tauto. }
  destruct (String.eqb_spec name "add_to_cart") as [->|N2].
  { unfold add_to_cart_effect. cbn [isinstance_int].
    rewrite app_nil_r.
    split; [|split; [|split; intros H; exfalso; apply H; simpl; tauto]];
      destruct (_ <=? 0); try reflexivity;
      destruct (find_product_fuzzy _ _) as [[[key p]|]|e]; try reflexivity;
      destruct (Product.stock p <? _); reflexivity. }
  destruct (String.eqb_spec name "apply_discount") as [->|N3].
  { unfold apply_discount_effect. rewrite app_nil_r.
    split; [|split; [|split; intros H; exfalso; apply H; simpl; tauto]];
      destruct (Cart.items (cart st)); try reflexivity;
      destruct (lookup _ DISCOUNT_CODES); reflexivity. }
  destruct (String.eqb_spec name "remove_from_cart") as [->|N4].
  { unfold remove_from_cart_effect. rewrite app_nil_r.
    split; [|split; [|split; intros H; exfalso; apply H; simpl; tauto]];
      destruct (find_product_fuzzy _ _) as [[[key p]|]|e]; try reflexivity;
      destruct (find_item _ 0 _) as [[pos item]|]; reflexivity. }
  destruct (String.eqb_spec name "clear_cart") as [->|N5].
  { rewrite app_nil_r.
    split; [|split; [|split; intros H; exfalso; apply H; simpl; tauto]];
      reflexivity. }
  rewrite app_nil_r. repeat split.
Qed.

Lemma mcp_frame_witness :
  let st := Mcp.exec [("search_product",
                       Mcp.mkArguments (Some "mouse") None None None None)] in
  snd (Mcp.call_mcp_tool "view_cart"
         (Mcp.mkArguments None None None None None) st) = st.
Proof.
  intros st.
  apply (mcp_frame st "view_cart" (Mcp.mkArguments None None None None None)).
  simpl. intuition discriminate.
Defined.

Ltac all_outcomes :=
  repeat (exec_cbn;
          match goal with
          | |- context [match ?x with Ok _ => _ | Raise _ => _ end] =>
              destruct x
          | |- context [if ?b then _ else _] => destruct b
          | |- context [match ?x with Some _ => _ | None => _ end] =>
              destruct x
          | |- context [match ?x with [] => _ | _ :: _ => _ end] =>
              destruct x
          | |- context [let '(_, _) := ?x in _] => destruct x
          | |- context [lift ?x] => destruct x
          end);
  exec_cbn.

Lemma implemented_answer (name : string) (arguments : Mcp.arguments)
      (st : state) :
  (forall v, fst (Mcp.dispatch name arguments st) = Ok v ->
             field "message" v <> Some (not_implemented_message name)) ->
  forall v,
    fst (Mcp.call_mcp_tool name arguments st) = Ok v ->
    field "message" v <> Some (not_implemented_message name).
Proof.
  intros H v. unfold Mcp.call_mcp_tool.
  destruct (Mcp.dispatch name arguments st) as [[r|e] st']; simpl.
  - apply H.
  - intros [= <-]. discriminate.
Qed.

Ltac never_not_implemented :=
  intros v; all_outcomes; intros [= <-]; discriminate.

(** X10: the server implements the tools it advertises, and no other:
    the nine names of [list_mcp_tools] are distinct, every property that
    a schema requires is one it declares, a call of an advertised tool
    never gets the answer "not implemented", a call of any other name
    gets that answer, with the status error, and changes nothing, and
    add_to_cart without a quantity is add_to_cart with the default
    quantity of its schema. *)
Theorem advertised_tools_are_implemented :
  NoDup (map Mcp.Tool.name Mcp.list_mcp_tools)
  /\ (forall tool, In tool Mcp.list_mcp_tools ->
        forall p, In (VStr p) (required (Mcp.Tool.inputSchema tool)) ->
                  In p (declared (Mcp.Tool.inputSchema tool)))
  /\ (forall name arguments st v,
        In name (map Mcp.Tool.name Mcp.list_mcp_tools) ->
        fst (Mcp.call_mcp_tool name arguments st) = Ok v ->
        field "message" v <> Some (not_implemented_message name))
  /\ (forall name arguments st,
        ~ In name (map Mcp.Tool.name Mcp.list_mcp_tools) ->
        fst (Mcp.call_mcp_tool name arguments st)
        = Ok (VDict [("status", VStr "error");
                     ("message", not_implemented_message name)])
        /\ snd (Mcp.call_mcp_tool name arguments st) = st)
  /\ (forall tool d arguments st,
        In tool Mcp.list_mcp_tools ->
        Mcp.Tool.name tool = "add_to_cart" ->
        at_path ["properties"; "quantity"; "default"]
                (Mcp.Tool.inputSchema tool) = Some (VInt d) ->
        Mcp.quantity arguments = None ->
        Mcp.call_mcp_tool "add_to_cart" arguments st
        = Mcp.call_mcp_tool "add_to_cart"
            (Mcp.mkArguments (Mcp.product_name arguments)
               (Mcp.product arguments) (Some d) (Mcp.code arguments)
               (Mcp.category arguments)) st).
Proof.
  split; [|split; [|split; [|split]]].
  - simpl. repeat constructor; simpl; intuition discriminate.
  - intros tool Ht p Hp. simpl in Ht.
    repeat (destruct Ht as [<-|Ht]; [simpl in *; intuition congruence|]).
    contradiction.
  - intros name arguments st v Hn. revert v.
    apply implemented_answer.
    simpl in Hn. unfold Mcp.dispatch.
    repeat (destruct Hn as [<-|Hn];
            [cbn [String.eqb Ascii.eqb Bool.eqb]|]); [..|contradiction].
    + unfold Mcp.search_product. never_not_implemented.
    + unfold Mcp.add_to_cart. never_not_implemented.
    + unfold Mcp.view_cart. never_not_implemented.
    + unfold Mcp.apply_discount. never_not_implemented.
    + unfold Mcp.remove_from_cart. never_not_implemented.
    + unfold Mcp.clear_cart. never_not_implemented.
    + unfold Mcp.calculate_total. never_not_implemented.
    + unfold Mcp.recommend_products. never_not_implemented.
    + unfold Mcp.show_history. never_not_implemented.
  - intros name arguments st Hn.
    assert (Mcp.dispatch name arguments = Mcp.not_implemented name) as E
      by (apply mcp_dispatch_other; exact Hn).
    unfold Mcp.call_mcp_tool. rewrite E. split; reflexivity.
  - intros tool d arguments st Ht Hname Hd Hq. simpl in Ht.
    repeat (destruct Ht as [<-|Ht]; [try discriminate Hname|]);
      [|contradiction].
    injection Hd as <-.
    unfold Mcp.call_mcp_tool, Mcp.dispatch.
    cbn [String.eqb Ascii.eqb Bool.eqb]. unfold Mcp.add_to_cart.
    cbn [Mcp.quantity Mcp.product]. now rewrite Hq.
Qed.

Lemma advertised_tools_are_implemented_witness :
  fst (Mcp.call_mcp_tool "checkout" (Mcp.mkArguments None None None None None)
         Mcp.initial_state)
  = Ok (VDict [("status", VStr "error");
               ("message", not_implemented_message "checkout")]).
Proof.
  destruct advertised_tools_are_implemented as (_ & _ & _ & H & _).
  apply H. simpl. intuition discriminate.
Defined.
